(** * DataHub search pipeline: a shallow embedding of [scripts/datahub_search.py]

    The development follows the script region by region: configuration
    tables, the search client, the predicate engine, the temporal codec,
    the sorter, the formatter, the token acquisition and [main].  Python
    values that come out of [response.json()] are embedded as the inductive type [json]; every
    Python operation that can raise is embedded in the error monad [res].

    Modelling conventions.
    - Text is ASCII: [str.lower], [str.upper] and the comparison of strings
      act on bytes.
    - JSON numbers are integers; non-integer numbers are left out, except
      in the module [Full], which embeds the sorter a second time over
      values with floats: the sorter compares raw values, and there a
      [NaN] changes what it does.
    - A naive [datetime] is the number of microseconds since
      0001-01-01T00:00:00, on which Python's comparison of naive datetimes is
      the comparison of integers.
    - The diagnostic lines printed on stderr are not part of the results and
      are left out. *)

From Stdlib Require Import ZArith QArith List Bool Ascii String Lia Permutation Sorted.
From Stdlib Require Import DecimalString.
Import ListNotations.
Open Scope string_scope.
Open Scope Z_scope.

(** ** Exceptions and the error monad *)

Inductive exn : Type :=
| TypeError
| AttributeError
| ValueError
| OverflowError
| OSError
| NotModelled.

Inductive res (A : Type) : Type :=
| Ok (a : A)
| Raise (e : exn).

Arguments Ok {A} a.
Arguments Raise {A} e.

Definition bind {A B : Type} (m : res A) (k : A -> res B) : res B :=
  match m with
  | Ok a => k a
  | Raise e => Raise e
  end.

Notation "x <- m ;; k" := (bind m (fun x => k))
  (at level 61, m at next level, right associativity).

(** [try: body except ValueError: handler] *)
Definition except_ValueError {A : Type} (body handler : res A) : res A :=
  match body with
  | Raise ValueError => handler
  | r => r
  end.

(** [try: body except (ValueError, OSError): handler] *)
Definition except_ValueError_OSError {A : Type} (body handler : res A) : res A :=
  match body with
  | Raise ValueError => handler
  | Raise OSError => handler
  | r => r
  end.

(** A list comprehension [[x for x in l if p(x)]]: the condition is
    evaluated from left to right and the first exception aborts it. *)
Fixpoint filterM {A : Type} (p : A -> res bool) (l : list A) : res (list A) :=
  match l with
  | [] => Ok []
  | x :: t =>
      b <- p x ;;
      r <- filterM p t ;;
      Ok (if b then x :: r else r)
  end.

Fixpoint mapM {A B : Type} (f : A -> res B) (l : list A) : res (list B) :=
  match l with
  | [] => Ok []
  | x :: t =>
      y <- f x ;;
      r <- mapM f t ;;
      Ok (y :: r)
  end.

(** ** Strings *)

Definition code (c : ascii) : Z := Z.of_N (N_of_ascii c).

Definition lower_char (c : ascii) : ascii :=
  if (65 <=? code c) && (code c <=? 90)
  then ascii_of_N (N_of_ascii c + 32) else c.

Definition upper_char (c : ascii) : ascii :=
  if (97 <=? code c) && (code c <=? 122)
  then ascii_of_N (N_of_ascii c - 32) else c.

Fixpoint map_string (f : ascii -> ascii) (s : string) : string :=
  match s with
  | EmptyString => EmptyString
  | String c t => String (f c) (map_string f t)
  end.

Definition lower (s : string) : string := map_string lower_char s.
Definition upper (s : string) : string := map_string upper_char s.

Definition startswith (s p : string) : bool := String.prefix p s.

Definition endswith (s p : string) : bool :=
  (String.length p <=? String.length s)%nat
  && String.eqb (substring (String.length s - String.length p) (String.length p) s) p.

(** [needle in hay] *)
Fixpoint contains (needle hay : string) : bool :=
  String.prefix needle hay
  || match hay with
     | EmptyString => false
     | String _ t => contains needle t
     end.

(** [s[:n]] for a non-negative literal [n] *)
Definition slice_to (n : nat) (s : string) : string := substring 0 n s.

(** [s[a:-b]] for non-negative literals [a] and [b] *)
Definition slice_mid (a b : nat) (s : string) : string :=
  substring a (String.length s - b - a) s.

Definition str_of_Z (n : Z) : string := NilZero.string_of_int (Z.to_int n).

(** ** JSON values *)

#[local] Set Warnings "-register-all".

Inductive json : Type :=
| JNull
| JBool (b : bool)
| JInt (n : Z)
| JStr (s : string)
| JList (l : list json)
| JDict (d : list (string * json)).

(** A Python dict is an association list read through [lookup]; only the
    first binding of a key is visible. *)
Fixpoint lookup (k : string) (d : list (string * json)) : option json :=
  match d with
  | [] => None
  | (k', v) :: t => if String.eqb k k' then Some v else lookup k t
  end.

(** Python truthiness, [bool(v)] *)
Definition truthy (v : json) : bool :=
  match v with
  | JNull => false
  | JBool b => b
  | JInt n => negb (n =? 0)
  | JStr s => negb (String.eqb s "")
  | JList l => match l with [] => false | _ => true end
  | JDict d => match d with [] => false | _ => true end
  end.

(** [o.get(k, default)]; only a dict has the method. *)
Definition py_get (o : json) (k : string) (default : json) : res json :=
  match o with
  | JDict d =>
      Ok (match lookup k d with
          | Some v => v
          | None => default
          end)
  | _ => Raise AttributeError
  end.

(** [v.lower()] and [v.upper()]; only a str has the methods. *)
Definition py_lower (v : json) : res string :=
  match v with
  | JStr s => Ok (lower s)
  | _ => Raise AttributeError
  end.

Definition py_upper (v : json) : res string :=
  match v with
  | JStr s => Ok (upper s)
  | _ => Raise AttributeError
  end.

(** [v == n] for an integer literal [n]: [True == 1] holds in Python. *)
Definition py_eq_int (v : json) (n : Z) : bool :=
  match v with
  | JInt m => m =? n
  | JBool b => (if b then 1 else 0) =? n
  | _ => false
  end.

(** An optional text argument used as a condition, [if arg:] *)
Definition given (arg : option string) : option string :=
  match arg with
  | Some s => if String.eqb s "" then None else Some s
  | None => None
  end.

(** ** Temporal codec *)

(** A naive datetime: microseconds since 0001-01-01T00:00:00. *)
Definition datetime : Type := Z.

Definition is_leap (y : Z) : bool :=
  ((y mod 4 =? 0) && negb (y mod 100 =? 0)) || (y mod 400 =? 0).

Definition days_in_month (y m : Z) : Z :=
  if m =? 2 then (if is_leap y then 29 else 28)
  else if (m =? 4) || (m =? 6) || (m =? 9) || (m =? 11) then 30
  else 31.

Definition days_before_year (y : Z) : Z :=
  365 * (y - 1) + (y - 1) / 4 - (y - 1) / 100 + (y - 1) / 400.

Fixpoint days_before_month_aux (y : Z) (n : nat) : Z :=
  match n with
  | O => 0
  | S k => days_before_month_aux y k + days_in_month y (Z.of_nat (S k))
  end.

(** Days of year [y] before the first day of month [m]. *)
Definition days_before_month (y m : Z) : Z :=
  days_before_month_aux y (Z.to_nat (m - 1)).

Definition US_PER_DAY : Z := 86400 * 1000000.

(** [datetime(y, m, d)], midnight; a [ValueError] outside the calendar. *)
Definition datetime_ymd (y m d : Z) : res datetime :=
  if (1 <=? y) && (y <=? 9999) && (1 <=? m) && (m <=? 12)
     && (1 <=? d) && (d <=? days_in_month y m)
  then Ok ((days_before_year y + days_before_month y m + (d - 1)) * US_PER_DAY)
  else Raise ValueError.

Definition digit (c : ascii) : option Z :=
  if (48 <=? code c) && (code c <=? 57) then Some (code c - 48) else None.

Definition digit_in (lo hi : Z) (c : ascii) : option Z :=
  match digit c with
  | Some v => if (lo <=? v) && (v <=? hi) then Some v else None
  | None => None
  end.

(** The directive [%m]: the alternatives [1[0-2]], [0[1-9]], [[1-9]]. *)
Definition parse_month (l : list ascii) : option (Z * list ascii) :=
  match l with
  | c1 :: t =>
      let two :=
        match t with
        | c2 :: r =>
            match digit_in 1 1 c1, digit_in 0 2 c2 with
            | Some _, Some v => Some (10 + v, r)
            | _, _ =>
                match digit_in 0 0 c1, digit_in 1 9 c2 with
                | Some _, Some v => Some (v, r)
                | _, _ => None
                end
            end
        | [] => None
        end in
      match two with
      | Some x => Some x
      | None =>
          match digit_in 1 9 c1 with
          | Some v => Some (v, t)
          | None => None
          end
      end
  | [] => None
  end.

(** The directive [%d]: the alternatives [3[01]], [[12]\d], [0[1-9]],
    [[1-9]] and a space followed by [[1-9]]. *)
Definition parse_day (l : list ascii) : option (Z * list ascii) :=
  match l with
  | c1 :: t =>
      let two :=
        match t with
        | c2 :: r =>
            match digit_in 3 3 c1, digit_in 0 1 c2 with
            | Some _, Some v => Some (30 + v, r)
            | _, _ =>
                match digit_in 1 2 c1, digit c2 with
                | Some u, Some v => Some (10 * u + v, r)
                | _, _ =>
                    match digit_in 0 0 c1, digit_in 1 9 c2 with
                    | Some _, Some v => Some (v, r)
                    | _, _ => None
                    end
                end
            end
        | [] => None
        end in
      match two with
      | Some x => Some x
      | None =>
          match digit_in 1 9 c1 with
          | Some v => Some (v, t)
          | None =>
              match t with
              | c2 :: r =>
                  if (code c1 =? 32)
                  then match digit_in 1 9 c2 with
                       | Some v => Some (v, r)
                       | None => None
                       end
                  else None
              | [] => None
              end
          end
      end
  | [] => None
  end.

Definition is_dash (c : ascii) : bool := code c =? 45.

(** [datetime.strptime(s, "%Y-%m-%d")] *)
Definition strptime_ymd (s : string) : res datetime :=
  match list_ascii_of_string s with
  | y1 :: y2 :: y3 :: y4 :: dash1 :: t =>
      match digit y1, digit y2, digit y3, digit y4 with
      | Some a, Some b, Some c, Some d =>
          if is_dash dash1 then
            match parse_month t with
            | Some (m, dash2 :: t') =>
                if is_dash dash2 then
                  match parse_day t' with
                  | Some (dd, []) =>
                      datetime_ymd (1000 * a + 100 * b + 10 * c + d) m dd
                  | _ => Raise ValueError
                  end
                else Raise ValueError
            | _ => Raise ValueError
            end
          else Raise ValueError
      | _, _, _, _ => Raise ValueError
      end
  | _ => Raise ValueError
  end.

(** [int(s)] for a str in base ten: surrounding whitespace, one optional
    sign, digits separated by single underscores, at most 4300 digits. *)
Definition is_space (c : ascii) : bool :=
  ((9 <=? code c) && (code c <=? 13)) || (code c =? 32).

Fixpoint lstrip (l : list ascii) : list ascii :=
  match l with
  | c :: t => if is_space c then lstrip t else l
  | [] => []
  end.

Definition strip (l : list ascii) : list ascii :=
  rev (lstrip (rev (lstrip l))).

Fixpoint parse_digits (acc : Z) (count : nat) (after_digit : bool)
  (l : list ascii) : option (Z * nat) :=
  match l with
  | [] => if after_digit then Some (acc, count) else None
  | c :: t =>
      match digit c with
      | Some v => parse_digits (10 * acc + v) (S count) true t
      | None =>
          if (code c =? 95) && after_digit
          then parse_digits acc count false t
          else None
      end
  end.

Definition MAX_STR_DIGITS : nat := 4300.

Definition py_int (s : string) : res Z :=
  let body := strip (list_ascii_of_string s) in
  let '(negative, ds) :=
    match body with
    | c :: t =>
        if code c =? 45 then (true, t)
        else if code c =? 43 then (false, t)
        else (false, body)
    | [] => (false, body)
    end in
  match parse_digits 0 0 false ds with
  | Some (v, count) =>
      if (count <=? MAX_STR_DIGITS)%nat
      then Ok (if negative then - v else v)
      else Raise ValueError
  | None => Raise ValueError
  end.

(** The least magnitude that rounds to an infinite double. *)
Definition DBL_OVERFLOW : Z := 2 ^ 1024 - 2 ^ 970.

(** 1970-01-01T00:00:00 and the first instant after year 9999. *)
Definition EPOCH_US : datetime := 719162 * US_PER_DAY.
Definition MAX_US : datetime := 3652059 * US_PER_DAY.

Section Host.

(** Offset of the host's local time from UTC, in microseconds, at an
    instant given in milliseconds since the epoch. *)
Variable utcoffset : Z -> Z.

(** [datetime.fromtimestamp(ms / 1000)] on a POSIX host with a 64-bit
    [time_t].  The true division overflows the doubles from
    [DBL_OVERFLOW] on.  A quotient whose double lies beyond [2 ^ 63] in
    magnitude is an [OverflowError]; the doubles next to [2 ^ 63] are
    2048 apart, so these are the quotients beyond [2 ^ 63 + 1024].  A
    local year outside 1..9999 is a [ValueError] (or an [OSError] when
    the C library gives up first: the caller treats both alike), and so
    is a local year below 1 one day earlier, which is the instant the
    library probes to detect a repeated hour.  Elsewhere the rounding of
    the quotient to a double is not modelled: it moves an instant by less
    than half an ulp, which is below a microsecond until 2106 and below
    16 microseconds until 9999. *)
Definition fromtimestamp_ms (ms : Z) : res datetime :=
  if 1000 * DBL_OVERFLOW <=? Z.abs ms then Raise OverflowError
  else if 1000 * (2 ^ 63 + 1024) <? Z.abs ms then Raise OverflowError
  else
    let t := EPOCH_US + ms * 1000 + utcoffset ms in
    let probe :=
      EPOCH_US + (ms - 86400000) * 1000 + utcoffset (ms - 86400000) in
    if (0 <=? probe) && (0 <=? t) && (t <? MAX_US) then Ok t
    else Raise ValueError.

Definition _parse_odata_date (date_str : json) : res (option datetime) :=
  if negb (truthy date_str) then Ok None
  else
    match date_str with
    | JStr s =>
        if startswith s "/Date(" && endswith s ")/" then
          except_ValueError_OSError
            (ms <- py_int (slice_mid 6 2 s) ;;
             dt <- fromtimestamp_ms ms ;;
             Ok (Some dt))
            (Ok None)
        else
          except_ValueError
            (dt <- strptime_ymd (slice_to 10 s) ;; Ok (Some dt))
            (Ok None)
    | _ => Raise AttributeError
    end.

Definition _get_item_refresh_time (item : json) : res json :=
  refresh_time <- py_get item "lastRefreshTime" JNull ;;
  if truthy refresh_time then Ok refresh_time
  else
    artifact <- py_get item "artifact" (JDict []) ;;
    upper_spelling <- py_get artifact "LastRefreshTime" JNull ;;
    refresh_time <-
      (if truthy upper_spelling then Ok upper_spelling
       else py_get artifact "lastRefreshTime" JNull) ;;
    if truthy refresh_time then Ok refresh_time
    else
      updated <- py_get artifact "lastUpdatedDate" JNull ;;
      if truthy updated then Ok updated else Ok JNull.

Definition _get_item_refresh_datetime (item : json) : res (option datetime) :=
  refresh_str <- _get_item_refresh_time item ;;
  _parse_odata_date refresh_str.

End Host.

(** ** Predicate engine *)

Section Filtering.

Variable utcoffset : Z -> Z.

(** [name_lower in item.get("displayName", "").lower()
     or name_lower in item.get("name", "").lower()] *)
Definition matches_name (name_lower : string) (item : json) : res bool :=
  v <- py_get item "displayName" (JStr "") ;;
  s <- py_lower v ;;
  if contains name_lower s then Ok true
  else
    v' <- py_get item "name" (JStr "") ;;
    s' <- py_lower v' ;;
    Ok (contains name_lower s').

Definition matches_workspace (ws_lower : string) (item : json) : res bool :=
  v <- py_get item "workspaceName" (JStr "") ;;
  s <- py_lower v ;;
  Ok (contains ws_lower s).

(** [owner_lower in item.get("ownerUser", {}).get(field, "").lower()] *)
Definition owner_field_has (owner_lower field : string) (item : json) : res bool :=
  owner <- py_get item "ownerUser" (JDict []) ;;
  v <- py_get owner field (JStr "") ;;
  s <- py_lower v ;;
  Ok (contains owner_lower s).

Definition matches_owner (owner_lower : string) (item : json) : res bool :=
  e <- owner_field_has owner_lower "emailAddress" item ;;
  if e then Ok true
  else
    g <- owner_field_has owner_lower "givenName" item ;;
    if g then Ok true
    else owner_field_has owner_lower "familyName" item.

(** [datetime.strptime(item["lastVisitedTimeUTC"][:10], "%Y-%m-%d")] for
    a truthy value [v] of the field: a str is sliced and parsed; a list
    is sliced and refused by [strptime]; nothing else can be sliced. *)
Definition visited_datetime (v : json) : res datetime :=
  match v with
  | JStr s => strptime_ymd (slice_to 10 s)
  | _ => Raise TypeError
  end.

(** [item.get("lastVisitedTimeUTC") and visited >= since_date], and the
    same with [<] when [before] is set. *)
Definition matches_visited (before : bool) (since_date : datetime)
  (item : json) : res bool :=
  v <- py_get item "lastVisitedTimeUTC" JNull ;;
  if truthy v then
    d <- visited_datetime v ;;
    Ok (if before then d <? since_date else since_date <=? d)
  else Ok false.

(** The local function [get_refresh_datetime] of both refresh filters. *)
Definition get_refresh_datetime (item : json) : res (option datetime) :=
  refresh_str <- py_get item "lastRefreshTime" JNull ;;
  if truthy refresh_str then _parse_odata_date utcoffset refresh_str
  else
    artifact <- py_get item "artifact" (JDict []) ;;
    upper_spelling <- py_get artifact "LastRefreshTime" JNull ;;
    refresh_str <-
      (if truthy upper_spelling then Ok upper_spelling
       else py_get artifact "lastRefreshTime" JNull) ;;
    if truthy refresh_str then _parse_odata_date utcoffset refresh_str
    else
      updated <- py_get artifact "lastUpdatedDate" JNull ;;
      if truthy updated then _parse_odata_date utcoffset updated
      else Ok None.

(** [get(item) and get(item) >= since_date]: a datetime is always truthy
    and [get] is evaluated a second time only then. *)
Definition matches_instant (get : json -> res (option datetime))
  (before : bool) (since_date : datetime) (item : json) : res bool :=
  first <- get item ;;
  match first with
  | None => Ok false
  | Some _ =>
      second <- get item ;;
      match second with
      | Some d => Ok (if before then d <? since_date else since_date <=? d)
      | None => Raise TypeError
      end
  end.

Definition get_modified_datetime (item : json) : res (option datetime) :=
  v <- py_get item "modifiedDate" JNull ;;
  _parse_odata_date utcoffset v.

Definition matches_storage (mode_lower : string) (item : json) : res bool :=
  artifact <- py_get item "artifact" (JDict []) ;;
  sm <- py_get artifact "storageMode" JNull ;;
  dl <- py_get artifact "directLakeMode" (JBool false) ;;
  if String.eqb mode_lower "import" && py_eq_int sm 1 then Ok true
  else if String.eqb mode_lower "directquery" && py_eq_int sm 2 then Ok true
  else if String.eqb mode_lower "directlake" && truthy dl then Ok true
  else Ok false.

Definition matches_sku (sku_upper : string) (item : json) : res bool :=
  artifact <- py_get item "artifact" (JDict []) ;;
  v <- py_get artifact "sharedFromEnterpriseCapacitySku" (JStr "") ;;
  s <- py_upper v ;;
  Ok (contains sku_upper s).

(** One text stage: [if arg: result = [item for item in result if ...]] *)
Definition text_stage (arg : option string) (prepare : string -> string)
  (pred : string -> json -> res bool) (result : list json) : res (list json) :=
  match given arg with
  | Some s => filterM (pred (prepare s)) result
  | None => Ok result
  end.

(** One temporal stage: the boundary is parsed and the comprehension is
    evaluated inside one [try]; a [ValueError] from either leaves
    [result] as it was. *)
Definition date_stage (arg : option string)
  (pred : datetime -> json -> res bool) (result : list json) : res (list json) :=
  match given arg with
  | Some s =>
      except_ValueError
        (since_date <- strptime_ymd s ;;
         filterM (pred since_date) result)
        (Ok result)
  | None => Ok result
  end.

Definition apply_filters (items : list json)
  (name_filter workspace_filter owner_filter
   visited_since not_visited_since
   refreshed_since not_refreshed_since
   updated_since not_updated_since
   storage_mode capacity_sku : option string) : res (list json) :=
  let result := items in
  result <- text_stage name_filter lower matches_name result ;;
  result <- text_stage workspace_filter lower matches_workspace result ;;
  result <- text_stage owner_filter lower matches_owner result ;;
  result <- date_stage visited_since (matches_visited false) result ;;
  result <- date_stage not_visited_since (matches_visited true) result ;;
  result <- date_stage refreshed_since
              (matches_instant get_refresh_datetime false) result ;;
  result <- date_stage not_refreshed_since
              (matches_instant get_refresh_datetime true) result ;;
  result <- date_stage updated_since
              (matches_instant get_modified_datetime false) result ;;
  result <- date_stage not_updated_since
              (matches_instant get_modified_datetime true) result ;;
  result <- text_stage storage_mode lower matches_storage result ;;
  result <- text_stage capacity_sku upper matches_sku result ;;
  Ok result.

End Filtering.

(** ** Configuration *)

Definition REGIONS : list (string * string) :=
  [ ("west-europe", "wabi-west-europe-e-primary-redirect.analysis.windows.net");
    ("north-europe", "wabi-north-europe-e-primary-redirect.analysis.windows.net");
    ("us-east", "wabi-us-east-e-primary-redirect.analysis.windows.net");
    ("us-east2", "wabi-us-east2-e-primary-redirect.analysis.windows.net");
    ("us-west", "wabi-us-west-e-primary-redirect.analysis.windows.net");
    ("us-north-central", "wabi-us-north-central-e-primary-redirect.analysis.windows.net");
    ("us-south-central", "wabi-us-south-central-e-primary-redirect.analysis.windows.net");
    ("south-east-asia", "wabi-south-east-asia-e-primary-redirect.analysis.windows.net");
    ("australia-east", "wabi-australia-east-e-primary-redirect.analysis.windows.net");
    ("brazil-south", "wabi-brazil-south-e-primary-redirect.analysis.windows.net");
    ("canada-central", "wabi-canada-central-e-primary-redirect.analysis.windows.net");
    ("india-west", "wabi-india-west-e-primary-redirect.analysis.windows.net");
    ("japan-east", "wabi-japan-east-e-primary-redirect.analysis.windows.net");
    ("uk-south", "wabi-uk-south-e-primary-redirect.analysis.windows.net") ].

Record ItemTypeDescriptor : Type := mkType {
  trident : string;
  category : string;
  desc : string
}.

Definition ITEM_TYPES : list (string * ItemTypeDescriptor) :=
  [ ("PowerBIReport", mkType "report" "Reports" "Power BI reports (.pbix)");
    ("Report", mkType "report" "Reports" "Alias for PowerBIReport");
    ("PaginatedReport", mkType "rdlreport" "Reports" "Paginated/RDL reports");
    ("Dashboard", mkType "dashboard" "Reports" "Power BI dashboards");
    ("OrgApp", mkType "OrgApp" "Reports" "Published Power BI apps");
    ("Model", mkType "dataset" "Models" "Semantic models/datasets (USE THIS)");
    ("SemanticModel", mkType "semanticModel" "Models" "Alternative (often returns 0)");
    ("MetricSet", mkType "MetricSet" "Models" "Metric sets");
    ("Lakehouse", mkType "Lakehouse" "Data" "Fabric lakehouses");
    ("Warehouse", mkType "Warehouse" "Data" "Fabric data warehouses");
    ("Datamart", mkType "datamart" "Data" "Power BI datamarts");
    ("Sql", mkType "datamart" "Data" "SQL endpoints");
    ("KustoDatabase", mkType "KustoDatabase" "Data" "KQL databases");
    ("KustoEventHouse", mkType "KustoEventHouse" "Data" "Eventhouse");
    ("SQLDbNative", mkType "SQLDbNative" "Data" "SQL databases");
    ("CosmosDB", mkType "CosmosDB" "Data" "Cosmos DB mirrors");
    ("DatabricksCatalog", mkType "DatabricksCatalog" "Data" "Databricks catalogs");
    ("SqlAnalyticsEndpoint", mkType "SqlAnalyticsEndpoint" "Data" "SQL analytics endpoints");
    ("WarehouseSnapshot", mkType "WarehouseSnapshot" "Data" "Warehouse snapshots");
    ("Lakewarehouse", mkType "lake-warehouse" "Data" "Lake warehouses");
    ("MountedWarehouse", mkType "mounted-warehouse" "Data" "Mounted warehouses");
    ("MountedRelationalDatabase", mkType "MountedRelationalDatabase" "Data" "Mounted databases");
    ("DataFlow", mkType "dataflow" "Integration" "Power BI dataflows (USE THIS)");
    ("Dataflow", mkType "dataflow" "Integration" "Alias (may not work)");
    ("DataflowFabric", mkType "DataflowFabric" "Integration" "Fabric dataflows Gen2");
    ("Pipeline", mkType "Pipeline" "Integration" "Data pipelines");
    ("DataPipeline", mkType "DataPipeline" "Integration" "Alias for Pipeline");
    ("CopyJob", mkType "CopyJob" "Integration" "Copy jobs");
    ("EventStream", mkType "EventStream" "Integration" "Event streams");
    ("MountedDataFactory", mkType "MountedDataFactory" "Integration" "ADF connections");
    ("ApacheAirflowProject", mkType "ApacheAirflowProject" "Integration" "Airflow projects");
    ("SynapseNotebook", mkType "SynapseNotebook" "Compute" "Fabric notebooks (USE THIS)");
    ("Notebook", mkType "SynapseNotebook" "Compute" "Alias for SynapseNotebook");
    ("SparkJobDefinition", mkType "SparkJobDefinition" "Compute" "Spark job definitions");
    ("MLModel", mkType "MLModel" "ML" "ML models");
    ("MLExperiment", mkType "MLExperiment" "ML" "ML experiments");
    ("OperationalAgents", mkType "OperationalAgents" "ML" "Operational agents");
    ("LLMPlugin", mkType "LLMPlugin" "ML" "LLM/AI plugins");
    ("KustoDashboard", mkType "KustoDashboard" "Real-Time" "Real-time dashboards");
    ("KustoQueryWorkbench", mkType "KustoQueryWorkbench" "Real-Time" "KQL query workbench");
    ("Reflex", mkType "Reflex" "Solutions" "Reflex/Activator items");
    ("ReflexProject", mkType "ReflexProject" "Solutions" "Reflex projects");
    ("GraphQL", mkType "GraphQL" "Solutions" "GraphQL APIs");
    ("GraphModel", mkType "GraphModel" "Solutions" "Graph models");
    ("FunctionSet", mkType "FunctionSet" "Solutions" "Function sets");
    ("DataExploration", mkType "DataExploration" "Solutions" "Data exploration");
    ("Exploration", mkType "Exploration" "Solutions" "Explorations");
    ("Ontology", mkType "Ontology" "Knowledge" "Ontology items (IQ)");
    ("DigitalTwinBuilder", mkType "DigitalTwinBuilder" "Industry" "Digital twin builder");
    ("HealthDataManager", mkType "HealthDataManager" "Industry" "Healthcare data manager");
    ("HLSCohort", mkType "HLSCohort" "Industry" "Healthcare cohorts");
    ("RetailDataManager", mkType "RetailDataManager" "Industry" "Retail data manager");
    ("SustainabilityDataManager", mkType "SustainabilityDataManager" "Industry" "Sustainability manager");
    ("Environment", mkType "Environment" "Config" "Spark environments");
    ("Variables", mkType "Variables" "Config" "Variable groups") ].

Definition DEFAULT_REGION : string := "west-europe".

(** ** Search client *)

Fixpoint assoc {V : Type} (k : string) (d : list (string * V)) : option V :=
  match d with
  | [] => None
  | (k', v) :: t => if String.eqb k k' then Some v else assoc k t
  end.

(** The body of the loop that builds [trident_types]. *)
Definition resolve_type (item_type : string) : string :=
  match assoc item_type ITEM_TYPES with
  | Some d => trident d
  | None => lower item_type
  end.

Record request : Type := mkRequest {
  url : string;
  headers : list (string * string);
  payload : json;
  timeout : Z
}.

(** What [requests.post] and the use of its response can do: answer with a
    status, a body text and the outcome of [response.json()] (the
    decoded value, or the message of the exception it raises), raise
    [requests.exceptions.Timeout], or raise any other exception [e] with
    message [str(e)]. *)
Inductive post_outcome : Type :=
| Responded (status_code : Z) (text : string) (decoded : string + json)
| RaisedTimeout
| RaisedOther (message : string).

Definition failure (fields : list (string * json)) : json :=
  JDict (("success", JBool false) :: fields).

Section SearchClient.

(** The transport layer. *)
Variable post : request -> post_outcome.

(** The result is paired with the requests that were issued. *)
Definition search_datahub (token : string) (item_types : list string)
  (region : string) (workspace_id : option string)
  (page_size page_number : Z) : list request * res json :=
  match assoc region REGIONS with
  | None =>
      ([], Ok (failure
         [("error", JStr ("Unknown region: " ++ region
                          ++ ". Use --list-regions to see options."))]))
  | Some host =>
      if String.eqb host "" then
        ([], Ok (failure
           [("error", JStr ("Unknown region: " ++ region
                            ++ ". Use --list-regions to see options."))]))
      else
      let trident_types := map resolve_type item_types in
      let filters :=
        match given workspace_id with
        | Some w =>
            [JDict [("datahubFilterType", JStr "workspace");
                    ("values", JList [JStr w])]]
        | None => []
        end in
      let payload :=
        JDict [("filters", JList filters);
               ("hostFamily", JInt 4);
               ("orderBy", JStr "Default");
               ("orderDirection", JStr "");
               ("pageNumber", JInt page_number);
               ("pageSize", JInt (Z.min page_size 1000));
               ("supportedTypes", JList (map JStr item_types));
               ("tridentSupportedTypes", JList (map JStr trident_types))] in
      let headers :=
        [("Authorization", "Bearer " ++ token);
         ("Content-Type", "application/json")] in
      let url := "https://" ++ host ++ "/metadata/datahub/V2/artifacts" in
      let req := mkRequest url headers payload 60 in
      ([req],
       match post req with
       | Responded status_code text decoded =>
           if status_code =? 200 then
             match decoded with
             | inr items =>
                 Ok (JDict
                   [("success", JBool true);
                    ("items", match items with
                              | JList l => JList l
                              | _ => JList []
                              end);
                    ("count", match items with
                              | JList l => JInt (Z.of_nat (List.length l))
                              | _ => JInt 0
                              end);
                    ("region", JStr region);
                    ("host", JStr host)])
             | inl message =>
                 Ok (failure [("error", JStr message); ("region", JStr region)])
             end
           else
             Ok (failure
               [("error", JStr ("HTTP " ++ str_of_Z status_code ++ ": "
                                ++ slice_to 200 text));
                ("region", JStr region)])
       | RaisedTimeout =>
           Ok (failure [("error", JStr "Request timed out (60s)");
                        ("region", JStr region)])
       | RaisedOther message =>
           Ok (failure [("error", JStr message); ("region", JStr region)])
       end)
  end.

End SearchClient.

(** ** Sorter *)

Definition as_int (v : json) : option Z :=
  match v with
  | JInt n => Some n
  | JBool b => Some (if b then 1 else 0)
  | _ => None
  end.

(** [a < b] on sort keys.  Two strs and two numbers are ordered; two
    lists are ordered element by element in Python, which is left out
    here ([NotModelled]) and embedded in [Full.py_lt] below; every other
    pair raises [TypeError]. *)
Definition py_lt (a b : json) : res bool :=
  match a, b with
  | JStr s, JStr t => Ok (String.ltb s t)
  | JList _, JList _ => Raise NotModelled
  | _, _ =>
      match as_int a, as_int b with
      | Some m, Some n => Ok (m <? n)
      | _, _ => Raise TypeError
      end
  end.

(** Insertion in front of the first entry that is not smaller. *)
Fixpoint insert_key (x : json * json) (l : list (json * json))
  : res (list (json * json)) :=
  match l with
  | [] => Ok [x]
  | y :: t =>
      b <- py_lt (fst y) (fst x) ;;
      if b then (r <- insert_key x t ;; Ok (y :: r))
      else Ok (x :: y :: t)
  end.

Fixpoint sort_keyed (l : list (json * json)) : res (list (json * json)) :=
  match l with
  | [] => Ok []
  | x :: t =>
      r <- sort_keyed t ;;
      insert_key x r
  end.

(** [sorted(items, key=key, reverse=reverse)]: the keys are computed
    first, in input order; the sort is stable and compares keys with [<]
    only; a reverse sort reverses the list, sorts it and reverses the
    result. *)
Definition sorted (items : list json) (key : json -> res json)
  (reverse : bool) : res (list json) :=
  keys <- mapM key items ;;
  let keyed := combine keys items in
  r <- (if reverse
        then (s <- sort_keyed (rev keyed) ;; Ok (rev s))
        else sort_keyed keyed) ;;
  Ok (map snd r).

Definition key_name (x : json) : res json :=
  v <- py_get x "displayName" (JStr "") ;;
  s <- py_lower v ;;
  Ok (JStr s).

Definition key_workspace (x : json) : res json :=
  v <- py_get x "workspaceName" (JStr "") ;;
  s <- py_lower v ;;
  Ok (JStr s).

Definition key_last_visited (x : json) : res json :=
  py_get x "lastVisitedTimeUTC" (JStr "").

Definition key_last_refreshed (x : json) : res json :=
  v <- _get_item_refresh_time x ;;
  Ok (if truthy v then v else JStr "").

Definition key_last_modified (x : json) : res json :=
  py_get x "modifiedDate" (JStr "").

Definition key_owner (x : json) : res json :=
  owner <- py_get x "ownerUser" (JDict []) ;;
  v <- py_get owner "emailAddress" (JStr "") ;;
  s <- py_lower v ;;
  Ok (JStr s).

(** The key function of a recognised sort field. *)
Definition sort_key (sort_by : string) : option (json -> res json) :=
  if String.eqb sort_by "name" then Some key_name
  else if String.eqb sort_by "workspace" then Some key_workspace
  else if String.eqb sort_by "last-visited" then Some key_last_visited
  else if String.eqb sort_by "last-refreshed" then Some key_last_refreshed
  else if String.eqb sort_by "last-modified" then Some key_last_modified
  else if String.eqb sort_by "owner" then Some key_owner
  else None.

Definition sort_items (items : list json) (sort_by sort_order : string)
  : res (list json) :=
  let reverse := negb (String.eqb (lower sort_order) "asc") in
  match sort_key sort_by with
  | Some key => sorted items key reverse
  | None => Ok items
  end.

(** ** The sorter on every decoded value

    [response.json()] also yields numbers that are not integers, [NaN]
    and the infinities among them, and the raw sort keys of the three date
    fields are whatever it yields.  With a [NaN] among the keys the outcome
    of [sorted] depends on the comparisons that [list.sort] makes.  The
    sorter is therefore embedded a second time, over values with floats,
    with Python's [<] and [==] on all of them, and with the steps of
    [list.sort] itself where the order of the keys does not fix the
    result. *)

Module Full.

(** A Python float; a finite one is given by its value. *)
Inductive float : Type :=
| NaN
| Inf (negative : bool)
| Finite (q : Q).

Inductive json : Type :=
| JNull
| JBool (b : bool)
| JInt (n : Z)
| JFloat (f : float)
| JStr (s : string)
| JList (l : list json)
| JDict (d : list (string * json)).

Fixpoint lookup (k : string) (d : list (string * json)) : option json :=
  match d with
  | [] => None
  | (k', v) :: t => if String.eqb k k' then Some v else lookup k t
  end.

(** The keys of a dict, each once. *)
Fixpoint keys_of (d : list (string * json)) : list string :=
  match d with
  | [] => []
  | (k, _) :: t => k :: filter (fun k' => negb (String.eqb k k')) (keys_of t)
  end.

Definition truthy (v : json) : bool :=
  match v with
  | JNull => false
  | JBool b => b
  | JInt n => negb (n =? 0)
  | JFloat (Finite q) => negb (Qeq_bool q 0)
  | JFloat _ => true
  | JStr s => negb (String.eqb s "")
  | JList l => match l with [] => false | _ => true end
  | JDict d => match d with [] => false | _ => true end
  end.

Definition py_get (o : json) (k : string) (default : json) : res json :=
  match o with
  | JDict d =>
      Ok (match lookup k d with
          | Some v => v
          | None => default
          end)
  | _ => Raise AttributeError
  end.

Definition py_lower (v : json) : res string :=
  match v with
  | JStr s => Ok (lower s)
  | _ => Raise AttributeError
  end.

(** The number that a bool, an int or a float stands for.  Python
    compares an int and a float by their exact values. *)
Definition number (v : json) : option float :=
  match v with
  | JBool b => Some (Finite (inject_Z (if b then 1 else 0)))
  | JInt n => Some (Finite (inject_Z n))
  | JFloat f => Some f
  | _ => None
  end.

Definition float_lt (a b : float) : bool :=
  match a, b with
  | NaN, _ => false
  | _, NaN => false
  | Inf true, Inf true => false
  | Inf true, _ => true
  | Inf false, _ => false
  | Finite _, Inf negative => negb negative
  | Finite p, Finite q => negb (Qle_bool q p)
  end.

Definition float_eq (a b : float) : bool :=
  match a, b with
  | Inf s, Inf t => Bool.eqb s t
  | Finite p, Finite q => Qeq_bool p q
  | _, _ => false
  end.

Definition is_nan (v : json) : bool :=
  match v with
  | JFloat NaN => true
  | _ => false
  end.

(** [a == b].  The elements of two lists and the values of two dicts are
    compared with [is] before [==]; every [NaN] that the decoder yields is
    one object, so there two [NaN]s count as equal, while [NaN == NaN] is
    false. *)
Fixpoint py_eq (a b : json) {struct a} : bool :=
  match a, b with
  | JNull, JNull => true
  | JStr s, JStr t => String.eqb s t
  | JList l, JList m =>
      (fix all2 (l m : list json) {struct l} : bool :=
         match l, m with
         | [], [] => true
         | x :: l', y :: m' =>
             (is_nan x && is_nan y || py_eq x y) && all2 l' m'
         | _, _ => false
         end) l m
  | JDict d, JDict e =>
      (List.length (keys_of d) =? List.length (keys_of e))%nat
      && (fix each (seen : list string) (d : list (string * json))
            {struct d} : bool :=
            match d with
            | [] => true
            | (k, v) :: t =>
                (if existsb (String.eqb k) seen then true
                 else match lookup k e with
                      | Some w => is_nan v && is_nan w || py_eq v w
                      | None => false
                      end)
                && each (k :: seen) t
            end) [] d
  | _, _ =>
      match number a, number b with
      | Some x, Some y => float_eq x y
      | _, _ => false
      end
  end.

(** [a < b].  Two strs, two numbers and two lists are ordered; every
    other pair raises [TypeError].  Two lists are ordered by the first
    position at which the elements are not equal, or by their lengths. *)
Fixpoint py_lt (a b : json) {struct a} : res bool :=
  match a, b with
  | JStr s, JStr t => Ok (String.ltb s t)
  | JList l, JList m =>
      (fix first_difference (l m : list json) {struct l} : res bool :=
         match l, m with
         | [], [] => Ok false
         | [], _ :: _ => Ok true
         | _ :: _, [] => Ok false
         | x :: l', y :: m' =>
             if is_nan x && is_nan y || py_eq x y
             then first_difference l' m'
             else py_lt x y
         end) l m
  | _, _ =>
      match number a, number b with
      | Some x, Some y => Ok (float_lt x y)
      | _, _ => Raise TypeError
      end
  end.

(** *** [list.sort]

    The keys on which [<] is a total preorder: all of them strs, or all of
    them numbers other than [NaN]. *)
Definition is_text (v : json) : bool :=
  match v with
  | JStr _ => true
  | _ => false
  end.

Definition is_ordered_number (v : json) : bool :=
  match number v with
  | Some NaN => false
  | Some _ => true
  | None => false
  end.

Definition orderable (keys : list json) : bool :=
  forallb is_text keys || forallb is_ordered_number keys.

(** The list being sorted holds pairs of a key and its record.
    Insertion in front of the first entry that is not smaller: *)
Fixpoint insert_key (x : json * json) (l : list (json * json))
  : res (list (json * json)) :=
  match l with
  | [] => Ok [x]
  | y :: t =>
      b <- py_lt (fst y) (fst x) ;;
      if b then (r <- insert_key x t ;; Ok (y :: r))
      else Ok (x :: y :: t)
  end.

Fixpoint sort_keyed (l : list (json * json)) : res (list (json * json)) :=
  match l with
  | [] => Ok []
  | x :: t =>
      r <- sort_keyed t ;;
      insert_key x r
  end.

(** [count_run]: the length of the run at the head of the list, which
    either never descends or descends at every step, and whether it
    descends. *)
Fixpoint run_ascending (previous : json) (l : list (json * json)) : res nat :=
  match l with
  | [] => Ok O
  | x :: t =>
      b <- py_lt (fst x) previous ;;
      if b then Ok O
      else (n <- run_ascending (fst x) t ;; Ok (S n))
  end.

Fixpoint run_descending (previous : json) (l : list (json * json)) : res nat :=
  match l with
  | [] => Ok O
  | x :: t =>
      b <- py_lt (fst x) previous ;;
      if b then (n <- run_descending (fst x) t ;; Ok (S n))
      else Ok O
  end.

Definition count_run (l : list (json * json)) : res (nat * bool) :=
  match l with
  | [] => Ok (O, false)
  | [_] => Ok (1%nat, false)
  | x :: y :: t =>
      b <- py_lt (fst y) (fst x) ;;
      if b then (n <- run_descending (fst y) t ;; Ok (S (S n), true))
      else (n <- run_ascending (fst y) t ;; Ok (S (S n), false))
  end.

(** The inner loop of [binarysort]: the place of [pivot] among the
    entries [a] sorted so far, found by halving the range from [l] to
    [r]; the loop body runs once before the range is tested. *)
Fixpoint bisect (steps : nat) (pivot : json * json)
  (a : list (json * json)) (l r : nat) : res nat :=
  match steps with
  | O => Ok l
  | S steps' =>
      let p := (l + (r - l) / 2)%nat in
      b <- py_lt (fst pivot) (fst (nth p a pivot)) ;;
      let l' := if b then l else S p in
      let r' := if b then p else r in
      if (l' <? r')%nat then bisect steps' pivot a l' r' else Ok l'
  end.

(** [binarysort]: the entries of [rest] are inserted, one after the
    other, into the entries [a] sorted so far. *)
Fixpoint binarysort (a rest : list (json * json)) : res (list (json * json)) :=
  match rest with
  | [] => Ok a
  | pivot :: rest' =>
      l <- bisect (List.length a) pivot a 0 (List.length a) ;;
      binarysort (firstn l a ++ pivot :: skipn l a) rest'
  end.

(** [list.sort] of CPython 3.11 on fewer than 64 entries: the run at the
    head is counted, reversed when it descends, and extended to the whole
    list by [binarysort]. *)
Definition sort_short (l : list (json * json)) : res (list (json * json)) :=
  if (List.length l <? 2)%nat then Ok l
  else
    run <- count_run l ;;
    let '(n, descending) := run in
    let head := firstn n l in
    binarysort (if descending then rev head else head) (skipn n l).

(** [list.sort].  A list of 64 entries or more is cut into several runs
    that are merged, which is not embedded.  The built-in is a stable
    sort, so on keys that [<] orders totally its result is the one
    arrangement that is sorted and keeps the entries of equal keys in
    their order, computed here by insertion; on other keys the result
    depends on the merge steps. *)
Definition list_sort (l : list (json * json)) : res (list (json * json)) :=
  if (List.length l <? 64)%nat then sort_short l
  else if orderable (map fst l) then sort_keyed l
  else Raise NotModelled.

(** [sorted(items, key=key, reverse=reverse)]: the keys are computed
    first, in input order; a reverse sort reverses the list, sorts it and
    reverses the result. *)
Definition sorted (items : list json) (key : json -> res json)
  (reverse : bool) : res (list json) :=
  keys <- mapM key items ;;
  let keyed := combine keys items in
  r <- (if reverse
        then (s <- list_sort (rev keyed) ;; Ok (rev s))
        else list_sort keyed) ;;
  Ok (map snd r).

Definition _get_item_refresh_time (item : json) : res json :=
  refresh_time <- py_get item "lastRefreshTime" JNull ;;
  if truthy refresh_time then Ok refresh_time
  else
    artifact <- py_get item "artifact" (JDict []) ;;
    upper_spelling <- py_get artifact "LastRefreshTime" JNull ;;
    refresh_time <-
      (if truthy upper_spelling then Ok upper_spelling
       else py_get artifact "lastRefreshTime" JNull) ;;
    if truthy refresh_time then Ok refresh_time
    else
      updated <- py_get artifact "lastUpdatedDate" JNull ;;
      if truthy updated then Ok updated else Ok JNull.

Definition key_name (x : json) : res json :=
  v <- py_get x "displayName" (JStr "") ;;
  s <- py_lower v ;;
  Ok (JStr s).

Definition key_workspace (x : json) : res json :=
  v <- py_get x "workspaceName" (JStr "") ;;
  s <- py_lower v ;;
  Ok (JStr s).

Definition key_last_visited (x : json) : res json :=
  py_get x "lastVisitedTimeUTC" (JStr "").

Definition key_last_refreshed (x : json) : res json :=
  v <- _get_item_refresh_time x ;;
  Ok (if truthy v then v else JStr "").

Definition key_last_modified (x : json) : res json :=
  py_get x "modifiedDate" (JStr "").

Definition key_owner (x : json) : res json :=
  owner <- py_get x "ownerUser" (JDict []) ;;
  v <- py_get owner "emailAddress" (JStr "") ;;
  s <- py_lower v ;;
  Ok (JStr s).

Definition sort_key (sort_by : string) : option (json -> res json) :=
  if String.eqb sort_by "name" then Some key_name
  else if String.eqb sort_by "workspace" then Some key_workspace
  else if String.eqb sort_by "last-visited" then Some key_last_visited
  else if String.eqb sort_by "last-refreshed" then Some key_last_refreshed
  else if String.eqb sort_by "last-modified" then Some key_last_modified
  else if String.eqb sort_by "owner" then Some key_owner
  else None.

Definition sort_items (items : list json) (sort_by sort_order : string)
  : res (list json) :=
  let reverse := negb (String.eqb (lower sort_order) "asc") in
  match sort_key sort_by with
  | Some key => sorted items key reverse
  | None => Ok items
  end.

(** *** Vocabulary of the statements about the full sorter *)

(** The record [x] has a sort key equal to [k]: [key(x) == k]. *)
Definition has_key (key : json -> res json) (k : json) (x : json) : bool :=
  match key x with
  | Ok v => py_eq v k
  | Raise _ => false
  end.

(** Order of two entries: the second is not smaller. *)
Definition le_key (p q : json * json) : Prop := py_lt (fst q) (fst p) = Ok false.

(** The keys never decrease along the list. *)
Definition non_decreasing (key : json -> res json) (l : list json) : Prop :=
  StronglySorted
    (fun a b => exists ka kb,
         key a = Ok ka /\ key b = Ok kb /\ py_lt kb ka = Ok false) l.

(** The keys computed by [mapM] belong to the records they are paired with. *)
Definition keyed_by (key : json -> res json) (p : json * json) : Prop :=
  key (snd p) = Ok (fst p).

(** One of the two kinds of keys that [<] orders totally. *)
Definition key_class (texts : bool) (v : json) : Prop :=
  if texts then is_text v = true else is_ordered_number v = true.

(** The sort keys of the records are all strs, or all numbers other than
    [NaN]. *)
Definition ordered_keys (key : json -> res json) (items : list json) : Prop :=
  (forall x, In x items -> exists s, key x = Ok (JStr s))
  \/ (forall x, In x items ->
        exists v, key x = Ok v /\ is_ordered_number v = true).

(** Records with a number and a modification value: seven records with
    [NaN] among the values, in input order and as the ascending sort
    returns them, and five records whose values are numbers. *)
Definition modified (id : Z) (value : json) : json :=
  JDict [("id", JInt id); ("modifiedDate", value)].

Definition nan_items : list json :=
  [modified 0 (JFloat NaN); modified 1 (JFloat NaN); modified 2 (JInt 2);
   modified 3 (JInt 1); modified 4 (JFloat NaN); modified 5 (JInt 1);
   modified 6 (JInt 1)].

Definition nan_sorted : list json :=
  [modified 0 (JFloat NaN); modified 1 (JFloat NaN); modified 3 (JInt 1);
   modified 6 (JInt 1); modified 2 (JInt 2); modified 4 (JFloat NaN);
   modified 5 (JInt 1)].

Definition mixed_numbers : list json :=
  [modified 1 (JFloat (Finite (5 # 2))); modified 2 (JInt 1);
   modified 3 (JFloat (Finite (5 # 2))); modified 4 (JFloat (Inf false));
   modified 5 (JBool true)].

End Full.

(** ** Formatter *)

Definition chr (n : nat) : string := String (ascii_of_nat n) EmptyString.
Definition nl : string := chr 10.
Definition dquote : string := chr 34.
Definition squote : string := chr 39.
Definition backslash : string := chr 92.

Fixpoint repeat_string (s : string) (n : nat) : string :=
  match n with
  | O => EmptyString
  | S k => s ++ repeat_string s k
  end.

Definition hex_digit (n : Z) : string :=
  substring (Z.to_nat n) 1 "0123456789abcdef".

(** [s.strip()] *)
Definition is_str_space (c : ascii) : bool :=
  ((9 <=? code c) && (code c <=? 13))
  || ((28 <=? code c) && (code c <=? 32)).

Fixpoint lstrip_str (l : list ascii) : list ascii :=
  match l with
  | c :: t => if is_str_space c then lstrip_str t else l
  | [] => []
  end.

Definition str_strip (s : string) : string :=
  string_of_list_ascii
    (rev (lstrip_str (rev (lstrip_str (list_ascii_of_string s))))).

(** [format(s, "<n")] for a str *)
Definition ljust (n : nat) (s : string) : string :=
  s ++ repeat_string " " (n - String.length s).

(** The entries of a dict in insertion order, shadowed bindings dropped. *)
Fixpoint visible {V : Type} (seen : list string) (d : list (string * V))
  : list (string * V) :=
  match d with
  | [] => []
  | (k, v) :: t =>
      if existsb (String.eqb k) seen then visible seen t
      else (k, v) :: visible (k :: seen) t
  end.

(** [repr(s)] for a str *)
Definition repr_char (quote : string) (c : ascii) : string :=
  let s := String c EmptyString in
  if String.eqb s backslash then backslash ++ backslash
  else if String.eqb s quote then backslash ++ quote
  else if code c =? 10 then backslash ++ "n"
  else if code c =? 13 then backslash ++ "r"
  else if code c =? 9 then backslash ++ "t"
  else if (code c <? 32) || (code c =? 127)
       then backslash ++ "x" ++ hex_digit (code c / 16) ++ hex_digit (code c mod 16)
  else s.

Fixpoint flat_map_string (f : ascii -> string) (s : string) : string :=
  match s with
  | EmptyString => EmptyString
  | String c t => f c ++ flat_map_string f t
  end.

Definition repr_str (s : string) : string :=
  let quote :=
    if contains squote s && negb (contains dquote s) then dquote else squote in
  quote ++ flat_map_string (repr_char quote) s ++ quote.

Fixpoint py_repr (v : json) : string :=
  match v with
  | JNull => "None"
  | JBool b => if b then "True" else "False"
  | JInt n => str_of_Z n
  | JStr s => repr_str s
  | JList l => "[" ++ String.concat ", " (map py_repr l) ++ "]"
  | JDict d =>
      "{" ++ String.concat ", "
               (map (fun kv => repr_str (fst kv) ++ ": " ++ snd kv)
                    (visible [] (map (fun kv => (fst kv, py_repr (snd kv))) d)))
          ++ "}"
  end.

(** [str(v)], which an f-string applies to a field without format spec *)
Definition py_str (v : json) : string :=
  match v with
  | JStr s => s
  | _ => py_repr v
  end.

(** [v[:n]] *)
Definition py_slice_to (n : nat) (v : json) : res json :=
  match v with
  | JStr s => Ok (JStr (slice_to n s))
  | JList l => Ok (JList (firstn n l))
  | _ => Raise TypeError
  end.

(** [f"{v:<n}"]: only a str (or a number, which a slice never yields)
    accepts the format spec. *)
Definition py_format_left (n : nat) (v : json) : res string :=
  match v with
  | JStr s => Ok (ljust n s)
  | _ => Raise TypeError
  end.

(** [json.dumps(v, indent=2)] *)
Definition json_char (c : ascii) : string :=
  let s := String c EmptyString in
  if String.eqb s dquote then backslash ++ dquote
  else if String.eqb s backslash then backslash ++ backslash
  else if code c =? 10 then backslash ++ "n"
  else if code c =? 13 then backslash ++ "r"
  else if code c =? 9 then backslash ++ "t"
  else if code c =? 8 then backslash ++ "b"
  else if code c =? 12 then backslash ++ "f"
  else if (code c <? 32) || (127 <=? code c)
       then backslash ++ "u00" ++ hex_digit (code c / 16) ++ hex_digit (code c mod 16)
  else s.

Definition json_quote (s : string) : string :=
  dquote ++ flat_map_string json_char s ++ dquote.

Definition indent_of (level : nat) : string := repeat_string "  " level.

Fixpoint dumps (level : nat) (v : json) : string :=
  match v with
  | JNull => "null"
  | JBool b => if b then "true" else "false"
  | JInt n => str_of_Z n
  | JStr s => json_quote s
  | JList l =>
      match l with
      | [] => "[]"
      | _ =>
          "[" ++ nl ++ indent_of (S level)
          ++ String.concat ("," ++ nl ++ indent_of (S level))
               (map (dumps (S level)) l)
          ++ nl ++ indent_of level ++ "]"
      end
  | JDict d =>
      match d with
      | [] => "{}"
      | _ =>
          "{" ++ nl ++ indent_of (S level)
          ++ String.concat ("," ++ nl ++ indent_of (S level))
               (map (fun kv => json_quote (fst kv) ++ ": " ++ snd kv)
                    (visible [] (map (fun kv => (fst kv, dumps (S level) (snd kv))) d)))
          ++ nl ++ indent_of level ++ "}"
      end
  end.

Definition json_dumps (v : json) : string := dumps 0 v.

(** [dt.isoformat()] *)
Definition pad (width : nat) (n : Z) : string :=
  let s := str_of_Z n in
  repeat_string "0" (width - String.length s) ++ s.

(** The year of a day counted from 0001-01-01 (day 0). *)
Definition year_of_day (day : Z) : Z :=
  let n400 := day / 146097 in
  let r400 := day mod 146097 in
  let n100 := Z.min (r400 / 36524) 3 in
  let r100 := r400 - n100 * 36524 in
  let n4 := r100 / 1461 in
  let r4 := r100 mod 1461 in
  let n1 := Z.min (r4 / 365) 3 in
  400 * n400 + 100 * n100 + 4 * n4 + n1 + 1.

Fixpoint month_of (y rest : Z) (m : nat) (fuel : nat) : Z * Z :=
  match fuel with
  | O => (Z.of_nat m, rest)
  | S k =>
      if rest <? days_in_month y (Z.of_nat m) then (Z.of_nat m, rest)
      else month_of y (rest - days_in_month y (Z.of_nat m)) (S m) k
  end.

Definition isoformat (dt : datetime) : string :=
  let day := dt / US_PER_DAY in
  let us := dt mod US_PER_DAY in
  let y := year_of_day day in
  let '(m, d) := month_of y (day - days_before_year y) 1 11 in
  let secs := us / 1000000 in
  let frac := us mod 1000000 in
  pad 4 y ++ "-" ++ pad 2 m ++ "-" ++ pad 2 (d + 1) ++ "T"
  ++ pad 2 (secs / 3600) ++ ":" ++ pad 2 (secs / 60 mod 60) ++ ":"
  ++ pad 2 (secs mod 60)
  ++ (if frac =? 0 then "" else "." ++ pad 6 frac).

Section Formatting.

Variable utcoffset : Z -> Z.

Definition iso_or_null (parsed : option datetime) : json :=
  match parsed with
  | Some dt => JStr (isoformat dt)
  | None => JNull
  end.

Definition _get_storage_mode (item : json) : res string :=
  artifact <- py_get item "artifact" (JDict []) ;;
  dl <- py_get artifact "directLakeMode" JNull ;;
  if truthy dl then Ok "DirectLake"
  else
    sm <- py_get artifact "storageMode" JNull ;;
    if py_eq_int sm 1 then Ok "Import"
    else if py_eq_int sm 2 then Ok "DirectQuery"
    else Ok "Unknown".

Definition _get_refresh_time (item : json) : res json :=
  refresh_time <- py_get item "lastRefreshTime" JNull ;;
  if truthy refresh_time then
    dt <- _parse_odata_date utcoffset refresh_time ;; Ok (iso_or_null dt)
  else
    artifact <- py_get item "artifact" (JDict []) ;;
    upper_spelling <- py_get artifact "LastRefreshTime" JNull ;;
    refresh_time <-
      (if truthy upper_spelling then Ok upper_spelling
       else py_get artifact "lastRefreshTime" JNull) ;;
    if truthy refresh_time then
      dt <- _parse_odata_date utcoffset refresh_time ;; Ok (iso_or_null dt)
    else
      updated <- py_get artifact "lastUpdatedDate" JNull ;;
      if truthy updated then
        dt <- _parse_odata_date utcoffset updated ;; Ok (iso_or_null dt)
      else Ok JNull.

Definition _get_modified_time (item : json) : res json :=
  modified <- py_get item "modifiedDate" JNull ;;
  if truthy modified then
    dt <- _parse_odata_date utcoffset modified ;; Ok (iso_or_null dt)
  else Ok JNull.

(** [item.get("displayName", item.get("name", default))] *)
Definition display_name (default : json) (item : json) : res json :=
  inner <- py_get item "name" default ;;
  py_get item "displayName" inner.

(** One record of the clean JSON output. *)
Definition cleaned_item (item : json) : res json :=
  name <- display_name JNull item ;;
  workspace <- py_get item "workspaceName" JNull ;;
  workspaceId <- py_get item "workspaceObjectId" JNull ;;
  id <- py_get item "objectId" JNull ;;
  lastVisited <- py_get item "lastVisitedTimeUTC" JNull ;;
  lastRefreshed <- _get_refresh_time item ;;
  lastModified <- _get_modified_time item ;;
  o1 <- py_get item "ownerUser" (JDict []) ;;
  owner <- py_get o1 "emailAddress" JNull ;;
  o2 <- py_get item "ownerUser" (JDict []) ;;
  given_name <- py_get o2 "givenName" (JStr "") ;;
  o3 <- py_get item "ownerUser" (JDict []) ;;
  family_name <- py_get o3 "familyName" (JStr "") ;;
  storageMode <- _get_storage_mode item ;;
  artifact <- py_get item "artifact" (JDict []) ;;
  capacitySku <- py_get artifact "sharedFromEnterpriseCapacitySku" JNull ;;
  isDiscoverable <- py_get item "isDiscoverable" JNull ;;
  Ok (JDict
    [("name", name);
     ("workspace", workspace);
     ("workspaceId", workspaceId);
     ("id", id);
     ("lastVisited", lastVisited);
     ("lastRefreshed", lastRefreshed);
     ("lastModified", lastModified);
     ("owner", owner);
     ("ownerName",
      JStr (str_strip (py_str given_name ++ " " ++ py_str family_name)));
     ("storageMode", JStr storageMode);
     ("capacitySku", capacitySku);
     ("isDiscoverable", isDiscoverable)]).

Definition brief_line (item : json) : res string :=
  name <- display_name (JStr "Unknown") item ;;
  workspace <- py_get item "workspaceName" (JStr "") ;;
  Ok (py_str workspace ++ "/" ++ py_str name).

Definition detailed_block (item : json) : res (list string) :=
  name <- display_name (JStr "Unknown") item ;;
  workspace <- py_get item "workspaceName" (JStr "N/A") ;;
  id <- py_get item "objectId" (JStr "N/A") ;;
  visited <- py_get item "lastVisitedTimeUTC" JNull ;;
  last_visit <-
    (if truthy visited then
       v <- py_get item "lastVisitedTimeUTC" (JStr "N/A") ;;
       py_slice_to 19 v
     else Ok (JStr "N/A")) ;;
  owner <- py_get item "ownerUser" (JDict []) ;;
  given_name <- py_get owner "givenName" (JStr "") ;;
  family_name <- py_get owner "familyName" (JStr "") ;;
  email <- py_get owner "emailAddress" (JStr "N/A") ;;
  storage <- _get_storage_mode item ;;
  artifact <- py_get item "artifact" (JDict []) ;;
  sku <- py_get artifact "sharedFromEnterpriseCapacitySku" (JStr "N/A") ;;
  discoverable <- py_get item "isDiscoverable" (JStr "N/A") ;;
  Ok ["Name:        " ++ py_str name;
      "Workspace:   " ++ py_str workspace;
      "ID:          " ++ py_str id;
      "Last Visit:  " ++ py_str last_visit;
      "Owner:       " ++ py_str given_name ++ " " ++ py_str family_name
        ++ " <" ++ py_str email ++ ">";
      "Storage:     " ++ storage;
      "Capacity:    " ++ py_str sku;
      "Discoverable:" ++ py_str discoverable;
      repeat_string "-" 60].

Definition table_row (item : json) : res string :=
  full_name <- display_name (JStr "Unknown") item ;;
  name <- py_slice_to 34 full_name ;;
  full_workspace <- py_get item "workspaceName" (JStr "") ;;
  workspace <- py_slice_to 21 full_workspace ;;
  visited <- py_get item "lastVisitedTimeUTC" JNull ;;
  last_visit <-
    (if truthy visited then
       v <- py_get item "lastVisitedTimeUTC" (JStr "") ;;
       py_slice_to 10 v
     else Ok (JStr "")) ;;
  owner <- py_get item "ownerUser" (JDict []) ;;
  given_name <- py_get owner "givenName" (JStr "") ;;
  family_name <- py_get owner "familyName" (JStr "") ;;
  let owner_name :=
    slice_to 19 (py_str given_name ++ " " ++ py_str family_name) in
  c1 <- py_format_left 35 name ;;
  c2 <- py_format_left 22 workspace ;;
  c3 <- py_format_left 12 last_visit ;;
  Ok (c1 ++ " " ++ c2 ++ " " ++ c3 ++ " " ++ ljust 20 owner_name).

Definition format_output (items : list json) (output_format : string)
  : res string :=
  if String.eqb output_format "json" then
    cleaned <- mapM cleaned_item items ;;
    Ok (json_dumps (JList cleaned))
  else
    match items with
    | [] => Ok "No items found."
    | _ =>
        if String.eqb output_format "brief" then
          lines <- mapM brief_line items ;;
          Ok (String.concat nl lines)
        else if String.eqb output_format "detailed" then
          blocks <- mapM detailed_block items ;;
          Ok (String.concat nl (List.concat blocks))
        else
          rows <- mapM table_row items ;;
          Ok (String.concat nl
                ((ljust 35 "Name" ++ " " ++ ljust 22 "Workspace" ++ " "
                  ++ ljust 12 "Last Visited" ++ " " ++ ljust 20 "Owner")
                 :: repeat_string "-" 92 :: rows))
    end.

End Formatting.

(** ** Authentication *)

(** What [subprocess.run] of the Azure CLI can do: complete with a return
    code and a standard output, of which [json.loads] gives a value or
    raises ([None]); run out of time; find no executable; or raise
    anything else. *)
Inductive run_outcome : Type :=
| Completed (returncode : Z) (decoded : option json)
| TimeoutExpired
| FileNotFoundError
| OtherError.

(** The returned value is [data.get("accessToken")], or [JNull] for
    Python's [None]. *)
Definition get_fabric_token (az : run_outcome) : json :=
  match az with
  | Completed returncode decoded =>
      if returncode =? 0 then
        match decoded with
        | Some data =>
            match py_get data "accessToken" JNull with
            | Ok v => v
            | Raise _ => JNull
            end
        | None => JNull
        end
      else JNull
  | TimeoutExpired => JNull
  | FileNotFoundError => JNull
  | OtherError => JNull
  end.

(** ** Main *)

Module Args.

(** The namespace returned by [parser.parse_args()]. *)
Record t : Type := mk {
  item_type : option string;
  filter_text : option string;
  workspace_filter : option string;
  workspace_id : option string;
  owner : option string;
  visited_since : option string;
  not_visited_since : option string;
  refreshed_since : option string;
  not_refreshed_since : option string;
  updated_since : option string;
  not_updated_since : option string;
  storage_mode : option string;
  capacity_sku : option string;
  sort : option string;
  sort_order : string;
  output : string;
  limit : option Z;
  region : string;
  page_size : Z;
  list_types : bool;
  list_regions : bool
}.

End Args.

(** Insertion sort of texts, for [sorted] on strs and on tuples that
    differ in their first component. *)
Fixpoint insert_by {A : Type} (name : A -> string) (x : A) (l : list A) : list A :=
  match l with
  | [] => [x]
  | y :: t =>
      if String.ltb (name y) (name x) then y :: insert_by name x t
      else x :: y :: t
  end.

Fixpoint sort_by_name {A : Type} (name : A -> string) (l : list A) : list A :=
  match l with
  | [] => []
  | x :: t => insert_by name x (sort_by_name name t)
  end.

(** The keys of [by_category], in insertion order. *)
Fixpoint categories (seen : list string)
  (types : list (string * ItemTypeDescriptor)) : list string :=
  match types with
  | [] => []
  | (_, info) :: t =>
      if existsb (String.eqb (category info)) seen then categories seen t
      else category info :: categories (category info :: seen) t
  end.

(** The lines printed for [--list-types]. *)
Definition list_types_output : list string :=
  ("Available item types:" ++ nl)
  :: ("IMPORTANT: Use 'Model' for semantic models, 'DataFlow' for dataflows, "
      ++ "'SynapseNotebook' for notebooks" ++ nl)
  :: flat_map
       (fun cat =>
          ("  " ++ cat ++ ":")
          :: map (fun entry =>
                    "    " ++ ljust 30 (fst entry) ++ " " ++ desc (snd entry))
               (sort_by_name fst
                  (filter (fun entry => String.eqb (category (snd entry)) cat)
                     ITEM_TYPES))
          ++ [""])
       (sort_by_name (fun cat => cat) (categories [] ITEM_TYPES)).

(** The lines printed for [--list-regions]. *)
Definition list_regions_output : list string :=
  ("Available regions:" ++ nl)
  :: map (fun entry =>
            "  " ++ ljust 20 (fst entry) ++ " " ++ snd entry
            ++ (if String.eqb (fst entry) DEFAULT_REGION then " (default)" else ""))
       (sort_by_name fst REGIONS).

(** [items[:n]] for a list and any integer [n] *)
Definition list_slice_to {A : Type} (n : Z) (l : list A) : list A :=
  if 0 <=? n then firstn (Z.to_nat n) l
  else firstn (List.length l - Z.to_nat (- n)) l.

(** [if args.limit: items = items[:args.limit]] *)
Definition apply_limit (limit : option Z) (items : list json) : list json :=
  match limit with
  | Some n => if n =? 0 then items else list_slice_to n items
  | None => items
  end.

(** What the process did to the outside, in order. *)
Inductive event : Type :=
| AcquireToken
| Post (req : request).

(** How the script ends: with an exit status, or with an uncaught
    exception ([UncaughtKeyError] for a subscript on a missing key). *)
Inductive ending : Type :=
| Exit (status : Z)
| Uncaught (e : exn)
| UncaughtKeyError.

(** Filter, sort, limit and render: the tail of [main] after a search
    that succeeded. *)
Definition render (utcoffset : Z -> Z) (args : Args.t) (items : list json)
  : res string :=
  items <- apply_filters utcoffset items
             (Args.filter_text args) (Args.workspace_filter args)
             (Args.owner args)
             (Args.visited_since args) (Args.not_visited_since args)
             (Args.refreshed_since args) (Args.not_refreshed_since args)
             (Args.updated_since args) (Args.not_updated_since args)
             (Args.storage_mode args) (Args.capacity_sku args) ;;
  items <- (match given (Args.sort args) with
            | Some field => sort_items items field (Args.sort_order args)
            | None => Ok items
            end) ;;
  let items := apply_limit (Args.limit args) items in
  format_output utcoffset items (Args.output args).

(** [main] after [parser.parse_args()] has returned the namespace [args]:
    the events, the texts printed on the standard output, and the ending.
    A command line that [parse_args] refuses ends the process before
    this code is reached and is not embedded.  [parser.error] ends the
    process with status 2. *)
Definition main (az : run_outcome) (post : request -> post_outcome)
  (utcoffset : Z -> Z) (args : Args.t) : list event * list string * ending :=
  if Args.list_types args then ([], list_types_output, Exit 0)
  else if Args.list_regions args then ([], list_regions_output, Exit 0)
  else
    match given (Args.item_type args) with
    | None => ([], [], Exit 2)
    | Some item_type =>
        let token := get_fabric_token az in
        if negb (truthy token) then ([AcquireToken], [], Exit 1)
        else
          let '(requests, outcome) :=
            search_datahub post (py_str token) [item_type] (Args.region args)
              (Args.workspace_id args) (Args.page_size args) 1 in
          let events := AcquireToken :: map Post requests in
          match outcome with
          | Raise e => (events, [], Uncaught e)
          | Ok (JDict result) =>
              match lookup "success" result with
              | None => (events, [], UncaughtKeyError)
              | Some success =>
                  if negb (truthy success) then (events, [], Exit 1)
                  else
                    match lookup "items" result with
                    | None => (events, [], UncaughtKeyError)
                    | Some (JList items) =>
                        match render utcoffset args items with
                        | Ok text => (events, [text], Exit 0)
                        | Raise e => (events, [], Uncaught e)
                        end
                    | Some _ => (events, [], Uncaught NotModelled)
                    end
              end
          | Ok _ => (events, [], Uncaught TypeError)
          end
    end.

(** ** Vocabulary of the statements *)

(** Order-preserving sub-list. *)
Inductive Subseq {A : Type} : list A -> list A -> Prop :=
| Subseq_nil : Subseq [] []
| Subseq_skip x l1 l2 : Subseq l1 l2 -> Subseq l1 (x :: l2)
| Subseq_keep x l1 l2 : Subseq l1 l2 -> Subseq (x :: l1) (x :: l2).

(** What a comprehension keeps, read as a boolean test. *)
Definition holds {A : Type} (p : A -> res bool) (x : A) : bool :=
  match p x with
  | Ok true => true
  | _ => false
  end.


(** Two sort keys compare equal: neither is smaller than the other. *)
Definition key_equiv (a b : json) : bool :=
  match py_lt a b, py_lt b a with
  | Ok false, Ok false => true
  | _, _ => false
  end.

(** The record [x] has a sort key that compares equal to [k]. *)
Definition has_key (key : json -> res json) (k : json) (x : json) : bool :=
  match key x with
  | Ok v => key_equiv k v
  | Raise _ => false
  end.

(** The keys never decrease along the list. *)
Definition non_decreasing (key : json -> res json) (l : list json) : Prop :=
  StronglySorted
    (fun a b => exists ka kb,
         key a = Ok ka /\ key b = Ok kb /\ py_lt kb ka = Ok false) l.

(** The sort fields that [sort_items] documents. *)
Definition SORT_FIELDS : list string :=
  ["name"; "workspace"; "last-visited"; "last-refreshed"; "last-modified"; "owner"].

(** Order of two keyed entries: the second is not smaller. *)
Definition le_key (p q : json * json) : Prop := py_lt (fst q) (fst p) = Ok false.

(** The keys computed by [mapM] belong to the records they are paired with. *)
Definition keyed_by (key : json -> res json) (p : json * json) : Prop :=
  key (snd p) = Ok (fst p).

(** Records used in the statements about the visit filters. *)
Definition visited_on (name when : string) : json :=
  JDict [("displayName", JStr name); ("lastVisitedTimeUTC", JStr when)].

Definition never_visited (name : string) : json :=
  JDict [("displayName", JStr name)].

Definition visited_with_mode (name when : string) (mode : Z) : json :=
  JDict [("displayName", JStr name);
         ("lastVisitedTimeUTC", JStr when);
         ("artifact", JDict [("storageMode", JInt mode)])].

(** [apply_filters] with the not-visited-since boundary alone. *)
Definition not_visited_filter (utcoffset : Z -> Z) (items : list json)
  (boundary : string) : res (list json) :=
  apply_filters utcoffset items None None None None (Some boundary)
    None None None None None None.

(** [apply_filters] with a visited-since boundary and a storage mode. *)
Definition visited_and_mode_filter (utcoffset : Z -> Z) (items : list json)
  (boundary mode : string) : res (list json) :=
  apply_filters utcoffset items None None None (Some boundary) None
    None None None None (Some mode) None.

(** The last visit of a record lies strictly before [since_date]: the
    field is present and not empty, and its first ten characters are a
    calendar date before the boundary. *)
Definition visited_before (since_date : datetime) (item : json) : bool :=
  match item with
  | JDict d =>
      match lookup "lastVisitedTimeUTC" d with
      | Some (JStr s) =>
          match strptime_ymd (slice_to 10 s) with
          | Ok day => negb (String.eqb s "") && (day <? since_date)
          | Raise _ => false
          end
      | _ => false
      end
  | _ => false
  end.

(** The last visit of a record can be read: the record is a dict whose
    field is absent, null, or a str that is empty or starts with a
    calendar date. *)
Definition visit_readable (item : json) : Prop :=
  exists d, item = JDict d
    /\ (lookup "lastVisitedTimeUTC" d = None
        \/ lookup "lastVisitedTimeUTC" d = Some JNull
        \/ exists s, lookup "lastVisitedTimeUTC" d = Some (JStr s)
             /\ (s = "" \/ exists day, strptime_ymd (slice_to 10 s) = Ok day)).

(** A stage of the predicate engine acts as a pure filter on the lists
    whose records satisfy [P]: what it returns on such a list is the list
    filtered by a test [q], and it returns the same filtering on every
    sub-list. *)
Definition filter_like (P : json -> Prop)
  (stage : list json -> res (list json)) : Prop :=
  forall l r,
    Forall P l -> stage l = Ok r ->
    exists q : json -> bool,
      r = filter q l /\ forall m, Subseq m l -> stage m = Ok (filter q m).

(** The record has a last visit: the field is present and truthy. *)
Definition has_visit (item : json) : bool :=
  match item with
  | JDict d =>
      match lookup "lastVisitedTimeUTC" d with
      | Some v => truthy v
      | None => false
      end
  | _ => false
  end.

(** The last visit of a record lies on or after [since_date]. *)
Definition visited_from (since_date : datetime) (item : json) : bool :=
  match item with
  | JDict d =>
      match lookup "lastVisitedTimeUTC" d with
      | Some (JStr s) =>
          match strptime_ymd (slice_to 10 s) with
          | Ok day => negb (String.eqb s "") && (since_date <=? day)
          | Raise _ => false
          end
      | _ => false
      end
  | _ => false
  end.

(** [apply_filters] with the visited-since boundary alone. *)
Definition visited_filter (utcoffset : Z -> Z) (items : list json)
  (boundary : string) : res (list json) :=
  apply_filters utcoffset items None None None (Some boundary) None
    None None None None None None.

(** Sample inputs of the instances. *)
Definition utc (_ : Z) : Z := 0.

Definition logged_in : run_outcome :=
  Completed 0 (Some (JDict [("accessToken", JStr "token")])).

Definition answers_empty (_ : request) : post_outcome :=
  Responded 200 "[]" (inr (JList [])).

Definition search_for_models (region output : string) (limit : option Z)
  : Args.t :=
  Args.mk (Some "Model") (Some "sales") None None None None None None None
    None None None None (Some "name") "asc" output limit region 200
    false false.

Definition refreshed_on (name when : string) : json :=
  JDict [("displayName", JStr name); ("lastRefreshTime", JStr when)].

(** The value under [field] is absent or a text. *)
Definition text_or_absent (field : string) (fields : list (string * json)) : Prop :=
  lookup field fields = None \/ exists s, lookup field fields = Some (JStr s).

(** A record whose name, workspace and owner e-mail can be used as sort
    keys: a dict in which each is absent or a text, the owner being absent
    or a dict. *)
Definition text_keys (item : json) : Prop :=
  exists fields,
    item = JDict fields
    /\ text_or_absent "displayName" fields
    /\ text_or_absent "workspaceName" fields
    /\ (lookup "ownerUser" fields = None
        \/ exists owner, lookup "ownerUser" fields = Some (JDict owner)
                         /\ text_or_absent "emailAddress" owner).

Definition is_dict (v : json) : Prop := exists fields, v = JDict fields.

Definition is_text (v : json) : Prop := exists s, v = JStr s.

(** A filter text made of ASCII characters, or no text at all. *)
Definition is_ascii (s : string) : bool :=
  forallb (fun c => code c <? 128) (list_ascii_of_string s).

Definition ascii_arg (arg : option string) : Prop :=
  match arg with
  | Some s => is_ascii s = true
  | None => True
  end.

(** The artifact that the storage filter reads from a record: the dict
    under [artifact], or an empty dict when the record has no such field. *)
Definition artifact_of (item : json) : option (list (string * json)) :=
  match item with
  | JDict fields =>
      match lookup "artifact" fields with
      | Some (JDict artifact) => Some artifact
      | Some _ => None
      | None => Some []
      end
  | _ => None
  end.

(** The storage code of an artifact is the number [n]; [True] is the
    number 1 in Python. *)
Definition storage_code_is (n : Z) (artifact : list (string * json)) : bool :=
  match lookup "storageMode" artifact with
  | Some (JInt m) => m =? n
  | Some (JBool b) => (if b then 1 else 0) =? n
  | _ => false
  end.

(** The direct-lake flag of an artifact is set. *)
Definition direct_lake_flag (artifact : list (string * json)) : bool :=
  match lookup "directLakeMode" artifact with
  | Some flag => truthy flag
  | None => false
  end.

(** The storage-mode rule in the words of the specification. *)
Definition storage_rule (mode : string) (item : json) : bool :=
  match artifact_of item with
  | Some artifact =>
      (String.eqb mode "import" && storage_code_is 1 artifact)
      || (String.eqb mode "directquery" && storage_code_is 2 artifact)
      || (String.eqb mode "directlake" && direct_lake_flag artifact)
  | None => false
  end.

(** [apply_filters] with the storage mode alone. *)
Definition storage_filter (utcoffset : Z -> Z) (items : list json)
  (storage_mode : string) : res (list json) :=
  apply_filters utcoffset items None None None None None None None None None
    (Some storage_mode) None.

Definition with_artifact (artifact : list (string * json)) : json :=
  JDict [("artifact", JDict artifact)].

Definition storage_samples : list json :=
  [with_artifact [("storageMode", JInt 1)];
   with_artifact [("storageMode", JInt 2)];
   with_artifact [("directLakeMode", JBool true); ("storageMode", JInt 2)];
   JDict [("displayName", JStr "no artifact")]].

(** A value without floats among the values of [Full]. *)
Fixpoint widen (v : json) : Full.json :=
  match v with
  | JNull => Full.JNull
  | JBool b => Full.JBool b
  | JInt n => Full.JInt n
  | JStr s => Full.JStr s
  | JList l => Full.JList (map widen l)
  | JDict d => Full.JDict (map (fun kv => (fst kv, widen (snd kv))) d)
  end.

Definition widen_res (r : res json) : res Full.json :=
  match r with
  | Ok v => Ok (widen v)
  | Raise e => Raise e
  end.

Definition widen_entry (p : json * json) : Full.json * Full.json :=
  (widen (fst p), widen (snd p)).

(** * Properties *)

(** ** Generic facts about the error monad and comprehensions *)

Lemma bind_Ok_inv {A B : Type} (m : res A) (k : A -> res B) (b : B) :
  bind m k = Ok b -> exists a, m = Ok a /\ k a = Ok b.
Proof.
  destruct m as [a|e]; simpl; intros H.
  - exists a; split; [reflexivity | exact H].
  - discriminate H.
Qed.

Ltac bind_inv H :=
  let a := fresh "a" in
  let Ha := fresh "Ha" in
  apply bind_Ok_inv in H; destruct H as [a [Ha H]].

#[local] Hint Constructors Subseq : core.

Lemma Subseq_refl {A : Type} (l : list A) : Subseq l l.
Proof. induction l; auto. Qed.

Lemma Subseq_trans {A : Type} (l1 l2 l3 : list A) :
  Subseq l1 l2 -> Subseq l2 l3 -> Subseq l1 l3.
Proof.
  intros H12 H23. revert l1 H12.
  induction H23 as [|x m2 m3 H IH|x m2 m3 H IH]; intros l1 H12.
  - exact H12.
  - auto.
  - inversion H12; subst; auto.
Qed.

Lemma Subseq_In {A : Type} (l1 l2 : list A) :
  Subseq l1 l2 -> forall x, In x l1 -> In x l2.
Proof.
  induction 1 as [|y m1 m2 H IH|y m1 m2 H IH]; intros x Hx; simpl in *.
  - exact Hx.
  - right; auto.
  - destruct Hx as [->|Hx]; [left; reflexivity | right; auto].
Qed.

Lemma filterM_Ok {A : Type} (p : A -> res bool) (l r : list A) :
  filterM p l = Ok r ->
  r = filter (holds p) l /\ Forall (fun x => exists b, p x = Ok b) l.
Proof.
  revert r. induction l as [|x t IH]; simpl; intros r H.
  - inversion H; subst. split; [reflexivity | constructor].
  - bind_inv H. bind_inv H. inversion H; subst; clear H.
    destruct (IH _ Ha0) as [-> Hall].
    split.
    + assert (Hx : holds p x = a)
        by (unfold holds; rewrite Ha; destruct a; reflexivity).
      simpl. rewrite Hx. reflexivity.
    + constructor; [exists a; exact Ha | exact Hall].
Qed.

Lemma filter_Subseq {A : Type} (f : A -> bool) (l : list A) :
  Subseq (filter f l) l.
Proof. induction l as [|x t IH]; simpl; [auto | destruct (f x); auto]. Qed.

Lemma filterM_Subseq {A : Type} (p : A -> res bool) (l r : list A) :
  filterM p l = Ok r -> Subseq r l.
Proof.
  intros H. apply filterM_Ok in H. destruct H as [-> _]. apply filter_Subseq.
Qed.

Lemma filterM_total {A : Type} (p : A -> res bool) (l : list A) :
  Forall (fun x => exists b, p x = Ok b) l ->
  filterM p l = Ok (filter (holds p) l).
Proof.
  induction 1 as [|x t [b Hb] Ht IH]; simpl; [reflexivity|].
  rewrite Hb, IH. simpl. unfold holds. rewrite Hb. destruct b; reflexivity.
Qed.

Lemma text_stage_Subseq arg prepare pred l r :
  text_stage arg prepare pred l = Ok r -> Subseq r l.
Proof.
  unfold text_stage. destruct (given arg) as [s|]; intros H.
  - eapply filterM_Subseq; eassumption.
  - inversion H; subst. apply Subseq_refl.
Qed.

Lemma date_stage_Subseq arg pred l r :
  date_stage arg pred l = Ok r -> Subseq r l.
Proof.
  unfold date_stage. destruct (given arg) as [s|]; intros H.
  - destruct (strptime_ymd s) as [d|e]; simpl in H.
    + destruct (filterM (pred d) l) as [r'|e] eqn:E; simpl in H.
      * inversion H; subst. eapply filterM_Subseq; eassumption.
      * destruct e; inversion H; subst; apply Subseq_refl.
    + destruct e; inversion H; subst; apply Subseq_refl.
  - inversion H; subst. apply Subseq_refl.
Qed.

(** C2. Whatever filters are supplied, the list returned by
    [apply_filters] is an order-preserving sub-list of the input list; in
    particular every record of the output is a record of the input. *)
Theorem apply_filters_subset :
  forall utcoffset items name_filter workspace_filter owner_filter
         visited_since not_visited_since refreshed_since not_refreshed_since
         updated_since not_updated_since storage_mode capacity_sku out,
    apply_filters utcoffset items name_filter workspace_filter owner_filter
      visited_since not_visited_since refreshed_since not_refreshed_since
      updated_since not_updated_since storage_mode capacity_sku = Ok out ->
    Subseq out items /\ (forall x, In x out -> In x items).
Proof.
  intros tz items a1 a2 a3 a4 a5 a6 a7 a8 a9 a10 a11 out H.
  assert (S : Subseq out items).
  { unfold apply_filters in H.
    repeat (let a := fresh "r" in let Ha := fresh "Hr" in
            apply bind_Ok_inv in H; destruct H as [a [Ha H]]).
    inversion H; subst; clear H.
    repeat match goal with
           | H : text_stage _ _ _ _ = Ok _ |- _ => apply text_stage_Subseq in H
           | H : date_stage _ _ _ = Ok _ |- _ => apply date_stage_Subseq in H
           end.
    repeat (eapply Subseq_trans; [eassumption|]).
    apply Subseq_refl. }
  split; [exact S | apply Subseq_In; exact S].
Qed.

(** ** Search client *)

Lemma assoc_In {V : Type} (k : string) (d : list (string * V)) (v : V) :
  assoc k d = Some v -> In (k, v) d.
Proof.
  induction d as [|[k' v'] t IH]; simpl; intros H.
  - discriminate H.
  - destruct (String.eqb k k') eqn:E.
    + apply String.eqb_eq in E. inversion H; subst. left; reflexivity.
    + right; auto.
Qed.

Lemma REGIONS_hosts_nonempty (region host : string) :
  assoc region REGIONS = Some host -> String.eqb host "" = false.
Proof.
  intros H. apply assoc_In in H.
  assert (A : Forall (fun p => String.eqb (snd p) "" = false) REGIONS)
    by (repeat constructor).
  rewrite Forall_forall in A. exact (A _ H).
Qed.


(** C8. Type resolution is a total function: a label of [ITEM_TYPES]
    resolves to its registered [trident] value, any other label to its
    lower-cased form; and this is the list the request carries as
    [tridentSupportedTypes]. *)
Theorem resolve_type_total :
  forall label,
    match assoc label ITEM_TYPES with
    | Some d => resolve_type label = trident d
    | None => resolve_type label = lower label
    end
    /\ resolve_type "Model" = "dataset"
    /\ resolve_type "Report" = "report"
    /\ resolve_type "PowerBIReport" = "report"
    /\ resolve_type "NoSuchType" = "nosuchtype"
    /\ forall post token item_types region workspace_id page_size page_number,
         match assoc region REGIONS with
         | Some _ =>
             exists req fields,
               fst (search_datahub post token item_types region workspace_id
                      page_size page_number) = [req]
               /\ payload req = JDict fields
               /\ lookup "supportedTypes" fields
                  = Some (JList (map JStr item_types))
               /\ lookup "tridentSupportedTypes" fields
                  = Some (JList (map JStr (map resolve_type item_types)))
         | None => True
         end.
Proof.
  intros label. split.
  - unfold resolve_type. destruct (assoc label ITEM_TYPES); reflexivity.
  - repeat (split; [vm_compute; reflexivity|]).
    intros post token item_types region workspace_id page_size page_number.
    destruct (assoc region REGIONS) as [host|] eqn:Hr; [|exact I].
    unfold search_datahub. rewrite Hr.
    rewrite (REGIONS_hosts_nonempty _ _ Hr). cbv zeta.
    eexists. eexists. split; [reflexivity|].
    split; [reflexivity|]. split; reflexivity.
Qed.

(** C10. A 200 response whose body decodes to a JSON value that is not a
    list is reported as a success with no items and a count of zero. *)
Theorem search_datahub_non_list_body :
  forall post token item_types region host workspace_id page_size page_number
         req text body,
    assoc region REGIONS = Some host ->
    In req (fst (search_datahub post token item_types region workspace_id
                   page_size page_number)) ->
    post req = Responded 200 text (inr body) ->
    (forall l, body <> JList l) ->
    snd (search_datahub post token item_types region workspace_id
           page_size page_number)
    = Ok (JDict [("success", JBool true);
                 ("items", JList []);
                 ("count", JInt 0);
                 ("region", JStr region);
                 ("host", JStr host)]).
Proof.
  intros post token item_types region host workspace_id page_size page_number
         req text body Hr Hin Hpost Hbody.
  unfold search_datahub in *. rewrite Hr in *.
  rewrite (REGIONS_hosts_nonempty _ _ Hr) in *. cbv zeta in *.
  cbn [fst snd] in *.
  destruct Hin as [<-|[]]. rewrite Hpost. cbn.
  destruct body; try reflexivity.
  exfalso. eapply Hbody. reflexivity.
Qed.

(** ** Sorter *)

Lemma string_compare_refl (s : string) : String.compare s s = Eq.
Proof.
  induction s as [|c t IH]; simpl; [reflexivity|].
  unfold Ascii.compare. rewrite N.compare_refl. exact IH.
Qed.

Lemma string_compare_not_Gt_trans (a b c : string) :
  String.compare a b <> Gt -> String.compare b c <> Gt ->
  String.compare a c <> Gt.
Proof.
  revert b c. induction a as [|x a IH]; intros [|y b] [|z c]; simpl;
    try congruence.
  unfold Ascii.compare.
  destruct (N.compare_spec (N_of_ascii x) (N_of_ascii y)) as [Exy|Lxy|Gxy];
    destruct (N.compare_spec (N_of_ascii y) (N_of_ascii z)) as [Eyz|Lyz|Gyz];
    try congruence; intros Hab Hbc.
  - rewrite Exy, Eyz, N.compare_refl. eapply IH; eassumption.
  - rewrite Exy. apply N.compare_lt_iff in Lyz. rewrite Lyz. discriminate.
  - rewrite <- Eyz. apply N.compare_lt_iff in Lxy. rewrite Lxy. discriminate.
  - assert (L : (N_of_ascii x < N_of_ascii z)%N) by lia.
    apply N.compare_lt_iff in L. rewrite L. discriminate.
Qed.

Lemma string_ltb_false_both (a b : string) :
  String.ltb a b = false -> String.ltb b a = false -> a = b.
Proof.
  unfold String.ltb. rewrite (String.compare_antisym b a).
  destruct (String.compare a b) eqn:E; simpl; try discriminate.
  intros _ _. apply String.compare_eq_iff. exact E.
Qed.

Lemma string_ltb_irrefl (a : string) : String.ltb a a = false.
Proof. unfold String.ltb. rewrite string_compare_refl. reflexivity. Qed.

Lemma string_ltb_asym (a b : string) :
  String.ltb a b = true -> String.ltb b a = false.
Proof.
  unfold String.ltb. rewrite (String.compare_antisym b a).
  destruct (String.compare a b); simpl; congruence.
Qed.

Lemma string_ge_trans (a b c : string) :
  String.ltb b a = false -> String.ltb c b = false -> String.ltb c a = false.
Proof.
  unfold String.ltb.
  rewrite (String.compare_antisym b a), (String.compare_antisym c b),
    (String.compare_antisym c a).
  intros Hab Hbc.
  assert (A : String.compare a b <> Gt)
    by (destruct (String.compare a b); simpl in *; congruence).
  assert (B : String.compare b c <> Gt)
    by (destruct (String.compare b c); simpl in *; congruence).
  pose proof (string_compare_not_Gt_trans a b c A B) as C.
  destruct (String.compare a c); simpl; congruence.
Qed.

(** [py_lt] on the keys it orders: what it says is asymmetric, and
    "not smaller" is transitive. *)
Lemma py_lt_Ok_inv (a b : json) (r : bool) :
  py_lt a b = Ok r ->
  (exists s t, a = JStr s /\ b = JStr t /\ r = String.ltb s t)
  \/ (exists m n, as_int a = Some m /\ as_int b = Some n /\ r = (m <? n)).
Proof.
  destruct a, b; simpl; intros H; try discriminate H; inversion H; subst;
    try (left; eexists; eexists; repeat split; reflexivity);
    right; eexists; eexists; repeat split; reflexivity.
Qed.

Lemma py_lt_int (a b : json) (m n : Z) :
  as_int a = Some m -> as_int b = Some n -> py_lt a b = Ok (m <? n).
Proof.
  destruct a, b; simpl; intros Ha Hb; try discriminate;
    inversion Ha; inversion Hb; subst; reflexivity.
Qed.

Lemma as_int_JStr_absurd (a : json) (s : string) (m : Z) :
  a = JStr s -> as_int a = Some m -> False.
Proof. intros ->. discriminate. Qed.

Lemma py_lt_asym (a b : json) :
  py_lt a b = Ok true -> py_lt b a = Ok false.
Proof.
  intros H. destruct (py_lt_Ok_inv _ _ _ H) as
    [(s & t & -> & -> & E)|(m & n & Ha & Hb & E)].
  - simpl. rewrite (string_ltb_asym s t); [reflexivity | congruence].
  - rewrite (py_lt_int _ _ _ _ Hb Ha). f_equal. lia.
Qed.

Lemma py_ge_trans (a b c : json) :
  py_lt b a = Ok false -> py_lt c b = Ok false -> py_lt c a = Ok false.
Proof.
  intros H1 H2.
  destruct (py_lt_Ok_inv _ _ _ H1) as
    [(s & t & -> & -> & E1)|(m & n & Hb & Ha & E1)];
  destruct (py_lt_Ok_inv _ _ _ H2) as
    [(s' & t' & -> & E & E2)|(m' & n' & Hc & Hb' & E2)].
  - inversion E; subst. simpl. f_equal.
    eapply string_ge_trans; symmetry; eassumption.
  - exfalso. eapply as_int_JStr_absurd; [reflexivity | exact Hb'].
  - subst b. discriminate Hb.
  - rewrite Hb in Hb'. inversion Hb'; subst.
    rewrite (py_lt_int _ _ _ _ Hc Ha). f_equal. lia.
Qed.

Lemma key_equiv_not_lt (k u v : json) :
  key_equiv k u = true -> key_equiv k v = true -> py_lt v u <> Ok true.
Proof.
  unfold key_equiv.
  destruct (py_lt k u) as [[|]|] eqn:E1; try discriminate.
  destruct (py_lt u k) as [[|]|] eqn:E2; try discriminate.
  destruct (py_lt k v) as [[|]|] eqn:E3; try discriminate.
  destruct (py_lt v k) as [[|]|] eqn:E4; try discriminate.
  intros _ _ H.
  pose proof (py_ge_trans _ _ _ E1 E4) as T.
  congruence.
Qed.

Lemma insert_key_Permutation (x : json * json) (l r : list (json * json)) :
  insert_key x l = Ok r -> Permutation (x :: l) r.
Proof.
  revert r. induction l as [|y t IH]; simpl; intros r H.
  - inversion H; subst. apply Permutation_refl.
  - bind_inv H. destruct a.
    + bind_inv H. inversion H; subst.
      eapply perm_trans; [apply perm_swap|].
      apply perm_skip. apply IH. assumption.
    + inversion H; subst. apply Permutation_refl.
Qed.

Lemma sort_keyed_Permutation (l r : list (json * json)) :
  sort_keyed l = Ok r -> Permutation l r.
Proof.
  revert r. induction l as [|x t IH]; simpl; intros r H.
  - inversion H; subst. constructor.
  - bind_inv H. apply insert_key_Permutation in H.
    eapply perm_trans; [|exact H]. apply perm_skip. apply IH. assumption.
Qed.

(** Insertion keeps the entries of one key class in their order. *)
Lemma insert_key_stable (k : json) (x : json * json) (l r : list (json * json)) :
  insert_key x l = Ok r ->
  filter (fun p => key_equiv k (fst p)) r
  = filter (fun p => key_equiv k (fst p)) (x :: l).
Proof.
  revert r. induction l as [|y t IH]; simpl; intros r H.
  - inversion H; subst. reflexivity.
  - bind_inv H. destruct a.
    + bind_inv H. inversion H; subst; clear H.
      simpl. rewrite (IH _ Ha0). simpl.
      destruct (key_equiv k (fst x)) eqn:Ex;
        destruct (key_equiv k (fst y)) eqn:Ey; try reflexivity.
      exfalso. exact (key_equiv_not_lt _ _ _ Ex Ey Ha).
    + inversion H; subst. reflexivity.
Qed.

Lemma sort_keyed_stable (k : json) (l r : list (json * json)) :
  sort_keyed l = Ok r ->
  filter (fun p => key_equiv k (fst p)) r
  = filter (fun p => key_equiv k (fst p)) l.
Proof.
  revert r. induction l as [|x t IH]; simpl; intros r H.
  - inversion H; subst. reflexivity.
  - bind_inv H. rewrite (insert_key_stable k _ _ _ H).
    simpl. rewrite (IH _ Ha). reflexivity.
Qed.

Lemma insert_key_sorted (x : json * json) (l r : list (json * json)) :
  StronglySorted le_key l -> insert_key x l = Ok r -> StronglySorted le_key r.
Proof.
  revert r. induction l as [|y t IH]; simpl; intros r Hs H.
  - inversion H; subst. repeat constructor.
  - bind_inv H. inversion Hs as [|y' t' Hst Hall]; subst. destruct a.
    + bind_inv H. inversion H; subst; clear H.
      constructor; [apply IH; assumption|].
      apply insert_key_Permutation in Ha0.
      eapply Permutation_Forall; [exact Ha0|].
      constructor; [|exact Hall].
      unfold le_key. apply py_lt_asym. exact Ha.
    + inversion H; subst; clear H.
      constructor; [exact Hs|].
      constructor; [exact Ha|].
      rewrite Forall_forall in *. intros z Hz.
      unfold le_key in *. eapply py_ge_trans; [exact Ha | apply Hall; exact Hz].
Qed.

Lemma sort_keyed_sorted (l r : list (json * json)) :
  sort_keyed l = Ok r -> StronglySorted le_key r.
Proof.
  revert r. induction l as [|x t IH]; simpl; intros r H.
  - inversion H; subst. constructor.
  - bind_inv H. eapply insert_key_sorted; [apply IH|]; eassumption.
Qed.

Lemma mapM_combine (key : json -> res json) (items keys : list json) :
  mapM key items = Ok keys ->
  map snd (combine keys items) = items
  /\ Forall (keyed_by key) (combine keys items).
Proof.
  revert keys. induction items as [|x t IH]; simpl; intros keys H.
  - inversion H; subst. split; constructor.
  - bind_inv H. bind_inv H. inversion H; subst; clear H.
    destruct (IH _ Ha0) as [E F]. simpl. split.
    + rewrite E. reflexivity.
    + constructor; [exact Ha | exact F].
Qed.

Lemma filter_keyed (key : json -> res json) (k : json) (l : list (json * json)) :
  Forall (keyed_by key) l ->
  filter (has_key key k) (map snd l)
  = map snd (filter (fun p => key_equiv k (fst p)) l).
Proof.
  induction 1 as [|p t Hp Ht IH]; simpl; [reflexivity|].
  unfold has_key at 1. rewrite Hp.
  destruct (key_equiv k (fst p)); simpl; rewrite IH; reflexivity.
Qed.

Lemma sorted_keyed (key : json -> res json) (l : list (json * json)) :
  Forall (keyed_by key) l -> StronglySorted le_key l ->
  non_decreasing key (map snd l).
Proof.
  unfold non_decreasing.
  induction 2 as [|p t Hs IH Hall]; simpl; [constructor|].
  inversion H as [|p' t' Hp Ht]; subst.
  constructor; [apply IH; exact Ht|].
  rewrite Forall_forall in *. intros b Hb.
  apply in_map_iff in Hb. destruct Hb as [q [<- Hq]].
  exists (fst p), (fst q). split; [exact Hp|]. split; [apply Ht; exact Hq|].
  apply Hall. exact Hq.
Qed.

Lemma sorted_spec (items : list json) (key : json -> res json)
  (reverse : bool) (out : list json) :
  sorted items key reverse = Ok out ->
  Permutation items out
  /\ (forall k, filter (has_key key k) out = filter (has_key key k) items)
  /\ non_decreasing key (if reverse then rev out else out).
Proof.
  unfold sorted. intros H. bind_inv H. bind_inv H. inversion H; subst; clear H.
  destruct (mapM_combine _ _ _ Ha) as [E F].
  destruct reverse.
  - bind_inv Ha0. inversion Ha0; subst; clear Ha0.
    pose proof (sort_keyed_Permutation _ _ Ha1) as P.
    assert (Fa : Forall (keyed_by key) a1).
    { eapply Permutation_Forall; [exact P|].
      eapply Permutation_Forall; [apply Permutation_rev|]. exact F. }
    split; [|split].
    + rewrite <- E at 1. apply Permutation_map.
      eapply perm_trans; [apply Permutation_rev|].
      eapply perm_trans; [exact P|]. apply Permutation_rev.
    + intros k. rewrite map_rev, filter_rev.
      rewrite (filter_keyed key k a1 Fa).
      rewrite (sort_keyed_stable k _ _ Ha1).
      rewrite filter_rev, map_rev, rev_involutive.
      rewrite <- (filter_keyed key k _ F). rewrite E. reflexivity.
    + rewrite map_rev, rev_involutive.
      apply sorted_keyed; [exact Fa|]. eapply sort_keyed_sorted; eassumption.
  - pose proof (sort_keyed_Permutation _ _ Ha0) as P.
    assert (Fa : Forall (keyed_by key) a0)
      by (eapply Permutation_Forall; [exact P | exact F]).
    split; [|split].
    + rewrite <- E at 1. apply Permutation_map. exact P.
    + intros k. rewrite (filter_keyed key k a0 Fa).
      rewrite (sort_keyed_stable k _ _ Ha0).
      rewrite <- (filter_keyed key k _ F). rewrite E. reflexivity.
    + apply sorted_keyed; [exact Fa|]. eapply sort_keyed_sorted; eassumption.
Qed.

Lemma sort_key_recognised (sort_by : string) :
  In sort_by SORT_FIELDS <-> sort_key sort_by <> None.
Proof.
  unfold sort_key, SORT_FIELDS. simpl.
  repeat match goal with
         | |- context [String.eqb sort_by ?s] =>
             destruct (String.eqb_spec sort_by s) as [->|?]
         end;
    split; intros H; try discriminate; try congruence; auto 10;
    try (exfalso; intuition congruence).
Qed.

(** ** The sorter on every decoded value *)

(** *** The order of floats *)

Lemma Qle_bool_false (p q : Q) : Qle_bool p q = false -> (q < p)%Q.
Proof.
  intros H. apply Qnot_le_lt. intros L. apply Qle_bool_iff in L. congruence.
Qed.

Lemma float_lt_asym (x y : Full.float) :
  Full.float_lt x y = true -> Full.float_lt y x = false.
Proof.
  destruct x as [|[|]|p], y as [|[|]|q]; simpl; try congruence; try reflexivity.
  intros H. apply negb_true_iff in H. apply Qle_bool_false in H.
  apply negb_false_iff. apply Qle_bool_iff. apply Qlt_le_weak. exact H.
Qed.

Lemma float_ge_trans (x y z : Full.float) :
  y <> Full.NaN ->
  Full.float_lt y x = false -> Full.float_lt z y = false ->
  Full.float_lt z x = false.
Proof.
  destruct x as [|[|]|p], y as [|[|]|q], z as [|[|]|r]; simpl;
    try congruence; try reflexivity.
  intros _ H1 H2. apply negb_false_iff in H1, H2. apply negb_false_iff.
  apply Qle_bool_iff in H1, H2. apply Qle_bool_iff.
  eapply Qle_trans; eassumption.
Qed.

Lemma float_eq_not_lt (u v k : Full.float) :
  Full.float_eq u k = true -> Full.float_eq v k = true ->
  Full.float_lt v u = false.
Proof.
  destruct u as [|[|]|p], v as [|[|]|q], k as [|[|]|r]; simpl;
    try congruence; try reflexivity.
  intros H1 H2. apply Qeq_bool_iff in H1, H2.
  apply negb_false_iff. apply Qle_bool_iff. rewrite H1, H2. apply Qle_refl.
Qed.

(** *** [<] and [==] on the keys of one class *)

Lemma full_number_texts (v : Full.json) (f : Full.float) :
  Full.number v = Some f -> Full.is_text v = false.
Proof. destruct v; simpl; intros H; try discriminate H; reflexivity. Qed.

Lemma full_py_lt_numbers (a b : Full.json) (x y : Full.float) :
  Full.number a = Some x -> Full.number b = Some y ->
  Full.py_lt a b = Ok (Full.float_lt x y).
Proof.
  destruct a, b; simpl; intros Ha Hb; try discriminate;
    inversion Ha; inversion Hb; subst; reflexivity.
Qed.

Lemma full_py_eq_numbers (a b : Full.json) (x y : Full.float) :
  Full.number a = Some x -> Full.number b = Some y ->
  Full.py_eq a b = Full.float_eq x y.
Proof.
  destruct a, b; simpl; intros Ha Hb; try discriminate;
    inversion Ha; inversion Hb; subst; reflexivity.
Qed.

Lemma full_py_eq_number_inv (a k : Full.json) (x : Full.float) :
  Full.number a = Some x -> Full.py_eq a k = true ->
  exists y, Full.number k = Some y /\ Full.float_eq x y = true.
Proof.
  destruct a, k; simpl; intros Ha H; try discriminate;
    inversion Ha; subst; eexists; split; try reflexivity; exact H.
Qed.

Lemma full_ordered_number_inv (v : Full.json) :
  Full.is_ordered_number v = true ->
  exists f, Full.number v = Some f /\ f <> Full.NaN.
Proof.
  unfold Full.is_ordered_number.
  destruct (Full.number v) as [[| |]|]; try discriminate; intros _;
    eexists; (split; [reflexivity | discriminate]).
Qed.

Lemma full_text_inv (v : Full.json) :
  Full.is_text v = true -> exists s, v = Full.JStr s.
Proof. destruct v; try discriminate. intros _. eexists. reflexivity. Qed.

Lemma full_py_lt_total (c : bool) (a b : Full.json) :
  Full.key_class c a -> Full.key_class c b ->
  exists r, Full.py_lt a b = Ok r.
Proof.
  destruct c; simpl; intros Ha Hb.
  - destruct (full_text_inv _ Ha) as [s ->], (full_text_inv _ Hb) as [t ->].
    eexists. reflexivity.
  - destruct (full_ordered_number_inv _ Ha) as (x & Hx & _),
      (full_ordered_number_inv _ Hb) as (y & Hy & _).
    eexists. apply full_py_lt_numbers; eassumption.
Qed.

Lemma full_py_lt_asym (c : bool) (a b : Full.json) :
  Full.key_class c a -> Full.key_class c b ->
  Full.py_lt a b = Ok true -> Full.py_lt b a = Ok false.
Proof.
  destruct c; simpl; intros Ha Hb.
  - destruct (full_text_inv _ Ha) as [s ->], (full_text_inv _ Hb) as [t ->].
    simpl. intros H. f_equal. apply string_ltb_asym. congruence.
  - destruct (full_ordered_number_inv _ Ha) as (x & Hx & _),
      (full_ordered_number_inv _ Hb) as (y & Hy & _).
    rewrite (full_py_lt_numbers _ _ _ _ Hx Hy), (full_py_lt_numbers _ _ _ _ Hy Hx).
    intros H. f_equal. apply float_lt_asym. congruence.
Qed.

Lemma full_py_ge_trans (c : bool) (a b d : Full.json) :
  Full.key_class c a -> Full.key_class c b -> Full.key_class c d ->
  Full.py_lt b a = Ok false -> Full.py_lt d b = Ok false ->
  Full.py_lt d a = Ok false.
Proof.
  destruct c; simpl; intros Ha Hb Hd.
  - destruct (full_text_inv _ Ha) as [s ->], (full_text_inv _ Hb) as [t ->],
      (full_text_inv _ Hd) as [u ->].
    simpl. intros H1 H2. f_equal.
    eapply string_ge_trans; [injection H1 as H1; exact H1
                            | injection H2 as H2; exact H2].
  - destruct (full_ordered_number_inv _ Ha) as (x & Hx & _),
      (full_ordered_number_inv _ Hb) as (y & Hy & Ny),
      (full_ordered_number_inv _ Hd) as (z & Hz & _).
    rewrite (full_py_lt_numbers _ _ _ _ Hy Hx), (full_py_lt_numbers _ _ _ _ Hz Hy),
      (full_py_lt_numbers _ _ _ _ Hz Hx).
    intros H1 H2. f_equal.
    eapply float_ge_trans; [exact Ny | injection H1 as H1; exact H1
                           | injection H2 as H2; exact H2].
Qed.

Lemma full_py_eq_not_lt (c : bool) (k u v : Full.json) :
  Full.key_class c u -> Full.key_class c v ->
  Full.py_eq u k = true -> Full.py_eq v k = true ->
  Full.py_lt v u <> Ok true.
Proof.
  destruct c; simpl; intros Hu Hv.
  - destruct (full_text_inv _ Hu) as [s ->], (full_text_inv _ Hv) as [t ->].
    destruct k; simpl; try discriminate. intros E1 E2.
    apply String.eqb_eq in E1, E2. subst. rewrite string_ltb_irrefl. discriminate.
  - destruct (full_ordered_number_inv _ Hu) as (x & Hx & _),
      (full_ordered_number_inv _ Hv) as (y & Hy & _).
    intros E1 E2.
    destruct (full_py_eq_number_inv _ _ _ Hx E1) as (z & Hz & Fx).
    destruct (full_py_eq_number_inv _ _ _ Hy E2) as (z' & Hz' & Fy).
    rewrite Hz in Hz'. inversion Hz'; subst z'.
    rewrite (full_py_lt_numbers _ _ _ _ Hy Hx).
    rewrite (float_eq_not_lt _ _ _ Fx Fy). discriminate.
Qed.

(** *** The stable sort on the keys of one class *)

Lemma full_insert_key_Permutation (x : (Full.json * Full.json)) (l r : list (Full.json * Full.json)) :
  Full.insert_key x l = Ok r -> Permutation (x :: l) r.
Proof.
  revert r. induction l as [|y t IH]; simpl; intros r H.
  - inversion H; subst. apply Permutation_refl.
  - bind_inv H. destruct a.
    + bind_inv H. inversion H; subst.
      eapply perm_trans; [apply perm_swap|].
      apply perm_skip. apply IH. assumption.
    + inversion H; subst. apply Permutation_refl.
Qed.

Lemma full_insert_key_total (c : bool) (x : (Full.json * Full.json)) (l : list (Full.json * Full.json)) :
  Full.key_class c (fst x) ->
  Forall (fun p => Full.key_class c (fst p)) l ->
  exists r, Full.insert_key x l = Ok r.
Proof.
  intros Hx. induction 1 as [|y t Hy Ht IH]; simpl.
  - eexists. reflexivity.
  - destruct (full_py_lt_total c _ _ Hy Hx) as [[|] ->]; simpl.
    + destruct IH as [r ->]. simpl. eexists. reflexivity.
    + eexists. reflexivity.
Qed.

Lemma full_insert_key_stable (c : bool) (k : Full.json) (x : (Full.json * Full.json))
  (l r : list (Full.json * Full.json)) :
  Full.key_class c (fst x) ->
  Forall (fun p => Full.key_class c (fst p)) l ->
  Full.insert_key x l = Ok r ->
  filter (fun p => Full.py_eq (fst p) k) r
  = filter (fun p => Full.py_eq (fst p) k) (x :: l).
Proof.
  intros Hx Hl. revert r. induction Hl as [|y t Hy Ht IH]; simpl; intros r H.
  - inversion H; subst. reflexivity.
  - bind_inv H. destruct a.
    + bind_inv H. inversion H; subst; clear H.
      simpl. rewrite (IH _ Ha0). simpl.
      destruct (Full.py_eq (fst x) k) eqn:Ex;
        destruct (Full.py_eq (fst y) k) eqn:Ey; try reflexivity.
      exfalso. exact (full_py_eq_not_lt c _ _ _ Hx Hy Ex Ey Ha).
    + inversion H; subst. reflexivity.
Qed.

Lemma full_insert_key_sorted (c : bool) (x : (Full.json * Full.json)) (l r : list (Full.json * Full.json)) :
  Full.key_class c (fst x) ->
  Forall (fun p => Full.key_class c (fst p)) l ->
  StronglySorted Full.le_key l -> Full.insert_key x l = Ok r ->
  StronglySorted Full.le_key r.
Proof.
  intros Hx Hl. revert r. induction Hl as [|y t Hy Ht IH]; simpl; intros r Hs H.
  - inversion H; subst. repeat constructor.
  - bind_inv H. inversion Hs as [|y' t' Hst Hall]; subst. destruct a.
    + bind_inv H. inversion H; subst; clear H.
      constructor; [apply IH; assumption|].
      apply full_insert_key_Permutation in Ha0.
      eapply Permutation_Forall; [exact Ha0|].
      constructor; [|exact Hall].
      unfold Full.le_key. eapply full_py_lt_asym; eassumption.
    + inversion H; subst; clear H.
      constructor; [exact Hs|].
      constructor; [exact Ha|].
      rewrite Forall_forall in *. intros z Hz.
      unfold Full.le_key in *.
      eapply (full_py_ge_trans c _ (fst y)); try eassumption.
      * apply Ht. exact Hz.
      * apply Hall. exact Hz.
Qed.

Lemma full_sort_keyed_spec (c : bool) (l : list (Full.json * Full.json)) :
  Forall (fun p => Full.key_class c (fst p)) l ->
  exists r,
    Full.sort_keyed l = Ok r
    /\ Permutation l r
    /\ (forall k, filter (fun p => Full.py_eq (fst p) k) r
                  = filter (fun p => Full.py_eq (fst p) k) l)
    /\ StronglySorted Full.le_key r.
Proof.
  induction 1 as [|x t Hx Ht IH]; simpl.
  - exists []. repeat split; constructor.
  - destruct IH as (r & -> & P & S & O). simpl.
    assert (Hr : Forall (fun p => Full.key_class c (fst p)) r)
      by (eapply Permutation_Forall; eassumption).
    destruct (full_insert_key_total c x r Hx Hr) as [r' E].
    exists r'. split; [exact E|]. split; [|split].
    + eapply perm_trans; [apply perm_skip; exact P|].
      apply full_insert_key_Permutation. exact E.
    + intros k. rewrite (full_insert_key_stable c k _ _ _ Hx Hr E).
      simpl. rewrite (S k). reflexivity.
    + eapply full_insert_key_sorted; eassumption.
Qed.

(** *** The steps of [list.sort] on the keys of one class *)

Lemma full_py_lt_le_trans (c : bool) (x p i : Full.json) :
  Full.key_class c x -> Full.key_class c p -> Full.key_class c i ->
  Full.py_lt x p = Ok true -> Full.py_lt i p = Ok false ->
  Full.py_lt x i = Ok true.
Proof.
  intros Hx Hp Hi L G.
  destruct (full_py_lt_total c x i Hx Hi) as [[|] E]; [exact E|].
  pose proof (full_py_ge_trans c p i x Hp Hi Hx G E) as F. congruence.
Qed.

Lemma StronglySorted_nth {A : Type} (R : A -> A -> Prop) (a : list A) (d : A) :
  StronglySorted R a ->
  forall i j, (i < j)%nat -> (j < List.length a)%nat ->
    R (nth i a d) (nth j a d).
Proof.
  induction 1 as [|x t Hs IH Hall]; simpl; intros i j Hij Hj; [lia|].
  destruct j as [|j]; [lia|]. destruct i as [|i].
  - rewrite Forall_forall in Hall. apply Hall. apply nth_In. lia.
  - apply IH; lia.
Qed.

Lemma full_class_nth (c : bool) (a : list (Full.json * Full.json))
  (x : Full.json * Full.json) (i : nat) :
  Forall (fun p => Full.key_class c (fst p)) a -> Full.key_class c (fst x) ->
  Full.key_class c (fst (nth i a x)).
Proof.
  intros Ha Hx. destruct (Nat.lt_ge_cases i (List.length a)) as [L|G].
  - rewrite Forall_forall in Ha. apply Ha. apply nth_In. exact L.
  - rewrite nth_overflow; assumption.
Qed.

(** [bisect] finds the place behind the entries that are not greater than
    the pivot. *)
Lemma full_bisect_spec (c : bool) (x : Full.json * Full.json)
  (a : list (Full.json * Full.json)) :
  Forall (fun p => Full.key_class c (fst p)) a -> Full.key_class c (fst x) ->
  StronglySorted Full.le_key a ->
  forall steps l r,
    (l < r)%nat -> (r <= List.length a)%nat -> (r - l <= steps)%nat ->
    (forall i, (i < l)%nat -> Full.py_lt (fst x) (fst (nth i a x)) = Ok false) ->
    (forall i, (r <= i)%nat -> (i < List.length a)%nat ->
               Full.py_lt (fst x) (fst (nth i a x)) = Ok true) ->
    exists n,
      Full.bisect steps x a l r = Ok n
      /\ (n <= List.length a)%nat
      /\ (forall i, (i < n)%nat -> Full.py_lt (fst x) (fst (nth i a x)) = Ok false)
      /\ (forall i, (n <= i)%nat -> (i < List.length a)%nat ->
                    Full.py_lt (fst x) (fst (nth i a x)) = Ok true).
Proof.
  intros Ha Hx Hs. induction steps as [|steps IH]; intros l r Hlr Hr Hst Lo Hi;
    [lia|].
  cbn [Full.bisect]. cbv zeta.
  assert (Hp : (l <= l + (r - l) / 2 /\ l + (r - l) / 2 < r)%nat).
  { pose proof (Nat.div_lt (r - l) 2). lia. }
  set (p := (l + (r - l) / 2)%nat) in *.
  destruct (full_py_lt_total c (fst x) (fst (nth p a x)) Hx
              (full_class_nth c a x p Ha Hx)) as [b E].
  rewrite E. cbn [bind]. destruct b.
  - assert (Hi' : forall i, (p <= i)%nat -> (i < List.length a)%nat ->
                    Full.py_lt (fst x) (fst (nth i a x)) = Ok true).
    { intros i Hpi Hia. destruct (Nat.eq_dec i p) as [->|Ne]; [exact E|].
      eapply (full_py_lt_le_trans c _ (fst (nth p a x))); try assumption;
        try (apply full_class_nth; assumption).
      apply (StronglySorted_nth Full.le_key a x Hs p i); lia. }
    destruct (Nat.ltb_spec l p) as [L|G].
    + apply IH; try assumption; lia.
    + exists l. split; [reflexivity|]. split; [lia|]. split; [exact Lo|].
      intros i Hli Hia. apply Hi'; lia.
  - assert (Lo' : forall i, (i < S p)%nat ->
                    Full.py_lt (fst x) (fst (nth i a x)) = Ok false).
    { intros i Hip. destruct (Nat.eq_dec i p) as [->|Ne]; [exact E|].
      eapply (full_py_ge_trans c _ (fst (nth p a x))); try assumption;
        try (apply full_class_nth; assumption).
      apply (StronglySorted_nth Full.le_key a x Hs i p); lia. }
    destruct (Nat.ltb_spec (S p) r) as [L|G].
    + apply IH; try assumption; lia.
    + exists (S p). split; [reflexivity|]. split; [lia|]. split; [exact Lo'|].
      intros i Hli Hia. apply Hi; lia.
Qed.

Lemma In_firstn_In {A : Type} (n : nat) (l : list A) (x : A) :
  In x (firstn n l) -> In x l.
Proof.
  revert n. induction l as [|y t IH]; intros n H.
  - rewrite firstn_nil in H. exact H.
  - destruct n as [|n]; simpl in H; [destruct H|].
    destruct H as [->|H]; [left; reflexivity | right; eapply IH; exact H].
Qed.

Lemma Forall_firstn_nth {A : Type} (P : A -> Prop) (d : A) (a : list A) (n : nat) :
  (forall i, (i < n)%nat -> (i < List.length a)%nat -> P (nth i a d)) ->
  Forall P (firstn n a).
Proof.
  revert n. induction a as [|x t IH]; intros n H.
  - rewrite firstn_nil. constructor.
  - destruct n as [|n]; simpl; constructor.
    + apply (H O); simpl; lia.
    + apply IH. intros i Hi Hl. apply (H (S i)); simpl; lia.
Qed.

Lemma Forall_skipn_nth {A : Type} (P : A -> Prop) (d : A) (a : list A) (n : nat) :
  (forall i, (n <= i)%nat -> (i < List.length a)%nat -> P (nth i a d)) ->
  Forall P (skipn n a).
Proof.
  revert n. induction a as [|x t IH]; intros n H.
  - rewrite skipn_nil. constructor.
  - destruct n as [|n]; simpl.
    + constructor.
      * apply (H O); simpl; lia.
      * apply (IH O). intros i Hi Hl. apply (H (S i)); simpl; lia.
    + apply IH. intros i Hi Hl. apply (H (S i)); simpl; lia.
Qed.

Lemma StronglySorted_insert {A : Type} (R : A -> A -> Prop) (x : A) (l1 l2 : list A) :
  StronglySorted R (l1 ++ l2) ->
  Forall (fun e => R e x) l1 -> Forall (R x) l2 ->
  StronglySorted R (l1 ++ x :: l2).
Proof.
  induction l1 as [|e l1 IH]; simpl; intros Hs F1 F2.
  - constructor; assumption.
  - inversion Hs as [|e' t' Hs' Hall]; subst.
    inversion F1 as [|e' t' He F1']; subst.
    constructor; [apply IH; assumption|].
    apply Forall_app in Hall. destruct Hall as [H1 H2].
    apply Forall_app. split; [exact H1|]. constructor; assumption.
Qed.

(** One step of [binarysort]: the pivot is put behind the entries that
    are not greater, which keeps the list sorted and the entries of equal
    keys in their order. *)
Lemma full_place_spec (c : bool) (x : Full.json * Full.json)
  (a : list (Full.json * Full.json)) :
  Forall (fun p => Full.key_class c (fst p)) a -> Full.key_class c (fst x) ->
  StronglySorted Full.le_key a ->
  exists n,
    Full.bisect (List.length a) x a 0 (List.length a) = Ok n
    /\ StronglySorted Full.le_key (firstn n a ++ x :: skipn n a)
    /\ Permutation (a ++ [x]) (firstn n a ++ x :: skipn n a)
    /\ (forall k, filter (fun p => Full.py_eq (fst p) k) (firstn n a ++ x :: skipn n a)
                  = filter (fun p => Full.py_eq (fst p) k) (a ++ [x])).
Proof.
  intros Ha Hx Hs.
  assert (B : exists n,
             Full.bisect (List.length a) x a 0 (List.length a) = Ok n
             /\ (n <= List.length a)%nat
             /\ (forall i, (i < n)%nat ->
                   Full.py_lt (fst x) (fst (nth i a x)) = Ok false)
             /\ (forall i, (n <= i)%nat -> (i < List.length a)%nat ->
                   Full.py_lt (fst x) (fst (nth i a x)) = Ok true)).
  { destruct a as [|y t].
    - exists O. split; [reflexivity|]. split; [simpl; lia|].
      split; intros i Hi; simpl in *; lia.
    - apply (full_bisect_spec c x (y :: t) Ha Hx Hs); simpl; lia. }
  destruct B as (n & E & Hn & Lo & Hi). exists n. split; [exact E|].
  assert (F1 : Forall (fun e => Full.py_lt (fst x) (fst e) = Ok false) (firstn n a)).
  { apply (Forall_firstn_nth _ x). intros i H1 _. apply Lo. exact H1. }
  assert (F2 : Forall (fun e => Full.py_lt (fst x) (fst e) = Ok true) (skipn n a)).
  { apply (Forall_skipn_nth _ x). exact Hi. }
  assert (C2 : Forall (fun p => Full.key_class c (fst p)) (skipn n a)).
  { rewrite <- (firstn_skipn n a) in Ha. apply Forall_app in Ha. apply Ha. }
  split; [|split].
  - apply StronglySorted_insert.
    + rewrite firstn_skipn. exact Hs.
    + exact F1.
    + rewrite Forall_forall in *. intros e He. unfold Full.le_key.
      eapply full_py_lt_asym; [exact Hx | apply C2; exact He | apply F2; exact He].
  - eapply perm_trans; [apply Permutation_sym, Permutation_cons_append|].
    replace (x :: a) with (x :: firstn n a ++ skipn n a)
      by (rewrite firstn_skipn; reflexivity).
    apply Permutation_middle.
  - intros k.
    replace (a ++ [x])%list with ((firstn n a ++ skipn n a) ++ [x])%list
      by (rewrite firstn_skipn; reflexivity).
    rewrite !filter_app. rewrite <- app_assoc. f_equal. simpl.
    destruct (Full.py_eq (fst x) k) eqn:Ex; [|rewrite app_nil_r; reflexivity].
    assert (N : filter (fun p => Full.py_eq (fst p) k) (skipn n a) = []).
    { rewrite Forall_forall in F2, C2.
      induction (skipn n a) as [|e t IH]; [reflexivity|]. simpl.
      destruct (Full.py_eq (fst e) k) eqn:Ee.
      - exfalso.
        apply (full_py_eq_not_lt c k (fst e) (fst x)
                 (C2 e (or_introl eq_refl)) Hx Ee Ex).
        apply F2. left. reflexivity.
      - apply IH; intros z Hz; [apply F2 | apply C2]; right; exact Hz. }
    rewrite N. reflexivity.
Qed.

Lemma full_binarysort_spec (c : bool) (rest a : list (Full.json * Full.json)) :
  Forall (fun p => Full.key_class c (fst p)) a ->
  Forall (fun p => Full.key_class c (fst p)) rest ->
  StronglySorted Full.le_key a ->
  exists r,
    Full.binarysort a rest = Ok r
    /\ StronglySorted Full.le_key r
    /\ Permutation (a ++ rest) r
    /\ (forall k, filter (fun p => Full.py_eq (fst p) k) r
                  = filter (fun p => Full.py_eq (fst p) k) (a ++ rest)).
Proof.
  revert a. induction rest as [|x rest IH]; intros a Ha Hr Hs; simpl.
  - exists a. rewrite app_nil_r. repeat split; [exact Hs | apply Permutation_refl].
  - inversion Hr as [|x' t' Hx Hr']; subst.
    destruct (full_place_spec c x a Ha Hx Hs) as (n & -> & S & P & K). simpl.
    assert (Ha' : Forall (fun p => Full.key_class c (fst p))
                    (firstn n a ++ x :: skipn n a)).
    { eapply Permutation_Forall; [exact P|].
      apply Forall_app. split; [exact Ha | constructor; [exact Hx | constructor]]. }
    destruct (IH _ Ha' Hr' S) as (r & -> & S' & P' & K').
    exists r. split; [reflexivity|]. split; [exact S'|]. split.
    + eapply perm_trans; [|exact P'].
      replace (a ++ x :: rest)%list with ((a ++ [x]) ++ rest)%list
        by (rewrite <- app_assoc; reflexivity).
      apply Permutation_app_tail. exact P.
    + intros k. rewrite (K' k).
      rewrite (filter_app _ (firstn n a ++ x :: skipn n a) rest), (K k).
      replace (a ++ x :: rest)%list with ((a ++ [x]) ++ rest)%list
        by (rewrite <- app_assoc; reflexivity).
      rewrite (filter_app _ (a ++ [x]) rest). reflexivity.
Qed.

Lemma full_py_lt_trans (c : bool) (z y p : Full.json) :
  Full.key_class c z -> Full.key_class c y -> Full.key_class c p ->
  Full.py_lt z y = Ok true -> Full.py_lt y p = Ok true ->
  Full.py_lt z p = Ok true.
Proof.
  intros Hz Hy Hp L1 L2.
  apply (full_py_lt_le_trans c z y p Hz Hy Hp L1).
  apply (full_py_lt_asym c y p Hy Hp L2).
Qed.

(** [count_run]: the run it counts never descends, or descends at every
    step. *)
Lemma full_run_ascending_spec (c : bool) (t : list (Full.json * Full.json)) :
  Forall (fun p => Full.key_class c (fst p)) t ->
  forall p, Full.key_class c (fst p) ->
    exists m,
      Full.run_ascending (fst p) t = Ok m
      /\ StronglySorted Full.le_key (p :: firstn m t).
Proof.
  induction 1 as [|y t Hy Ht IH]; intros p Hp; simpl.
  - exists O. split; [reflexivity | repeat constructor].
  - destruct (full_py_lt_total c (fst y) (fst p) Hy Hp) as [[|] E];
      rewrite E; simpl.
    + exists O. split; [reflexivity | repeat constructor].
    + destruct (IH y Hy) as (m & -> & S). simpl.
      exists (Datatypes.S m). split; [reflexivity|]. simpl.
      constructor; [exact S|].
      inversion S as [|y' t' S' Hall]; subst.
      constructor; [exact E|].
      rewrite Forall_forall in *. intros z Hz. unfold Full.le_key in *.
      apply (full_py_ge_trans c (fst p) (fst y) (fst z)); try assumption.
      * apply Ht. exact (In_firstn_In m _ _ Hz).
      * apply Hall. exact Hz.
Qed.

Lemma full_run_descending_spec (c : bool) (t : list (Full.json * Full.json)) :
  Forall (fun p => Full.key_class c (fst p)) t ->
  forall p, Full.key_class c (fst p) ->
    exists m,
      Full.run_descending (fst p) t = Ok m
      /\ StronglySorted (fun a b => Full.py_lt (fst b) (fst a) = Ok true)
           (p :: firstn m t).
Proof.
  induction 1 as [|y t Hy Ht IH]; intros p Hp; simpl.
  - exists O. split; [reflexivity | repeat constructor].
  - destruct (full_py_lt_total c (fst y) (fst p) Hy Hp) as [[|] E];
      rewrite E; simpl.
    + destruct (IH y Hy) as (m & -> & S). simpl.
      exists (Datatypes.S m). split; [reflexivity|]. simpl.
      constructor; [exact S|].
      inversion S as [|y' t' S' Hall]; subst.
      constructor; [exact E|].
      rewrite Forall_forall in *. intros z Hz.
      apply (full_py_lt_trans c (fst z) (fst y) (fst p)); try assumption.
      * apply Ht. exact (In_firstn_In m _ _ Hz).
      * apply Hall. exact Hz.
    + exists O. split; [reflexivity | repeat constructor].
Qed.

(** A run that descends at every step holds no two equal keys: reversed,
    it is sorted and no entries of equal keys have changed places. *)
Lemma full_rev_descending (c : bool) (l : list (Full.json * Full.json)) :
  Forall (fun p => Full.key_class c (fst p)) l ->
  StronglySorted (fun a b => Full.py_lt (fst b) (fst a) = Ok true) l ->
  StronglySorted Full.le_key (rev l)
  /\ (forall k, filter (fun p => Full.py_eq (fst p) k) (rev l)
                = filter (fun p => Full.py_eq (fst p) k) l).
Proof.
  intros Hc Hs. induction Hs as [|x t Hs IH Hall].
  - split; [constructor | reflexivity].
  - inversion Hc as [|x' t' Hx Ht]; subst.
    destruct (IH Ht) as [S K]. simpl. split.
    + apply StronglySorted_insert.
      * rewrite app_nil_r. exact S.
      * rewrite Forall_forall in *. intros e He. apply in_rev in He.
        unfold Full.le_key.
        apply (full_py_lt_asym c (fst e) (fst x)); [apply Ht; exact He | exact Hx |].
        apply Hall. exact He.
      * constructor.
    + intros k. rewrite filter_app, (K k). simpl.
      destruct (Full.py_eq (fst x) k) eqn:Ex; [|apply app_nil_r].
      assert (N : filter (fun p => Full.py_eq (fst p) k) t = []).
      { clear IH S K Hs Hc. rewrite Forall_forall in Hall, Ht.
        induction t as [|e t IH]; [reflexivity|]. simpl.
        destruct (Full.py_eq (fst e) k) eqn:Ee.
        - exfalso.
          apply (full_py_eq_not_lt c k (fst x) (fst e) Hx
                   (Ht e (or_introl eq_refl)) Ex Ee).
          apply Hall. left. reflexivity.
        - apply IH; intros z Hz; [apply Hall | apply Ht]; right; exact Hz. }
      rewrite N. reflexivity.
Qed.

Lemma full_count_run_spec (c : bool) (l : list (Full.json * Full.json)) :
  Forall (fun p => Full.key_class c (fst p)) l ->
  exists n descending,
    Full.count_run l = Ok (n, descending)
    /\ if descending
       then StronglySorted (fun a b => Full.py_lt (fst b) (fst a) = Ok true)
              (firstn n l)
       else StronglySorted Full.le_key (firstn n l).
Proof.
  intros Hc. destruct l as [|x [|y t]].
  - exists O, false. split; [reflexivity | constructor].
  - exists 1%nat, false. split; [reflexivity | repeat constructor].
  - inversion Hc as [|x' t' Hx Hc']; subst.
    inversion Hc' as [|y' t'' Hy Ht]; subst.
    unfold Full.count_run.
    destruct (full_py_lt_total c (fst y) (fst x) Hy Hx) as [[|] E];
      rewrite E; cbn [bind].
    + destruct (full_run_descending_spec c t Ht y Hy) as (m & -> & S).
      cbn [bind]. exists (Datatypes.S (Datatypes.S m)), true.
      split; [reflexivity|]. cbn [firstn].
      constructor; [exact S|].
      inversion S as [|y' t' S' Hall]; subst.
      constructor; [exact E|].
      rewrite Forall_forall in *. intros z Hz.
      apply (full_py_lt_trans c (fst z) (fst y) (fst x)); try assumption.
      * apply Ht. exact (In_firstn_In m _ _ Hz).
      * apply Hall. exact Hz.
    + destruct (full_run_ascending_spec c t Ht y Hy) as (m & -> & S).
      cbn [bind]. exists (Datatypes.S (Datatypes.S m)), false.
      split; [reflexivity|]. cbn [firstn].
      constructor; [exact S|].
      inversion S as [|y' t' S' Hall]; subst.
      constructor; [exact E|].
      rewrite Forall_forall in *. intros z Hz. unfold Full.le_key in *.
      apply (full_py_ge_trans c (fst x) (fst y) (fst z)); try assumption.
      * apply Ht. exact (In_firstn_In m _ _ Hz).
      * apply Hall. exact Hz.
Qed.

Lemma full_sort_short_spec (c : bool) (l : list (Full.json * Full.json)) :
  Forall (fun p => Full.key_class c (fst p)) l ->
  exists r,
    Full.sort_short l = Ok r
    /\ Permutation l r
    /\ (forall k, filter (fun p => Full.py_eq (fst p) k) r
                  = filter (fun p => Full.py_eq (fst p) k) l)
    /\ StronglySorted Full.le_key r.
Proof.
  intros Hc. unfold Full.sort_short.
  destruct (Nat.ltb_spec (List.length l) 2) as [Short|_].
  - exists l. split; [reflexivity|]. split; [apply Permutation_refl|].
    split; [reflexivity|].
    destruct l as [|x [|y t]]; [constructor | repeat constructor | simpl in Short; lia].
  - destruct (full_count_run_spec c l Hc) as (n & descending & -> & R).
    cbn [bind]. cbv zeta.
    assert (Hh : Forall (fun p => Full.key_class c (fst p)) (firstn n l)
                 /\ Forall (fun p => Full.key_class c (fst p)) (skipn n l)).
    { apply Forall_app. rewrite firstn_skipn. exact Hc. }
    destruct Hh as [Hh Ht].
    assert (Head : exists head,
               head = (if descending then rev (firstn n l) else firstn n l)
               /\ Forall (fun p => Full.key_class c (fst p)) head
               /\ StronglySorted Full.le_key head
               /\ Permutation (firstn n l) head
               /\ forall k, filter (fun p => Full.py_eq (fst p) k) head
                            = filter (fun p => Full.py_eq (fst p) k) (firstn n l)).
    { eexists. split; [reflexivity|]. destruct descending.
      - destruct (full_rev_descending c _ Hh R) as [S K].
        split; [eapply Permutation_Forall; [apply Permutation_rev | exact Hh]|].
        split; [exact S|]. split; [apply Permutation_rev | exact K].
      - split; [exact Hh|]. split; [exact R|].
        split; [apply Permutation_refl | reflexivity]. }
    destruct Head as (head & <- & Hh' & S & P & K).
    destruct (full_binarysort_spec c (skipn n l) head Hh' Ht S)
      as (r & -> & S' & P' & K').
    exists r. split; [reflexivity|]. split; [|split; [|exact S']].
    + eapply perm_trans; [|exact P'].
      rewrite <- (firstn_skipn n l) at 1. apply Permutation_app_tail. exact P.
    + intros k. rewrite (K' k), filter_app, (K k), <- filter_app, firstn_skipn.
      reflexivity.
Qed.

Lemma full_orderable (c : bool) (l : list (Full.json * Full.json)) :
  Forall (fun p => Full.key_class c (fst p)) l ->
  Full.orderable (map fst l) = true.
Proof.
  intros H. unfold Full.orderable. apply orb_true_iff.
  destruct c; [left | right]; apply forallb_forall; intros v Hv;
    apply in_map_iff in Hv; destruct Hv as (p & <- & Hp);
    rewrite Forall_forall in H; exact (H p Hp).
Qed.

Lemma full_list_sort_spec (c : bool) (l : list (Full.json * Full.json)) :
  Forall (fun p => Full.key_class c (fst p)) l ->
  exists r,
    Full.list_sort l = Ok r
    /\ Permutation l r
    /\ (forall k, filter (fun p => Full.py_eq (fst p) k) r
                  = filter (fun p => Full.py_eq (fst p) k) l)
    /\ StronglySorted Full.le_key r.
Proof.
  intros H. unfold Full.list_sort.
  destruct (List.length l <? 64)%nat.
  - apply (full_sort_short_spec c). exact H.
  - rewrite (full_orderable c l H). apply (full_sort_keyed_spec c). exact H.
Qed.

(** *** [sorted] and [sort_items] *)

Lemma full_mapM_total (key : Full.json -> res Full.json) (items : list Full.json) :
  (forall x, In x items -> exists v, key x = Ok v) ->
  exists keys, mapM key items = Ok keys.
Proof.
  induction items as [|x t IH]; simpl; intros H.
  - eexists. reflexivity.
  - destruct (H x (or_introl eq_refl)) as [v ->]. simpl.
    destruct IH as [keys ->]; [intros y Hy; apply H; right; exact Hy|].
    simpl. eexists. reflexivity.
Qed.

Lemma full_mapM_In (key : Full.json -> res Full.json) (items keys : list Full.json) :
  mapM key items = Ok keys ->
  forall x, In x items -> exists v, key x = Ok v.
Proof.
  revert keys. induction items as [|y t IH]; simpl; intros keys H x Hx.
  - destruct Hx.
  - bind_inv H. bind_inv H. destruct Hx as [<-|Hx].
    + exists a. exact Ha.
    + eapply IH; eassumption.
Qed.

Lemma full_mapM_combine (key : Full.json -> res Full.json)
  (items keys : list Full.json) :
  mapM key items = Ok keys ->
  map snd (combine keys items) = items
  /\ Forall (Full.keyed_by key) (combine keys items).
Proof.
  revert keys. induction items as [|x t IH]; simpl; intros keys H.
  - inversion H; subst. split; constructor.
  - bind_inv H. bind_inv H. inversion H; subst; clear H.
    destruct (IH _ Ha0) as [E F]. simpl. split.
    + rewrite E. reflexivity.
    + constructor; [exact Ha | exact F].
Qed.

Lemma full_filter_keyed (key : Full.json -> res Full.json) (k : Full.json)
  (l : list (Full.json * Full.json)) :
  Forall (Full.keyed_by key) l ->
  filter (Full.has_key key k) (map snd l)
  = map snd (filter (fun p => Full.py_eq (fst p) k) l).
Proof.
  induction 1 as [|p t Hp Ht IH]; simpl; [reflexivity|].
  unfold Full.has_key at 1. rewrite Hp.
  destruct (Full.py_eq (fst p) k); simpl; rewrite IH; reflexivity.
Qed.

Lemma full_sorted_keyed (key : Full.json -> res Full.json) (l : list (Full.json * Full.json)) :
  Forall (Full.keyed_by key) l -> StronglySorted Full.le_key l ->
  Full.non_decreasing key (map snd l).
Proof.
  unfold Full.non_decreasing.
  induction 2 as [|p t Hs IH Hall]; simpl; [constructor|].
  inversion H as [|p' t' Hp Ht]; subst.
  constructor; [apply IH; exact Ht|].
  rewrite Forall_forall in *. intros b Hb.
  apply in_map_iff in Hb. destruct Hb as [q [<- Hq]].
  exists (fst p), (fst q). split; [exact Hp|]. split; [apply Ht; exact Hq|].
  apply Hall. exact Hq.
Qed.

Lemma full_keyed_class (key : Full.json -> res Full.json)
  (items : list Full.json) (l : list (Full.json * Full.json)) :
  Full.ordered_keys key items ->
  Forall (Full.keyed_by key) l -> map snd l = items ->
  exists c, Forall (fun p => Full.key_class c (fst p)) l.
Proof.
  intros [H|H] F E; [exists true | exists false];
    rewrite Forall_forall in *; intros p Hp;
    assert (Hin : In (snd p) items) by (rewrite <- E; apply in_map; exact Hp);
    specialize (F p Hp); unfold Full.keyed_by in F; simpl.
  - destruct (H _ Hin) as [s Hs]. rewrite F in Hs. injection Hs as Hs.
    rewrite Hs. reflexivity.
  - destruct (H _ Hin) as (v & Hv & N). rewrite F in Hv. injection Hv as Hv.
    rewrite Hv. exact N.
Qed.

Lemma full_sorted_spec (items : list Full.json) (key : Full.json -> res Full.json)
  (reverse : bool) :
  Full.ordered_keys key items ->
  exists out,
    Full.sorted items key reverse = Ok out
    /\ Permutation items out
    /\ (forall k, filter (Full.has_key key k) out
                  = filter (Full.has_key key k) items)
    /\ Full.non_decreasing key (if reverse then rev out else out).
Proof.
  intros Ho. unfold Full.sorted.
  assert (Hall : forall x, In x items -> exists v, key x = Ok v).
  { destruct Ho as [H|H]; intros x Hx.
    - destruct (H x Hx) as [s Hs]. eexists. exact Hs.
    - destruct (H x Hx) as (v & Hv & _). eexists. exact Hv. }
  destruct (full_mapM_total key items Hall) as [keys Hk]. rewrite Hk. simpl.
  destruct (full_mapM_combine _ _ _ Hk) as [E F].
  destruct (full_keyed_class key items _ Ho F E) as [c C].
  destruct reverse.
  - assert (Cr : Forall (fun p => Full.key_class c (fst p)) (rev (combine keys items)))
      by (eapply Permutation_Forall; [apply Permutation_rev | exact C]).
    destruct (full_list_sort_spec c _ Cr) as (r & -> & P & S & O). simpl.
    assert (Fa : Forall (Full.keyed_by key) r).
    { eapply Permutation_Forall; [exact P|].
      eapply Permutation_Forall; [apply Permutation_rev | exact F]. }
    eexists. split; [reflexivity|]. split; [|split].
    + rewrite <- E at 1. apply Permutation_map.
      eapply perm_trans; [apply Permutation_rev|].
      eapply perm_trans; [exact P|]. apply Permutation_rev.
    + intros k. rewrite map_rev, filter_rev.
      rewrite (full_filter_keyed key k r Fa).
      rewrite (S k).
      rewrite filter_rev, map_rev, rev_involutive.
      rewrite <- (full_filter_keyed key k _ F). rewrite E. reflexivity.
    + rewrite map_rev, rev_involutive.
      apply full_sorted_keyed; assumption.
  - destruct (full_list_sort_spec c _ C) as (r & -> & P & S & O). simpl.
    assert (Fa : Forall (Full.keyed_by key) r)
      by (eapply Permutation_Forall; [exact P | exact F]).
    eexists. split; [reflexivity|]. split; [|split].
    + rewrite <- E at 1. apply Permutation_map. exact P.
    + intros k. rewrite (full_filter_keyed key k r Fa).
      rewrite (S k).
      rewrite <- (full_filter_keyed key k _ F). rewrite E. reflexivity.
    + apply full_sorted_keyed; assumption.
Qed.

Lemma full_sort_key_recognised (sort_by : string) :
  In sort_by SORT_FIELDS <-> Full.sort_key sort_by <> None.
Proof.
  unfold Full.sort_key, SORT_FIELDS. simpl.
  repeat match goal with
         | |- context [String.eqb sort_by ?s] =>
             destruct (String.eqb_spec sort_by s) as [->|?]
         end;
    split; intros H; try discriminate; try congruence; auto 10;
    try (exfalso; intuition congruence).
Qed.

(** The keys of the name, workspace and owner fields are strs. *)
Lemma full_text_field_keys (sort_by : string) (key : Full.json -> res Full.json)
  (x v : Full.json) :
  sort_by = "name" \/ sort_by = "workspace" \/ sort_by = "owner" ->
  Full.sort_key sort_by = Some key ->
  key x = Ok v -> exists s, v = Full.JStr s.
Proof.
  intros [->|[->| ->]] K; inversion K; subst key; clear K;
    unfold Full.key_name, Full.key_workspace, Full.key_owner; intros H;
    repeat bind_inv H; inversion H; subst; eexists; reflexivity.
Qed.

(** *** The two ways of sorting agree on the keys of one class *)

Lemma float_eq_refl (f : Full.float) : f <> Full.NaN -> Full.float_eq f f = true.
Proof.
  destruct f as [|s|q]; simpl; intros H.
  - congruence.
  - apply Bool.eqb_reflx.
  - apply Qeq_bool_iff. apply Qeq_refl.
Qed.

Lemma float_eq_sym (x y : Full.float) : Full.float_eq x y = Full.float_eq y x.
Proof.
  destruct x as [|s|p], y as [|t|q]; simpl; try reflexivity.
  - destruct s, t; reflexivity.
  - destruct (Qeq_bool p q) eqn:E1, (Qeq_bool q p) eqn:E2; try reflexivity.
    + apply Qeq_bool_iff, Qeq_sym, Qeq_bool_iff in E1. congruence.
    + apply Qeq_bool_iff, Qeq_sym, Qeq_bool_iff in E2. congruence.
Qed.

Lemma float_not_lt_eq (x y : Full.float) :
  x <> Full.NaN -> y <> Full.NaN ->
  Full.float_lt x y = false -> Full.float_lt y x = false ->
  Full.float_eq x y = true.
Proof.
  destruct x as [|[|]|p], y as [|[|]|q]; simpl; try congruence; try reflexivity.
  intros _ _ H1 H2. apply negb_false_iff in H1, H2.
  apply Qle_bool_iff in H1, H2. apply Qeq_bool_iff. apply Qle_antisym; assumption.
Qed.

Lemma full_py_eq_refl (c : bool) (u : Full.json) :
  Full.key_class c u -> Full.py_eq u u = true.
Proof.
  destruct c; simpl; intros H.
  - destruct (full_text_inv _ H) as [s ->]. simpl. apply String.eqb_refl.
  - destruct (full_ordered_number_inv _ H) as (f & Hf & N).
    rewrite (full_py_eq_numbers _ _ _ _ Hf Hf). apply float_eq_refl. exact N.
Qed.

Lemma full_py_eq_sym (c : bool) (u v : Full.json) :
  Full.key_class c u -> Full.key_class c v ->
  Full.py_eq u v = Full.py_eq v u.
Proof.
  destruct c; simpl; intros Hu Hv.
  - destruct (full_text_inv _ Hu) as [s ->], (full_text_inv _ Hv) as [t ->].
    simpl. apply String.eqb_sym.
  - destruct (full_ordered_number_inv _ Hu) as (x & Hx & _),
      (full_ordered_number_inv _ Hv) as (y & Hy & _).
    rewrite (full_py_eq_numbers _ _ _ _ Hx Hy), (full_py_eq_numbers _ _ _ _ Hy Hx).
    apply float_eq_sym.
Qed.

Lemma full_not_lt_eq (c : bool) (u v : Full.json) :
  Full.key_class c u -> Full.key_class c v ->
  Full.py_lt u v = Ok false -> Full.py_lt v u = Ok false ->
  Full.py_eq u v = true.
Proof.
  destruct c; simpl; intros Hu Hv.
  - destruct (full_text_inv _ Hu) as [s ->], (full_text_inv _ Hv) as [t ->].
    simpl. intros H1 H2. injection H1 as H1. injection H2 as H2.
    rewrite (string_ltb_false_both s t H1 H2). apply String.eqb_refl.
  - destruct (full_ordered_number_inv _ Hu) as (x & Hx & Nx),
      (full_ordered_number_inv _ Hv) as (y & Hy & Ny).
    rewrite (full_py_lt_numbers _ _ _ _ Hx Hy), (full_py_lt_numbers _ _ _ _ Hy Hx),
      (full_py_eq_numbers _ _ _ _ Hx Hy).
    intros H1 H2. injection H1 as H1. injection H2 as H2.
    apply float_not_lt_eq; assumption.
Qed.

(** A list has one arrangement that is sorted and keeps the entries of
    equal keys in their order. *)
Lemma full_sorted_unique (c : bool) (r r' : list (Full.json * Full.json)) :
  Forall (fun p => Full.key_class c (fst p)) r ->
  Forall (fun p => Full.key_class c (fst p)) r' ->
  StronglySorted Full.le_key r -> StronglySorted Full.le_key r' ->
  List.length r = List.length r' ->
  (forall k, filter (fun p => Full.py_eq (fst p) k) r
             = filter (fun p => Full.py_eq (fst p) k) r') ->
  r = r'.
Proof.
  revert r'. induction r as [|x t IH]; intros [|y t'] Hc Hc' Hs Hs' Hl Hk;
    simpl in Hl; try discriminate Hl; [reflexivity|].
  inversion Hc as [|x0 t0 Hx Ht]; subst.
  inversion Hc' as [|y0 t0 Hy Ht']; subst.
  inversion Hs as [|x0 t0 Hst Hall]; subst.
  inversion Hs' as [|y0 t0 Hst' Hall']; subst.
  assert (E : x = y).
  { pose proof (Hk (fst x)) as K1. simpl in K1.
    rewrite (full_py_eq_refl c _ Hx) in K1.
    destruct (Full.py_eq (fst y) (fst x)) eqn:Eyx; [congruence|].
    exfalso.
    assert (In1 : In x t').
    { apply (filter_In (fun p => Full.py_eq (fst p) (fst x)) x t').
      rewrite <- K1. left. reflexivity. }
    pose proof (Hk (fst y)) as K2. simpl in K2.
    rewrite (full_py_eq_refl c _ Hy) in K2.
    rewrite (full_py_eq_sym c _ _ Hx Hy), Eyx in K2.
    assert (In2 : In y t).
    { apply (filter_In (fun p => Full.py_eq (fst p) (fst y)) y t).
      rewrite K2. left. reflexivity. }
    rewrite Forall_forall in Hall, Hall'.
    pose proof (Hall _ In2) as L1. pose proof (Hall' _ In1) as L2.
    unfold Full.le_key in L1, L2.
    pose proof (full_not_lt_eq c _ _ Hy Hx L1 L2). congruence. }
  subst y. f_equal. apply IH; try assumption; [congruence|].
  intros k. specialize (Hk k). simpl in Hk.
  destruct (Full.py_eq (fst x) k); congruence.
Qed.

(** On the keys of one class the steps of [list.sort] and the insertion
    sort return the same list. *)
Lemma full_sort_short_agrees (c : bool) (l : list (Full.json * Full.json)) :
  Forall (fun p => Full.key_class c (fst p)) l ->
  Full.sort_short l = Full.sort_keyed l.
Proof.
  intros Hc.
  destruct (full_sort_short_spec c l Hc) as (r & -> & P & K & S).
  destruct (full_sort_keyed_spec c l Hc) as (r' & -> & P' & K' & S').
  f_equal. apply (full_sorted_unique c).
  - eapply Permutation_Forall; eassumption.
  - eapply Permutation_Forall; eassumption.
  - exact S.
  - exact S'.
  - rewrite <- (Permutation_length P). apply Permutation_length. exact P'.
  - intros k. rewrite (K k), (K' k). reflexivity.
Qed.

Lemma full_list_sort_ordered (c : bool) (l : list (Full.json * Full.json)) :
  Forall (fun p => Full.key_class c (fst p)) l ->
  Full.list_sort l = Full.sort_keyed l.
Proof.
  intros Hc. unfold Full.list_sort.
  destruct (List.length l <? 64)%nat.
  - apply (full_sort_short_agrees c). exact Hc.
  - rewrite (full_orderable c l Hc). reflexivity.
Qed.

(** *** The sorter of the values without floats inside the full sorter *)

Lemma lookup_widen (k : string) (d : list (string * json)) :
  Full.lookup k (map (fun kv => (fst kv, widen (snd kv))) d)
  = option_map widen (lookup k d).
Proof.
  induction d as [|[k' v] t IH]; simpl; [reflexivity|].
  destruct (String.eqb k k'); [reflexivity | exact IH].
Qed.

Lemma truthy_widen (v : json) : Full.truthy (widen v) = truthy v.
Proof. destruct v as [| | | |[|]|[|]]; reflexivity. Qed.

Lemma py_get_widen (o : json) (k : string) (default : json) :
  Full.py_get (widen o) k (widen default) = widen_res (py_get o k default).
Proof.
  destruct o; try reflexivity. simpl. rewrite lookup_widen.
  destruct (lookup k d); reflexivity.
Qed.

Ltac rewrite_py_get o k d :=
  let E := fresh "E" in
  pose proof (py_get_widen o k d) as E; cbn [widen map] in E;
  rewrite E; clear E.

Lemma py_lower_widen (v : json) : Full.py_lower (widen v) = py_lower v.
Proof. destruct v; reflexivity. Qed.

Lemma bind_widen (m : res json) (k : json -> res json)
  (k' : Full.json -> res Full.json) :
  (forall v, k' (widen v) = widen_res (k v)) ->
  bind (widen_res m) k' = widen_res (bind m k).
Proof. intros H. destruct m; simpl; [apply H | reflexivity]. Qed.

Lemma _get_item_refresh_time_widen (item : json) :
  Full._get_item_refresh_time (widen item)
  = widen_res (_get_item_refresh_time item).
Proof.
  unfold Full._get_item_refresh_time, _get_item_refresh_time.
  rewrite_py_get item "lastRefreshTime" JNull.
  apply bind_widen. intros v1. rewrite truthy_widen.
  destruct (truthy v1); [reflexivity|].
  rewrite_py_get item "artifact" (JDict []).
  apply bind_widen. intros artifact.
  rewrite_py_get artifact "LastRefreshTime" JNull.
  apply bind_widen. intros v2. rewrite truthy_widen.
  replace (if truthy v2 then Ok (widen v2)
           else Full.py_get (widen artifact) "lastRefreshTime" Full.JNull)
    with (widen_res (if truthy v2 then Ok v2
                     else py_get artifact "lastRefreshTime" JNull))
    by (destruct (truthy v2);
        [reflexivity
        | symmetry; exact (py_get_widen artifact "lastRefreshTime" JNull)]).
  apply bind_widen. intros v3. rewrite truthy_widen.
  destruct (truthy v3); [reflexivity|].
  rewrite_py_get artifact "lastUpdatedDate" JNull.
  apply bind_widen. intros v4. rewrite truthy_widen.
  destruct (truthy v4); reflexivity.
Qed.

Lemma text_key_widen (field : string) (record : json) :
  bind (Full.py_get (widen record) field (Full.JStr ""))
    (fun v => bind (Full.py_lower v) (fun s => Ok (Full.JStr s)))
  = widen_res (bind (py_get record field (JStr ""))
                 (fun v => bind (py_lower v) (fun s => Ok (JStr s)))).
Proof.
  pose proof (py_get_widen record field (JStr "")) as E. cbn [widen] in E.
  rewrite E. clear E.
  apply bind_widen. intros v. rewrite py_lower_widen.
  destruct (py_lower v); reflexivity.
Qed.

Lemma sort_key_widen (sort_by : string) (key : json -> res json) :
  sort_key sort_by = Some key ->
  exists key',
    Full.sort_key sort_by = Some key'
    /\ forall x, key' (widen x) = widen_res (key x).
Proof.
  unfold sort_key, Full.sort_key.
  repeat match goal with
         | |- context [String.eqb sort_by ?s] => destruct (String.eqb sort_by s)
         end; intros H; inversion H; subst key; clear H;
    eexists; (split; [reflexivity|]); intros x.
  - apply text_key_widen.
  - apply text_key_widen.
  - exact (py_get_widen x "lastVisitedTimeUTC" (JStr "")).
  - unfold Full.key_last_refreshed, key_last_refreshed.
    rewrite _get_item_refresh_time_widen. apply bind_widen.
    intros v. rewrite truthy_widen. destruct (truthy v); reflexivity.
  - exact (py_get_widen x "modifiedDate" (JStr "")).
  - unfold Full.key_owner, key_owner.
    rewrite_py_get x "ownerUser" (JDict []).
    apply bind_widen. intros owner. apply text_key_widen.
Qed.

Lemma mapM_widen (key : json -> res json) (key' : Full.json -> res Full.json)
  (items keys : list json) :
  (forall x, key' (widen x) = widen_res (key x)) ->
  mapM key items = Ok keys ->
  mapM key' (map widen items) = Ok (map widen keys).
Proof.
  intros H. revert keys. induction items as [|x t IH]; simpl; intros keys E.
  - inversion E. reflexivity.
  - bind_inv E. bind_inv E. inversion E; subst; clear E.
    rewrite H, Ha. simpl. rewrite (IH _ Ha0). reflexivity.
Qed.

Lemma combine_widen (keys items : list json) :
  combine (map widen keys) (map widen items)
  = map widen_entry (combine keys items).
Proof.
  revert items. induction keys as [|k t IH]; intros [|x items]; simpl;
    try reflexivity.
  rewrite IH. reflexivity.
Qed.

Lemma number_widen (a : json) (m : Z) :
  as_int a = Some m ->
  Full.number (widen a) = Some (Full.Finite (inject_Z m)).
Proof.
  destruct a; simpl; intros H; try discriminate H; inversion H; reflexivity.
Qed.

Lemma py_lt_widen (a b : json) (r : bool) :
  py_lt a b = Ok r -> Full.py_lt (widen a) (widen b) = Ok r.
Proof.
  intros H. destruct (py_lt_Ok_inv _ _ _ H) as
    [(s & t & -> & -> & ->)|(m & n & Ha & Hb & ->)]; [reflexivity|].
  rewrite (full_py_lt_numbers _ _ _ _ (number_widen _ _ Ha) (number_widen _ _ Hb)).
  f_equal. simpl. unfold Qle_bool. simpl. rewrite !Z.mul_1_r.
  symmetry. apply Z.ltb_antisym.
Qed.

Lemma insert_key_widen (x : json * json) (l r : list (json * json)) :
  insert_key x l = Ok r ->
  Full.insert_key (widen_entry x) (map widen_entry l) = Ok (map widen_entry r).
Proof.
  revert r. induction l as [|y t IH]; simpl; intros r H.
  - inversion H. reflexivity.
  - bind_inv H. rewrite (py_lt_widen _ _ _ Ha). simpl. destruct a.
    + bind_inv H. inversion H; subst; clear H.
      rewrite (IH _ Ha0). reflexivity.
    + inversion H. reflexivity.
Qed.

Lemma sort_keyed_widen (l r : list (json * json)) :
  sort_keyed l = Ok r ->
  Full.sort_keyed (map widen_entry l) = Ok (map widen_entry r).
Proof.
  revert r. induction l as [|x t IH]; simpl; intros r H.
  - inversion H. reflexivity.
  - bind_inv H. rewrite (IH _ Ha). simpl. apply insert_key_widen. exact H.
Qed.

(** Two keys or more that the sorter has ordered are all strs or all
    integers. *)
Lemma sort_keyed_class (l r : list (json * json)) :
  sort_keyed l = Ok r -> (2 <= List.length l)%nat ->
  exists c, Forall (fun p => Full.key_class c (fst p)) (map widen_entry l).
Proof.
  intros H Hl.
  pose proof (sort_keyed_Permutation _ _ H) as P.
  pose proof (sort_keyed_sorted _ _ H) as S.
  assert (C : exists c, Forall (fun p => Full.key_class c (widen (fst p))) r).
  { rewrite (Permutation_length P) in Hl.
    destruct r as [|p [|q t]]; simpl in Hl; try lia.
    inversion S as [|p' t' _ Hall]; subst.
    inversion Hall as [|q' t' Hq _]; subst. unfold le_key in Hq.
    destruct (py_lt_Ok_inv _ _ _ Hq) as
      [(s & s' & Eq & Ep & _)|(m & n & Eq & Ep & _)].
    - exists true. constructor; [rewrite Ep; reflexivity|].
      rewrite Forall_forall in *. intros e He. specialize (Hall e He).
      unfold le_key in Hall.
      destruct (py_lt_Ok_inv _ _ _ Hall) as
        [(u & u' & Ee & _ & _)|(m & n & _ & Ep' & _)].
      + rewrite Ee. reflexivity.
      + rewrite Ep in Ep'. discriminate Ep'.
    - exists false.
      assert (N : forall v k, as_int v = Some k ->
                    Full.is_ordered_number (widen v) = true).
      { intros v k Hv. unfold Full.is_ordered_number.
        rewrite (number_widen _ _ Hv). reflexivity. }
      constructor; [apply (N _ _ Ep)|].
      rewrite Forall_forall in *. intros e He. specialize (Hall e He).
      unfold le_key in Hall.
      destruct (py_lt_Ok_inv _ _ _ Hall) as
        [(u & u' & _ & Ep' & _)|(m' & n' & Ee & _ & _)].
      + rewrite Ep' in Ep. discriminate Ep.
      + apply (N _ _ Ee). }
  destruct C as [c C]. exists c.
  apply Forall_map. simpl.
  eapply Permutation_Forall; [apply Permutation_sym; exact P | exact C].
Qed.

Lemma list_sort_widen (l r : list (json * json)) :
  sort_keyed l = Ok r ->
  Full.list_sort (map widen_entry l) = Ok (map widen_entry r).
Proof.
  intros H. destruct (Nat.lt_ge_cases (List.length l) 2) as [Short|Long].
  - destruct l as [|x [|y t]]; simpl in Short; try lia; simpl in H;
      inversion H; reflexivity.
  - destruct (sort_keyed_class _ _ H Long) as [c C].
    rewrite (full_list_sort_ordered c _ C). apply sort_keyed_widen. exact H.
Qed.

Lemma map_snd_widen (r : list (json * json)) :
  map snd (map widen_entry r) = map widen (map snd r).
Proof. rewrite !map_map. reflexivity. Qed.

(** What [sort_items] returns on values without floats is what the full
    sorter returns on them. *)
Lemma sort_items_widen (items : list json) (sort_by sort_order : string)
  (out : list json) :
  sort_items items sort_by sort_order = Ok out ->
  Full.sort_items (map widen items) sort_by sort_order = Ok (map widen out).
Proof.
  unfold sort_items, Full.sort_items.
  destruct (sort_key sort_by) as [key|] eqn:K.
  - destruct (sort_key_widen _ _ K) as (key' & -> & Hk).
    unfold sorted, Full.sorted. intros H. bind_inv H. bind_inv H.
    inversion H; subst; clear H.
    rewrite (mapM_widen key key' _ _ Hk Ha). cbn [bind].
    rewrite combine_widen.
    destruct (negb (String.eqb (lower sort_order) "asc")).
    + bind_inv Ha0. inversion Ha0; subst; clear Ha0.
      rewrite <- map_rev. rewrite (list_sort_widen _ _ Ha1). cbn [bind].
      rewrite <- map_rev, map_snd_widen. reflexivity.
    + rewrite (list_sort_widen _ _ Ha0). cbn [bind].
      rewrite map_snd_widen. reflexivity.
  - intros H. inversion H; subst.
    assert (E : Full.sort_key sort_by = None).
    { destruct (Full.sort_key sort_by) eqn:F; [|reflexivity].
      exfalso. apply (proj1 (sort_key_recognised sort_by));
        [|exact K]. apply full_sort_key_recognised. congruence. }
    rewrite E. reflexivity.
Qed.

(** C7, as amended.  For a recognised sort field, either direction and a
    list whose sort keys are all strs or all numbers other than [NaN],
    [sort_items] returns a rearrangement of the input in which the records
    whose keys are equal stand in their input order, and whose keys never
    decrease (ascending) or never increase (descending).  The keys of the
    name, workspace and owner fields are such on every list that is sorted
    at all.  For any other field name [sort_items] returns the input list
    itself, without error. *)
Theorem sort_items_stable_on_ordered_keys :
  forall items sort_by sort_order,
    (In sort_by SORT_FIELDS ->
     exists key,
       Full.sort_key sort_by = Some key
       /\ (Full.ordered_keys key items ->
           exists out,
             Full.sort_items items sort_by sort_order = Ok out
             /\ Permutation items out
             /\ (forall k, filter (Full.has_key key k) out
                           = filter (Full.has_key key k) items)
             /\ Full.non_decreasing key
                  (if String.eqb (lower sort_order) "asc" then out else rev out))
       /\ (sort_by = "name" \/ sort_by = "workspace" \/ sort_by = "owner" ->
           forall out, Full.sort_items items sort_by sort_order = Ok out ->
             Full.ordered_keys key items))
    /\ (~ In sort_by SORT_FIELDS ->
        Full.sort_items items sort_by sort_order = Ok items).
Proof.
  intros items sort_by sort_order. split.
  - intros Hin. apply full_sort_key_recognised in Hin.
    unfold Full.sort_items.
    destruct (Full.sort_key sort_by) as [key|] eqn:K; [|congruence].
    exists key. split; [reflexivity|]. split.
    + intros Ho.
      destruct (full_sorted_spec items key
                  (negb (String.eqb (lower sort_order) "asc")) Ho)
        as (out & E & P & S & N).
      exists out. split; [exact E|]. split; [exact P|]. split; [exact S|].
      destruct (String.eqb (lower sort_order) "asc"); exact N.
    + intros Hf out H. left. intros x Hx.
      unfold Full.sorted in H. bind_inv H.
      destruct (full_mapM_In _ _ _ Ha x Hx) as [v Hv].
      destruct (full_text_field_keys _ _ _ _ Hf K Hv) as [s ->].
      exists s. exact Hv.
  - intros Hnot. unfold Full.sort_items.
    destruct (Full.sort_key sort_by) as [key|] eqn:E; [|reflexivity].
    exfalso. apply Hnot. apply full_sort_key_recognised. congruence.
Qed.

(** C7, as stated, fails.  Seven records whose modification values are
    [NaN, NaN, 2, 1, NaN, 1, 1] are sorted, in ascending order, into the
    arrangement 0, 1, 3, 6, 2, 4, 5: the records 5 and 6 have equal keys
    and change places. *)
Lemma sort_items_unstable_on_nan_keys :
  In "last-modified" SORT_FIELDS
  /\ Full.sort_items Full.nan_items "last-modified" "asc" = Ok Full.nan_sorted
  /\ filter (Full.has_key Full.key_last_modified (Full.JInt 1)) Full.nan_items
     = [Full.modified 3 (Full.JInt 1); Full.modified 5 (Full.JInt 1);
        Full.modified 6 (Full.JInt 1)]
  /\ filter (Full.has_key Full.key_last_modified (Full.JInt 1)) Full.nan_sorted
     = [Full.modified 3 (Full.JInt 1); Full.modified 6 (Full.JInt 1);
        Full.modified 5 (Full.JInt 1)]
  /\ ~ (forall items sort_by sort_order out,
          In sort_by SORT_FIELDS ->
          Full.sort_items items sort_by sort_order = Ok out ->
          exists key,
            Full.sort_key sort_by = Some key
            /\ forall k, filter (Full.has_key key k) out
                         = filter (Full.has_key key k) items).
Proof.
  assert (Hin : In "last-modified" SORT_FIELDS)
    by (unfold SORT_FIELDS; simpl; auto 10).
  split; [exact Hin|]. split; [vm_compute; reflexivity|].
  split; [vm_compute; reflexivity|]. split; [vm_compute; reflexivity|].
  intros H.
  destruct (H Full.nan_items "last-modified" "asc" Full.nan_sorted Hin)
    as (key & K & S); [vm_compute; reflexivity|].
  injection K as <-. specialize (S (Full.JInt 1)).
  vm_compute in S. discriminate S.
Qed.

(** ** Predicate engine: storage mode *)

Lemma bind_ret {A : Type} (m : res A) : bind m (fun x => Ok x) = m.
Proof. destruct m; reflexivity. Qed.

(** The predicate of the code against the rule of the specification: on
    a record whose artifact can be read they agree, and on every other
    record the predicate raises. *)
Lemma matches_storage_rule (mode : string) (item : json) :
  match artifact_of item with
  | Some _ => matches_storage mode item = Ok (storage_rule mode item)
  | None => matches_storage mode item = Raise AttributeError
  end.
Proof.
  unfold storage_rule, artifact_of, matches_storage.
  destruct item as [| | | | |fields]; try reflexivity. simpl.
  destruct (lookup "artifact" fields) as [[| | | | |artifact]|];
    try reflexivity; simpl; unfold storage_code_is, direct_lake_flag;
    destruct (String.eqb mode "import"); destruct (String.eqb mode "directquery");
    destruct (String.eqb mode "directlake"); simpl;
    try reflexivity;
    repeat match goal with
           | |- context [lookup ?k ?a] =>
               destruct (lookup k a) as [[| [] | [|[| |]|] | | |]|]; simpl
           end;
    try reflexivity;
    repeat match goal with
           | |- context [if ?c then _ else _] => destruct c
           end; reflexivity.
Qed.

Lemma storage_code_is_inv (n : Z) (artifact : list (string * json)) :
  storage_code_is n artifact = true ->
  lookup "storageMode" artifact = Some (JInt n)
  \/ (exists b, lookup "storageMode" artifact = Some (JBool b)
                /\ n = if b then 1 else 0).
Proof.
  unfold storage_code_is.
  destruct (lookup "storageMode" artifact) as [[| b | m | | |]|];
    try discriminate; intros H; apply Z.eqb_eq in H; subst.
  - right. exists b. split; reflexivity.
  - left. reflexivity.
Qed.

(** C5. The storage-mode predicate holds exactly for mode [import] with
    storage code 1, mode [directquery] with storage code 2, and mode
    [directlake] with the direct-lake flag set, the code and the flag
    being those of the record's artifact; no other mode matches any item;
    the documented examples evaluate as stated; and the filter stage of
    [apply_filters] keeps, in their order, the records that satisfy the
    rule at the lower-cased mode. *)
Theorem storage_mode_filter :
  forall mode_lower item,
    (matches_storage mode_lower item = Ok true <->
     exists artifact,
       artifact_of item = Some artifact
       /\ ((mode_lower = "import"
            /\ (lookup "storageMode" artifact = Some (JInt 1)
                \/ lookup "storageMode" artifact = Some (JBool true)))
           \/ (mode_lower = "directquery"
               /\ lookup "storageMode" artifact = Some (JInt 2))
           \/ (mode_lower = "directlake"
               /\ exists flag, lookup "directLakeMode" artifact = Some flag
                               /\ truthy flag = true)))
    /\ (matches_storage mode_lower item = Ok true <->
        storage_rule mode_lower item = true)
    /\ (mode_lower <> "import" -> mode_lower <> "directquery" ->
        mode_lower <> "directlake" ->
        matches_storage mode_lower item <> Ok true)
    /\ matches_storage "directlake"
         (with_artifact [("directLakeMode", JBool true); ("storageMode", JInt 2)])
       = Ok true
    /\ matches_storage "directlake" (with_artifact [("storageMode", JInt 1)])
       = Ok false
    /\ matches_storage "directlake"
         (with_artifact [("directLakeMode", JBool false); ("storageMode", JInt 1)])
       = Ok false
    /\ matches_storage "import" (with_artifact [("storageMode", JInt 1)]) = Ok true
    /\ matches_storage "import" (with_artifact [("storageMode", JInt 2)]) = Ok false
    /\ matches_storage "import" (with_artifact [("directLakeMode", JBool true)])
       = Ok false
    /\ matches_storage "directquery" (with_artifact [("storageMode", JInt 2)])
       = Ok true
    /\ matches_storage "directquery" (with_artifact [("storageMode", JInt 1)])
       = Ok false
    /\ matches_storage "dual"
         (with_artifact [("directLakeMode", JBool true); ("storageMode", JInt 1)])
       = Ok false
    /\ (forall utcoffset items storage_mode,
          (storage_mode = "" ->
           storage_filter utcoffset items storage_mode = Ok items)
          /\ (storage_mode <> "" ->
              (forall out, storage_filter utcoffset items storage_mode = Ok out ->
                 out = filter (storage_rule (lower storage_mode)) items)
              /\ ((forall x, In x items -> artifact_of x <> None) ->
                  storage_filter utcoffset items storage_mode
                  = Ok (filter (storage_rule (lower storage_mode)) items))))
    /\ storage_filter utc storage_samples "Import"
       = Ok [with_artifact [("storageMode", JInt 1)]]
    /\ storage_filter utc storage_samples "DirectQuery"
       = Ok [with_artifact [("storageMode", JInt 2)];
             with_artifact [("directLakeMode", JBool true); ("storageMode", JInt 2)]]
    /\ storage_filter utc storage_samples "DIRECTLAKE"
       = Ok [with_artifact [("directLakeMode", JBool true); ("storageMode", JInt 2)]]
    /\ storage_filter utc storage_samples "dual" = Ok [].
Proof.
  intros mode_lower item.
  assert (Rule : matches_storage mode_lower item = Ok true <->
                 storage_rule mode_lower item = true).
  { pose proof (matches_storage_rule mode_lower item) as M.
    unfold storage_rule in *.
    destruct (artifact_of item) as [artifact|]; rewrite M; split; intros H;
      try discriminate H; [injection H as H; exact H | rewrite H; reflexivity]. }
  assert (Iff : storage_rule mode_lower item = true <->
     exists artifact,
       artifact_of item = Some artifact
       /\ ((mode_lower = "import"
            /\ (lookup "storageMode" artifact = Some (JInt 1)
                \/ lookup "storageMode" artifact = Some (JBool true)))
           \/ (mode_lower = "directquery"
               /\ lookup "storageMode" artifact = Some (JInt 2))
           \/ (mode_lower = "directlake"
               /\ exists flag, lookup "directLakeMode" artifact = Some flag
                               /\ truthy flag = true))).
  { unfold storage_rule. split.
    - destruct (artifact_of item) as [artifact|]; [|discriminate].
      intros H. exists artifact. split; [reflexivity|].
      apply orb_true_iff in H. destruct H as [H|H];
        [apply orb_true_iff in H; destruct H as [H|H]|];
        apply andb_true_iff in H; destruct H as [Hm Hc];
        apply String.eqb_eq in Hm.
      + left. split; [exact Hm|].
        destruct (storage_code_is_inv _ _ Hc) as [E|([|] & E & F)];
          [left; exact E | right; exact E | discriminate F].
      + right. left. split; [exact Hm|].
        destruct (storage_code_is_inv _ _ Hc) as [E|([|] & E & F)];
          [exact E | discriminate F | discriminate F].
      + right. right. split; [exact Hm|].
        unfold direct_lake_flag in Hc.
        destruct (lookup "directLakeMode" artifact) as [flag|]; [|discriminate].
        exists flag. split; [reflexivity | exact Hc].
    - intros (artifact & -> & Hc).
      destruct Hc as [[-> [E|E]]|[[-> E]|[-> (flag & E & T)]]];
        unfold storage_code_is, direct_lake_flag; rewrite E; simpl;
        try reflexivity.
      rewrite T. reflexivity. }
  split; [rewrite Rule; exact Iff|]. split; [exact Rule|]. split.
  { intros Ni Nq Nl H. apply Rule, Iff in H.
    destruct H as (artifact & _ & Hc).
    destruct Hc as [[E _]|[[E _]|[E _]]]; congruence. }
  do 9 (split; [reflexivity|]).
  split; [|repeat split; reflexivity].
  intros utcoffset items storage_mode.
  unfold storage_filter, apply_filters, text_stage, date_stage. simpl.
  split.
  - intros ->. reflexivity.
  - intros Hne. destruct (String.eqb_spec storage_mode "") as [E|_];
      [contradiction|]. simpl. rewrite bind_ret.
    assert (Hold : forall x,
               holds (matches_storage (lower storage_mode)) x
               = storage_rule (lower storage_mode) x).
    { intros x. pose proof (matches_storage_rule (lower storage_mode) x) as M.
      unfold holds, storage_rule in *.
      destruct (artifact_of x); rewrite M; [|reflexivity].
      match goal with |- (if ?b then _ else _) = _ => destruct b end;
        reflexivity. }
    split.
    + intros out H. apply filterM_Ok in H. destruct H as [-> _].
      apply filter_ext. exact Hold.
    + intros Hall. rewrite filterM_total.
      * f_equal. apply filter_ext. exact Hold.
      * apply Forall_forall. intros x Hx.
        pose proof (matches_storage_rule (lower storage_mode) x) as M.
        specialize (Hall x Hx).
        destruct (artifact_of x); [eexists; exact M | contradiction].
Qed.

(** ** Formatter *)

(** C9. For the empty list the table, brief and detailed modes (and any
    mode other than [json]) give the text [No items found.], and the
    [json] mode gives the rendering of the empty list, [[]]. *)
Theorem format_output_empty :
  forall utcoffset,
    format_output utcoffset [] "table" = Ok "No items found."
    /\ format_output utcoffset [] "brief" = Ok "No items found."
    /\ format_output utcoffset [] "detailed" = Ok "No items found."
    /\ format_output utcoffset [] "json" = Ok (json_dumps (JList []))
    /\ json_dumps (JList []) = "[]"
    /\ forall output_format,
         output_format <> "json" ->
         format_output utcoffset [] output_format = Ok "No items found.".
Proof.
  intros utcoffset. repeat (split; [reflexivity|]).
  intros output_format H. unfold format_output.
  destruct (String.eqb_spec output_format "json") as [E|_]; [contradiction|].
  reflexivity.
Qed.

(** ** Temporal codec *)

Lemma fromtimestamp_ms_overflow (utcoffset : Z -> Z) (ms : Z) :
  1000 * (2 ^ 63 + 1024) < Z.abs ms ->
  fromtimestamp_ms utcoffset ms = Raise OverflowError.
Proof.
  intros H. unfold fromtimestamp_ms.
  destruct (1000 * DBL_OVERFLOW <=? Z.abs ms); [reflexivity|].
  destruct (Z.ltb_spec (1000 * (2 ^ 63 + 1024)) (Z.abs ms)); [reflexivity | lia].
Qed.

(** C3. The empty string, a null, a string in neither encoding and a
    bracketed value that is not an integer are reported as unparseable;
    a bracketed millisecond value beyond the range of the platform's
    timestamps raises [OverflowError], which the handler for
    [ValueError] and [OSError] lets through. *)
Theorem _parse_odata_date_out_of_range :
  forall utcoffset,
    _parse_odata_date utcoffset (JStr "") = Ok None
    /\ _parse_odata_date utcoffset JNull = Ok None
    /\ _parse_odata_date utcoffset (JStr "/Date(abc)/") = Ok None
    /\ _parse_odata_date utcoffset (JStr "yesterday") = Ok None
    /\ _parse_odata_date utcoffset
         (JStr "/Date(10000000000000000000000000000)/") = Raise OverflowError.
Proof.
  intros utcoffset. repeat (split; [reflexivity|]).
  unfold _parse_odata_date.
  change (negb (truthy (JStr "/Date(10000000000000000000000000000)/")))
    with false.
  change (startswith "/Date(10000000000000000000000000000)/" "/Date("
          && endswith "/Date(10000000000000000000000000000)/" ")/")
    with true.
  replace (py_int (slice_mid 6 2 "/Date(10000000000000000000000000000)/"))
    with (@Ok Z 10000000000000000000000000000) by (vm_compute; reflexivity).
  cbv iota beta. unfold bind at 1.
  rewrite fromtimestamp_ms_overflow; [reflexivity|].
  vm_compute. reflexivity.
Qed.

(** ** Predicate engine: visit filters *)

Lemma matches_visited_readable (since_date : datetime) (item : json) :
  visit_readable item ->
  matches_visited true since_date item = Ok (visited_before since_date item).
Proof.
  intros (d & -> & H). unfold matches_visited, visited_before. simpl.
  destruct H as [E|[E|(s & E & H)]]; rewrite E; simpl; try reflexivity.
  destruct H as [->|(day & Hday)]; [reflexivity|].
  rewrite Hday. simpl.
  destruct (String.eqb s ""); reflexivity.
Qed.

(** X23. On a list whose visit dates can all be read, and for a
    well-formed boundary, the not-visited-since filter keeps exactly the
    records whose last visit lies strictly before the boundary; a record
    without a last visit is dropped. *)
Lemma not_visited_filter_readable (utcoffset : Z -> Z) (items : list json)
  (boundary : string) (since_date : datetime) :
  boundary <> "" ->
  strptime_ymd boundary = Ok since_date ->
  Forall visit_readable items ->
  not_visited_filter utcoffset items boundary
  = Ok (filter (visited_before since_date) items).
Proof.
  intros Hne Hb Hall.
  unfold not_visited_filter, apply_filters, text_stage, date_stage. simpl.
  destruct (String.eqb_spec boundary "") as [E|_]; [contradiction|].
  rewrite Hb. simpl.
  rewrite filterM_total.
  - simpl. f_equal. apply filter_ext_in. intros x Hx.
    unfold holds. rewrite matches_visited_readable.
    + destruct (visited_before since_date x); reflexivity.
    + rewrite Forall_forall in Hall. apply Hall. exact Hx.
  - rewrite Forall_forall in *. intros x Hx.
    eexists. apply matches_visited_readable. apply Hall. exact Hx.
Qed.

(** C4. With the boundary 2024-06-01 the filter keeps the record visited
    on 2023-01-01 and drops the one visited on 2024-12-01 and the one never
    visited; but one record whose visit date cannot be parsed makes the
    filter keep every record of the list. *)
Theorem not_visited_since_unparsed_item :
  forall utcoffset,
    not_visited_filter utcoffset
      [visited_on "old" "2023-01-01T08:00:00";
       visited_on "new" "2024-12-01T08:00:00";
       never_visited "none"] "2024-06-01"
    = Ok [visited_on "old" "2023-01-01T08:00:00"]
    /\ not_visited_filter utcoffset
         [visited_on "old" "2023-01-01T08:00:00";
          visited_on "new" "2024-12-01T08:00:00";
          never_visited "none";
          visited_on "odd" "unknown"] "2024-06-01"
       = Ok [visited_on "old" "2023-01-01T08:00:00";
             visited_on "new" "2024-12-01T08:00:00";
             never_visited "none";
             visited_on "odd" "unknown"].
Proof. intros utcoffset. split; reflexivity. Qed.

(** C6. Filtering twice is not always filtering once: a record with an
    unparsed visit date switches the visited-since filter off in the first
    pass; the storage-mode filter then removes that record, and the second
    pass applies the visited-since filter. *)
Theorem apply_filters_twice_differs :
  forall utcoffset,
    visited_and_mode_filter utcoffset
      [visited_with_mode "old" "2020-01-01T08:00:00" 1;
       visited_with_mode "odd" "unknown" 2] "2024-01-01" "import"
    = Ok [visited_with_mode "old" "2020-01-01T08:00:00" 1]
    /\ visited_and_mode_filter utcoffset
         [visited_with_mode "old" "2020-01-01T08:00:00" 1]
         "2024-01-01" "import"
       = Ok [].
Proof. intros utcoffset. split; reflexivity. Qed.

(** ** Predicate engine: filtering twice *)

Lemma strptime_ymd_raises (s : string) (e : exn) :
  strptime_ymd s = Raise e -> e = ValueError.
Proof.
  unfold strptime_ymd, datetime_ymd.
  repeat match goal with
         | |- context [match ?x with _ => _ end] => destruct x
         end; intros H; inversion H; reflexivity.
Qed.

Lemma py_int_raises (s : string) (e : exn) :
  py_int s = Raise e -> e = ValueError.
Proof.
  unfold py_int.
  repeat match goal with
         | |- context [match ?x with _ => _ end] => destruct x
         end; intros H; inversion H; reflexivity.
Qed.

Lemma fromtimestamp_ms_raises (utcoffset : Z -> Z) (ms : Z) (e : exn) :
  fromtimestamp_ms utcoffset ms = Raise e -> e = OverflowError \/ e = ValueError.
Proof.
  unfold fromtimestamp_ms.
  repeat match goal with
         | |- context [if ?x then _ else _] => destruct x
         end; intros H; inversion H; auto.
Qed.

(** Whatever the text, the codec raises nothing but [OverflowError]. *)
Lemma _parse_odata_date_str_raises (utcoffset : Z -> Z) (s : string) (e : exn) :
  _parse_odata_date utcoffset (JStr s) = Raise e -> e = OverflowError.
Proof.
  unfold _parse_odata_date.
  destruct (negb (truthy (JStr s))); [discriminate|].
  destruct (startswith s "/Date(" && endswith s ")/").
  - destruct (py_int (slice_mid 6 2 s)) as [ms|e1] eqn:E1; simpl.
    + destruct (fromtimestamp_ms utcoffset ms) as [dt|e2] eqn:E2; simpl.
      * discriminate.
      * destruct (fromtimestamp_ms_raises _ _ _ E2) as [->| ->]; simpl;
          intros H; inversion H; reflexivity.
    + rewrite (py_int_raises _ _ E1). simpl. discriminate.
  - destruct (strptime_ymd (slice_to 10 s)) as [dt|e1] eqn:E1; simpl.
    + discriminate.
    + rewrite (strptime_ymd_raises _ _ E1). simpl. discriminate.
Qed.

Lemma _parse_odata_date_not_ValueError (utcoffset : Z -> Z) (v : json) :
  _parse_odata_date utcoffset v <> Raise ValueError.
Proof.
  destruct v; try (unfold _parse_odata_date; simpl;
                   repeat match goal with
                          | |- context [if ?x then _ else _] => destruct x
                          end; discriminate).
  intros H. apply _parse_odata_date_str_raises in H. discriminate H.
Qed.

Lemma py_get_not_ValueError (o : json) (k : string) (d : json) :
  py_get o k d <> Raise ValueError.
Proof. destruct o; simpl; discriminate. Qed.

Lemma bind_not_ValueError {A B : Type} (m : res A) (k : A -> res B) :
  m <> Raise ValueError -> (forall a, k a <> Raise ValueError) ->
  bind m k <> Raise ValueError.
Proof.
  destruct m as [a|e]; simpl; intros Hm Hk; [apply Hk|].
  intros H. apply Hm. inversion H; reflexivity.
Qed.

Ltac no_ValueError :=
  repeat first
    [ apply bind_not_ValueError; [|intros ?]
    | apply py_get_not_ValueError
    | apply _parse_odata_date_not_ValueError
    | match goal with
      | |- (if ?c then _ else _) <> _ => destruct c
      | |- (match ?x with _ => _ end) <> _ => destruct x
      end
    | discriminate ].

Lemma get_refresh_datetime_not_ValueError (utcoffset : Z -> Z) (item : json) :
  get_refresh_datetime utcoffset item <> Raise ValueError.
Proof. unfold get_refresh_datetime. no_ValueError. Qed.

Lemma get_modified_datetime_not_ValueError (utcoffset : Z -> Z) (item : json) :
  get_modified_datetime utcoffset item <> Raise ValueError.
Proof. unfold get_modified_datetime. no_ValueError. Qed.

Lemma matches_instant_not_ValueError (get : json -> res (option datetime))
  (before : bool) (since_date : datetime) (item : json) :
  (forall x, get x <> Raise ValueError) ->
  matches_instant get before since_date item <> Raise ValueError.
Proof.
  intros Hget. unfold matches_instant.
  apply bind_not_ValueError; [apply Hget|]. intros [d|]; [|discriminate].
  apply bind_not_ValueError; [apply Hget|]. intros [d'|]; discriminate.
Qed.

Lemma matches_visited_Ok (before : bool) (since_date : datetime) (item : json) :
  visit_readable item ->
  exists b, matches_visited before since_date item = Ok b.
Proof.
  intros (d & -> & H). unfold matches_visited. simpl.
  destruct H as [E|[E|(s & E & H)]]; rewrite E; simpl;
    try (eexists; reflexivity).
  destruct H as [->|(day & Hday)]; [eexists; reflexivity|].
  destruct (String.eqb s ""); simpl; [eexists; reflexivity|].
  rewrite Hday. simpl. eexists; reflexivity.
Qed.

Lemma filterM_Raise {A : Type} (p : A -> res bool) (l : list A) (e : exn) :
  filterM p l = Raise e -> exists x, In x l /\ p x = Raise e.
Proof.
  induction l as [|x t IH]; simpl; [discriminate|].
  destruct (p x) as [b|e'] eqn:E; simpl.
  - destruct (filterM p t) as [r|e''] eqn:E'; simpl; [discriminate|].
    intros H; inversion H; subst.
    destruct (IH eq_refl) as [y [Hy Hp]]. exists y; auto.
  - intros H; inversion H; subst. exists x; auto.
Qed.

Lemma Subseq_Forall {A : Type} (P : A -> Prop) (m l : list A) :
  Subseq m l -> Forall P l -> Forall P m.
Proof.
  intros S H. rewrite Forall_forall in *. intros x Hx.
  apply H. eapply Subseq_In; eassumption.
Qed.

Lemma Subseq_filter {A : Type} (q : A -> bool) (m l : list A) :
  Subseq m l -> Subseq (filter q m) (filter q l).
Proof.
  induction 1 as [|x m l S IH|x m l S IH]; simpl.
  - constructor.
  - destruct (q x); [constructor|]; exact IH.
  - destruct (q x); [constructor|]; exact IH.
Qed.

Lemma filter_like_filterM (P : json -> Prop) (p : json -> res bool) :
  filter_like P (filterM p).
Proof.
  intros l r _ H. apply filterM_Ok in H. destruct H as [-> Hall].
  exists (holds p). split; [reflexivity|].
  intros m S. apply filterM_total. eapply Subseq_Forall; eassumption.
Qed.

Lemma filter_like_id (P : json -> Prop) : filter_like P (fun l => Ok l).
Proof.
  intros l r _ H. inversion H; subst. exists (fun _ => true).
  split; [symmetry; apply filter_true|].
  intros m _. rewrite filter_true. reflexivity.
Qed.

Lemma filter_like_text_stage (P : json -> Prop) arg prepare pred :
  filter_like P (text_stage arg prepare pred).
Proof.
  unfold text_stage. destruct (given arg) as [s|].
  - apply filter_like_filterM.
  - apply filter_like_id.
Qed.

Lemma filter_like_date_stage (P : json -> Prop) arg pred :
  (forall d x, P x -> pred d x <> Raise ValueError) ->
  filter_like P (date_stage arg pred).
Proof.
  intros Hpred. unfold date_stage. destruct (given arg) as [s|].
  - destruct (strptime_ymd s) as [d|e] eqn:E; simpl.
    + intros l r HP H.
      destruct (filterM (pred d) l) as [r'|e] eqn:F; simpl in H.
      * inversion H; subst.
        destruct (filter_like_filterM P (pred d) l r HP F) as [q [-> Hq]].
        exists q. split; [reflexivity|]. intros m S. rewrite (Hq m S). reflexivity.
      * exfalso. destruct (filterM_Raise _ _ _ F) as [x [Hx Hr]].
        destruct e; simpl in H; try discriminate H.
        rewrite Forall_forall in HP. exact (Hpred d x (HP x Hx) Hr).
    + destruct e; simpl; try (intros l r _ H; discriminate H).
      apply filter_like_id.
  - apply filter_like_id.
Qed.

Lemma filter_like_bind (P : json -> Prop) stage rest :
  filter_like P stage -> filter_like P rest ->
  filter_like P (fun l => bind (stage l) rest).
Proof.
  intros H1 H2 l r HP H. bind_inv H.
  destruct (H1 l a HP Ha) as [q1 [-> Hq1]].
  assert (HP' : Forall P (filter q1 l)).
  { rewrite Forall_forall in *. intros x Hx. apply filter_In in Hx. apply HP, Hx. }
  destruct (H2 _ r HP' H) as [q2 [-> Hq2]].
  exists (fun x => q1 x && q2 x). split.
  - clear. induction l as [|x t IH]; simpl; [reflexivity|].
    destruct (q1 x); simpl; [destruct (q2 x)|]; rewrite IH; reflexivity.
  - intros m S. rewrite (Hq1 m S). simpl.
    rewrite (Hq2 _ (Subseq_filter q1 m l S)). f_equal.
    clear. induction m as [|x t IH]; simpl; [reflexivity|].
    destruct (q1 x); simpl; [destruct (q2 x)|]; rewrite IH; reflexivity.
Qed.

Lemma filter_idempotent {A : Type} (q : A -> bool) (l : list A) :
  filter q (filter q l) = filter q l.
Proof.
  induction l as [|x t IH]; simpl; [reflexivity|].
  destruct (q x) eqn:E; simpl; [rewrite E, IH|]; auto.
Qed.

(** X22. On lists whose visit dates can all be read, filtering twice
    with the same arguments is filtering once. *)
Lemma apply_filters_idempotent_readable :
  forall utcoffset items name_filter workspace_filter owner_filter
         visited_since not_visited_since refreshed_since not_refreshed_since
         updated_since not_updated_since storage_mode capacity_sku out,
    Forall visit_readable items ->
    apply_filters utcoffset items name_filter workspace_filter owner_filter
      visited_since not_visited_since refreshed_since not_refreshed_since
      updated_since not_updated_since storage_mode capacity_sku = Ok out ->
    apply_filters utcoffset out name_filter workspace_filter owner_filter
      visited_since not_visited_since refreshed_since not_refreshed_since
      updated_since not_updated_since storage_mode capacity_sku = Ok out.
Proof.
  intros tz items a1 a2 a3 a4 a5 a6 a7 a8 a9 a10 a11 out HP H.
  assert (FL : filter_like visit_readable
                 (fun l => apply_filters tz l a1 a2 a3 a4 a5 a6 a7 a8 a9 a10 a11)).
  { unfold apply_filters.
    repeat (apply filter_like_bind;
            [ first
                [ apply filter_like_text_stage
                | apply filter_like_date_stage; intros d x Hx;
                  first
                    [ destruct (matches_visited_Ok false d x Hx) as [b ->];
                      discriminate
                    | destruct (matches_visited_Ok true d x Hx) as [b ->];
                      discriminate
                    | apply matches_instant_not_ValueError;
                      first [ apply get_refresh_datetime_not_ValueError
                            | apply get_modified_datetime_not_ValueError ] ] ]
            | ]).
    apply filter_like_id. }
  destruct (FL items out HP H) as [q [-> Hq]].
  rewrite (Hq _ (filter_Subseq q items)).
  rewrite filter_idempotent. reflexivity.
Qed.

Lemma _parse_odata_date_negative :
  _parse_odata_date (fun _ => 0) (JStr "/Date(-1000)/")
  = Ok (Some (EPOCH_US - 1000000)).
Proof. reflexivity. Qed.

(** ** Instances *)

Lemma apply_filters_subset_witness :
  apply_filters (fun _ => 0)
    [visited_with_mode "Sales" "2024-12-01T08:00:00" 1;
     visited_with_mode "Stock" "2023-01-01T08:00:00" 2;
     never_visited "Sales old"]
    (Some "sales") None None (Some "2024-06-01") None None None None None
    (Some "import") None
  = Ok [visited_with_mode "Sales" "2024-12-01T08:00:00" 1]
  /\ Subseq [visited_with_mode "Sales" "2024-12-01T08:00:00" 1]
       [visited_with_mode "Sales" "2024-12-01T08:00:00" 1;
        visited_with_mode "Stock" "2023-01-01T08:00:00" 2;
        never_visited "Sales old"].
Proof.
  split; [reflexivity|].
  apply (apply_filters_subset (fun _ => 0) _
           (Some "sales") None None (Some "2024-06-01") None None None None None
           (Some "import") None).
  reflexivity.
Defined.

Lemma search_datahub_non_list_body_witness :
  snd (search_datahub (fun _ => Responded 200 "{}" (inr (JDict [])))
         "token" ["Model"] "uk-south" None 200 1)
  = Ok (JDict [("success", JBool true);
               ("items", JList []);
               ("count", JInt 0);
               ("region", JStr "uk-south");
               ("host", JStr "wabi-uk-south-e-primary-redirect.analysis.windows.net")]).
Proof.
  eapply (search_datahub_non_list_body
            (fun _ => Responded 200 "{}" (inr (JDict [])))
            "token" ["Model"] "uk-south" _ None 200 1 _ "{}" (JDict [])).
  - reflexivity.
  - left. reflexivity.
  - reflexivity.
  - intros l H. discriminate H.
Defined.

Lemma sort_items_stable_on_ordered_keys_witness :
  In "last-modified" SORT_FIELDS
  /\ Full.ordered_keys Full.key_last_modified Full.mixed_numbers
  /\ (exists out,
        Full.sort_items Full.mixed_numbers "last-modified" "desc" = Ok out
        /\ Permutation Full.mixed_numbers out
        /\ (forall k, filter (Full.has_key Full.key_last_modified k) out
                      = filter (Full.has_key Full.key_last_modified k)
                          Full.mixed_numbers)
        /\ Full.non_decreasing Full.key_last_modified
             (if String.eqb (lower "desc") "asc" then out else rev out))
  /\ Full.sort_items Full.mixed_numbers "size" "asc" = Ok Full.mixed_numbers.
Proof.
  assert (Hin : In "last-modified" SORT_FIELDS)
    by (unfold SORT_FIELDS; simpl; auto 10).
  assert (Ho : Full.ordered_keys Full.key_last_modified Full.mixed_numbers).
  { right. intros x Hx. simpl in Hx.
    repeat (destruct Hx as [<-|Hx];
            [eexists; split; [reflexivity | reflexivity]|]).
    destruct Hx. }
  split; [exact Hin|]. split; [exact Ho|]. split.
  - destruct (proj1 (sort_items_stable_on_ordered_keys
                       Full.mixed_numbers "last-modified" "desc") Hin)
      as (key & K & H & _).
    injection K as <-. exact (H Ho).
  - apply (proj2 (sort_items_stable_on_ordered_keys
                    Full.mixed_numbers "size" "asc")).
    unfold SORT_FIELDS. simpl. intros H.
    repeat (destruct H as [H|H]; [discriminate H|]). exact H.
Defined.

(** * Further properties of the code *)

(** ** Search client: the request and the result *)

Lemma search_datahub_known_region post token item_types region host
  workspace_id page_size page_number :
  assoc region REGIONS = Some host ->
  exists req,
    search_datahub post token item_types region workspace_id page_size page_number
    = ([req], snd (search_datahub post token item_types region workspace_id
                     page_size page_number))
    /\ url req = "https://" ++ host ++ "/metadata/datahub/V2/artifacts"
    /\ payload req
       = JDict [("filters",
                 JList match given workspace_id with
                       | Some w => [JDict [("datahubFilterType", JStr "workspace");
                                           ("values", JList [JStr w])]]
                       | None => []
                       end);
                ("hostFamily", JInt 4);
                ("orderBy", JStr "Default");
                ("orderDirection", JStr "");
                ("pageNumber", JInt page_number);
                ("pageSize", JInt (Z.min page_size 1000));
                ("supportedTypes", JList (map JStr item_types));
                ("tridentSupportedTypes",
                 JList (map JStr (map resolve_type item_types)))].
Proof.
  intros Hr. unfold search_datahub. rewrite Hr.
  rewrite (REGIONS_hosts_nonempty _ _ Hr). cbv zeta.
  eexists. split; [reflexivity|]. split; reflexivity.
Qed.

Lemma search_datahub_request post token item_types region workspace_id
  page_size page_number req :
  In req (fst (search_datahub post token item_types region workspace_id
                 page_size page_number)) ->
  exists host,
    assoc region REGIONS = Some host
    /\ fst (search_datahub post token item_types region workspace_id
              page_size page_number) = [req].
Proof.
  intros Hin. destruct (assoc region REGIONS) as [host|] eqn:Hr.
  - exists host. split; [reflexivity|].
    destruct (search_datahub_known_region post token item_types region host
                workspace_id page_size page_number Hr) as (req' & E & _).
    rewrite E in Hin |- *. simpl in *. destruct Hin as [->|[]]. reflexivity.
  - unfold search_datahub in Hin. rewrite Hr in Hin. destruct Hin.
Qed.

(** X1. The page size sent to the service never exceeds 1000: a larger
    request is cut to 1000, and any other value, zero and negative ones
    included, is sent as it is, with the page number unchanged. *)
Theorem search_datahub_page_size_capped :
  forall post token item_types region workspace_id page_size page_number req,
    In req (fst (search_datahub post token item_types region workspace_id
                   page_size page_number)) ->
    exists fields sent,
      payload req = JDict fields
      /\ lookup "pageSize" fields = Some (JInt sent)
      /\ sent <= 1000
      /\ (page_size <= 1000 -> sent = page_size)
      /\ (1000 < page_size -> sent = 1000)
      /\ lookup "pageNumber" fields = Some (JInt page_number).
Proof.
  intros post token item_types region workspace_id page_size page_number req Hin.
  destruct (search_datahub_request _ _ _ _ _ _ _ _ Hin) as (host & Hr & Hreq).
  destruct (search_datahub_known_region post token item_types region host
              workspace_id page_size page_number Hr) as (req' & E & _ & Hp).
  rewrite E in Hreq. simpl in Hreq. inversion Hreq; subst req'.
  eexists; eexists. split; [exact Hp|].
  split; [reflexivity|]. repeat split; try reflexivity; lia.
Qed.

(** X2. The request carries a workspace clause exactly when a non-empty
    workspace id is supplied, and then the clause names that id alone;
    without one, or with the empty text, the filter array is empty. *)
Theorem search_datahub_workspace_clause :
  forall post token item_types region workspace_id page_size page_number req,
    In req (fst (search_datahub post token item_types region workspace_id
                   page_size page_number)) ->
    exists fields clauses,
      payload req = JDict fields
      /\ lookup "filters" fields = Some (JList clauses)
      /\ ((workspace_id = None \/ workspace_id = Some "") -> clauses = [])
      /\ (forall w, workspace_id = Some w -> w <> "" ->
            clauses = [JDict [("datahubFilterType", JStr "workspace");
                              ("values", JList [JStr w])]]).
Proof.
  intros post token item_types region workspace_id page_size page_number req Hin.
  destruct (search_datahub_request _ _ _ _ _ _ _ _ Hin) as (host & Hr & Hreq).
  destruct (search_datahub_known_region post token item_types region host
              workspace_id page_size page_number Hr) as (req' & E & _ & Hp).
  rewrite E in Hreq. simpl in Hreq. inversion Hreq; subst req'.
  eexists; eexists. split; [exact Hp|]. split; [reflexivity|]. split.
  - intros [->| ->]; reflexivity.
  - intros w -> Hw. simpl.
    destruct (String.eqb_spec w "") as [->|_]; [contradiction | reflexivity].
Qed.

(** X3. Every result has one of two shapes.  A success carries a list of
    items, a count equal to the length of that list, and the region and
    its host; it comes only from a 200 response, with a body that decodes,
    to the one request the call issued, and the items are the decoded body
    when that is a list.  A failure carries a text under [error] and no
    items. *)
Theorem search_datahub_result_shape :
  forall post token item_types region workspace_id page_size page_number,
    exists result,
      snd (search_datahub post token item_types region workspace_id
             page_size page_number) = Ok (JDict result)
      /\ ((lookup "success" result = Some (JBool true)
           /\ (exists items host,
                 lookup "items" result = Some (JList items)
                 /\ lookup "count" result
                    = Some (JInt (Z.of_nat (List.length items)))
                 /\ lookup "region" result = Some (JStr region)
                 /\ assoc region REGIONS = Some host
                 /\ lookup "host" result = Some (JStr host)
                 /\ exists req text body,
                      fst (search_datahub post token item_types region
                             workspace_id page_size page_number) = [req]
                      /\ post req = Responded 200 text (inr body)
                      /\ (forall l, body = JList l -> items = l)
                      /\ ((forall l, body <> JList l) -> items = []))
           /\ lookup "error" result = None)
          \/ (lookup "success" result = Some (JBool false)
              /\ (exists message, lookup "error" result = Some (JStr message))
              /\ lookup "items" result = None
              /\ lookup "count" result = None)).
Proof.
  intros post token item_types region workspace_id page_size page_number.
  unfold search_datahub.
  destruct (assoc region REGIONS) as [host|] eqn:Hr.
  - rewrite (REGIONS_hosts_nonempty _ _ Hr). cbv zeta. cbn [fst snd].
    match goal with
    | |- context [post ?r] => set (req := r)
    end.
    destruct (post req) as [status_code text decoded| |message] eqn:Hpost.
    + destruct (Z.eqb_spec status_code 200) as [->|Hs].
      * destruct decoded as [message|body].
        -- eexists; split; [reflexivity|]. right.
           repeat split; try reflexivity. eexists; reflexivity.
        -- eexists; split; [reflexivity|]. left.
           split; [reflexivity|]. split; [|reflexivity].
           exists (match body with JList l => l | _ => [] end), host.
           split; [destruct body; reflexivity|].
           split; [destruct body; reflexivity|].
           repeat (split; [reflexivity|]).
           exists req, text, body. split; [reflexivity|].
           split; [exact Hpost|]. split.
           ++ intros l ->. reflexivity.
           ++ intros Hb. destruct body; try reflexivity.
              exfalso. eapply Hb. reflexivity.
      * eexists; split; [reflexivity|]. right.
        repeat split; try reflexivity. eexists; reflexivity.
    + eexists; split; [reflexivity|]. right.
      repeat split; try reflexivity. eexists; reflexivity.
    + eexists; split; [reflexivity|]. right.
      repeat split; try reflexivity. eexists; reflexivity.
  - eexists; split; [reflexivity|]. right.
    repeat split; try reflexivity. eexists; reflexivity.
Qed.

(** The part of the result that [main] reads. *)
Lemma search_datahub_outcome post token item_types region workspace_id
  page_size page_number :
  exists result,
    snd (search_datahub post token item_types region workspace_id
           page_size page_number) = Ok (JDict result)
    /\ ((lookup "success" result = Some (JBool true)
         /\ exists items, lookup "items" result = Some (JList items))
        \/ lookup "success" result = Some (JBool false)).
Proof.
  unfold search_datahub.
  destruct (assoc region REGIONS) as [host|] eqn:Hr.
  - rewrite (REGIONS_hosts_nonempty _ _ Hr). cbv zeta. cbn [snd].
    match goal with
    | |- context [post ?r] => destruct (post r) as [status_code text decoded| |message]
    end.
    + destruct (status_code =? 200).
      * destruct decoded as [message|body].
        -- eexists; split; [reflexivity|]. right. reflexivity.
        -- eexists; split; [reflexivity|]. left. split; [reflexivity|].
           exists (match body with JList l => l | _ => [] end).
           destruct body; reflexivity.
      * eexists; split; [reflexivity|]. right. reflexivity.
    + eexists; split; [reflexivity|]. right. reflexivity.
    + eexists; split; [reflexivity|]. right. reflexivity.
  - eexists; split; [reflexivity|]. right. reflexivity.
Qed.

Lemma search_datahub_shape_success post token item_types region workspace_id
  page_size page_number req result :
  search_datahub post token item_types region workspace_id page_size page_number
  = ([req], snd (search_datahub post token item_types region workspace_id
                   page_size page_number)) ->
  snd (search_datahub post token item_types region workspace_id
         page_size page_number) = Ok (JDict result) ->
  lookup "success" result = Some (JBool true) ->
  exists text body, post req = Responded 200 text (inr body).
Proof.
  unfold search_datahub.
  destruct (assoc region REGIONS) as [host|] eqn:Hr; [|discriminate].
  rewrite (REGIONS_hosts_nonempty _ _ Hr). cbv zeta. cbn [snd].
  intros E. inversion E as [Ereq]. clear E.
  match goal with
  | |- context [post ?r] =>
      destruct (post r) as [status_code text decoded| |message] eqn:P
  end; intros R S; try (inversion R; subst result; discriminate S).
  destruct (Z.eqb_spec status_code 200) as [->|_].
  - destruct decoded as [message|body].
    + inversion R; subst result; discriminate S.
    + exists text, body. exact P.
  - inversion R; subst result; discriminate S.
Qed.

Lemma search_datahub_success post token item_types region host workspace_id
  page_size page_number req text body :
  assoc region REGIONS = Some host ->
  fst (search_datahub post token item_types region workspace_id
         page_size page_number) = [req] ->
  post req = Responded 200 text (inr body) ->
  snd (search_datahub post token item_types region workspace_id
         page_size page_number)
  = Ok (JDict [("success", JBool true);
               ("items", match body with
                         | JList l => JList l
                         | _ => JList []
                         end);
               ("count", match body with
                         | JList l => JInt (Z.of_nat (List.length l))
                         | _ => JInt 0
                         end);
               ("region", JStr region);
               ("host", JStr host)]).
Proof.
  unfold search_datahub. intros Hr.
  rewrite Hr, (REGIONS_hosts_nonempty _ _ Hr). cbv zeta. cbn [fst snd].
  intros E P.
  match goal with
  | |- context [post ?r] =>
      replace (post r) with (post req) by (f_equal; congruence)
  end.
  rewrite P. reflexivity.
Qed.

(** ** Predicate engine: stages *)

Lemma bind_ext {A B : Type} (m : res A) (k k' : A -> res B) :
  (forall a, k a = k' a) -> bind m k = bind m k'.
Proof. intros H. destruct m; simpl; [apply H | reflexivity]. Qed.

Lemma holds_true {A : Type} (p : A -> res bool) (x : A) :
  holds p x = true -> p x = Ok true.
Proof. unfold holds. destruct (p x) as [[|]|]; congruence. Qed.

Lemma text_stage_nil arg prepare pred : text_stage arg prepare pred [] = Ok [].
Proof. unfold text_stage. destruct (given arg); reflexivity. Qed.

Lemma date_stage_nil arg pred : date_stage arg pred [] = Ok [].
Proof.
  unfold date_stage. destruct (given arg) as [s|]; [|reflexivity].
  destruct (strptime_ymd s) as [d|e] eqn:E; [reflexivity|].
  rewrite (strptime_ymd_raises _ _ E). reflexivity.
Qed.

Lemma date_stage_malformed (b : string) (e : exn) pred l :
  strptime_ymd b = Raise e -> date_stage (Some b) pred l = date_stage None pred l.
Proof.
  intros E. unfold date_stage. simpl.
  destruct (String.eqb b ""); [reflexivity|].
  rewrite E, (strptime_ymd_raises _ _ E). reflexivity.
Qed.

Lemma text_stage_sound arg prepare pred l r s :
  text_stage arg prepare pred l = Ok r -> given arg = Some s ->
  Forall (fun x => pred (prepare s) x = Ok true) r.
Proof.
  unfold text_stage. intros H G. rewrite G in H.
  apply filterM_Ok in H. destruct H as [-> _].
  rewrite Forall_forall. intros x Hx. apply filter_In in Hx.
  apply holds_true. apply Hx.
Qed.

Lemma date_stage_sound arg pred l r b since_date :
  date_stage arg pred l = Ok r -> given arg = Some b ->
  strptime_ymd b = Ok since_date ->
  (forall x, pred since_date x <> Raise ValueError) ->
  Forall (fun x => pred since_date x = Ok true) r.
Proof.
  unfold date_stage. intros H G E Hpred. rewrite G, E in H. simpl in H.
  destruct (filterM (pred since_date) l) as [r'|e] eqn:F; simpl in H.
  - inversion H; subst. apply filterM_Ok in F. destruct F as [-> _].
    rewrite Forall_forall. intros x Hx. apply filter_In in Hx.
    apply holds_true. apply Hx.
  - exfalso. destruct (filterM_Raise _ _ _ F) as [x [_ Hr]].
    destruct e; simpl in H; try discriminate H. exact (Hpred x Hr).
Qed.

(** The eleven stages of [apply_filters], with their results. *)
Lemma apply_filters_stages utcoffset items a1 a2 a3 d1 d2 d3 d4 d5 d6 a10 a11 out :
  apply_filters utcoffset items a1 a2 a3 d1 d2 d3 d4 d5 d6 a10 a11 = Ok out ->
  exists r1 r2 r3 r4 r5 r6 r7 r8 r9 r10,
    text_stage a1 lower matches_name items = Ok r1
    /\ text_stage a2 lower matches_workspace r1 = Ok r2
    /\ text_stage a3 lower matches_owner r2 = Ok r3
    /\ date_stage d1 (matches_visited false) r3 = Ok r4
    /\ date_stage d2 (matches_visited true) r4 = Ok r5
    /\ date_stage d3 (matches_instant (get_refresh_datetime utcoffset) false) r5 = Ok r6
    /\ date_stage d4 (matches_instant (get_refresh_datetime utcoffset) true) r6 = Ok r7
    /\ date_stage d5 (matches_instant (get_modified_datetime utcoffset) false) r7 = Ok r8
    /\ date_stage d6 (matches_instant (get_modified_datetime utcoffset) true) r8 = Ok r9
    /\ text_stage a10 lower matches_storage r9 = Ok r10
    /\ text_stage a11 upper matches_sku r10 = Ok out.
Proof.
  unfold apply_filters. intros H.
  repeat (let a := fresh "r" in let Ha := fresh "Hr" in
          apply bind_Ok_inv in H; destruct H as [a [Ha H]]).
  inversion H; subst; clear H.
  do 10 eexists. repeat (split; [eassumption|]). eassumption.
Qed.

(** X4. With no filter supplied, an empty text counting as none,
    [apply_filters] returns its input list as it is, whatever the records
    are. *)
Theorem apply_filters_no_filter :
  forall utcoffset items a1 a2 a3 d1 d2 d3 d4 d5 d6 a10 a11,
    given a1 = None -> given a2 = None -> given a3 = None ->
    given d1 = None -> given d2 = None -> given d3 = None ->
    given d4 = None -> given d5 = None -> given d6 = None ->
    given a10 = None -> given a11 = None ->
    apply_filters utcoffset items a1 a2 a3 d1 d2 d3 d4 d5 d6 a10 a11 = Ok items.
Proof.
  intros tz items a1 a2 a3 d1 d2 d3 d4 d5 d6 a10 a11
         H1 H2 H3 H4 H5 H6 H7 H8 H9 H10 H11.
  unfold apply_filters, text_stage, date_stage.
  rewrite H1, H2, H3, H4, H5, H6, H7, H8, H9, H10, H11. reflexivity.
Qed.

Lemma apply_filters_nil :
  forall utcoffset a1 a2 a3 d1 d2 d3 d4 d5 d6 a10 a11,
    apply_filters utcoffset [] a1 a2 a3 d1 d2 d3 d4 d5 d6 a10 a11 = Ok [].
Proof.
  intros. unfold apply_filters.
  repeat (first [rewrite text_stage_nil | rewrite date_stage_nil];
          cbn [bind]).
  reflexivity.
Qed.

(** X5. On the empty list [apply_filters] returns the empty list for
    every combination of filter arguments, malformed boundaries included. *)
Theorem apply_filters_empty :
  forall utcoffset a1 a2 a3 d1 d2 d3 d4 d5 d6 a10 a11,
    apply_filters utcoffset [] a1 a2 a3 d1 d2 d3 d4 d5 d6 a10 a11 = Ok [].
Proof.
  intros. unfold apply_filters.
  repeat (first [rewrite text_stage_nil | rewrite date_stage_nil];
          cbn [bind]).
  reflexivity.
Qed.

Tactic Notation "under_stages" integer(n) :=
  unfold apply_filters; do n (apply bind_ext; intros ?).

(** X6. A boundary that is not a year-month-day date switches its own
    filter off and nothing else: the result is the one obtained without
    that boundary, for each of the six temporal filters. *)
Theorem apply_filters_malformed_boundary :
  forall utcoffset items a1 a2 a3 d1 d2 d3 d4 d5 d6 a10 a11 b e,
    strptime_ymd b = Raise e ->
    apply_filters utcoffset items a1 a2 a3 (Some b) d2 d3 d4 d5 d6 a10 a11
    = apply_filters utcoffset items a1 a2 a3 None d2 d3 d4 d5 d6 a10 a11
    /\ apply_filters utcoffset items a1 a2 a3 d1 (Some b) d3 d4 d5 d6 a10 a11
       = apply_filters utcoffset items a1 a2 a3 d1 None d3 d4 d5 d6 a10 a11
    /\ apply_filters utcoffset items a1 a2 a3 d1 d2 (Some b) d4 d5 d6 a10 a11
       = apply_filters utcoffset items a1 a2 a3 d1 d2 None d4 d5 d6 a10 a11
    /\ apply_filters utcoffset items a1 a2 a3 d1 d2 d3 (Some b) d5 d6 a10 a11
       = apply_filters utcoffset items a1 a2 a3 d1 d2 d3 None d5 d6 a10 a11
    /\ apply_filters utcoffset items a1 a2 a3 d1 d2 d3 d4 (Some b) d6 a10 a11
       = apply_filters utcoffset items a1 a2 a3 d1 d2 d3 d4 None d6 a10 a11
    /\ apply_filters utcoffset items a1 a2 a3 d1 d2 d3 d4 d5 (Some b) a10 a11
       = apply_filters utcoffset items a1 a2 a3 d1 d2 d3 d4 d5 None a10 a11.
Proof.
  intros tz items a1 a2 a3 d1 d2 d3 d4 d5 d6 a10 a11 b e E.
  repeat split.
  - under_stages 3. rewrite (date_stage_malformed b e _ _ E). reflexivity.
  - under_stages 4. rewrite (date_stage_malformed b e _ _ E). reflexivity.
  - under_stages 5. rewrite (date_stage_malformed b e _ _ E). reflexivity.
  - under_stages 6. rewrite (date_stage_malformed b e _ _ E). reflexivity.
  - under_stages 7. rewrite (date_stage_malformed b e _ _ E). reflexivity.
  - under_stages 8. rewrite (date_stage_malformed b e _ _ E). reflexivity.
Qed.

(** X7. Every record that [apply_filters] returns passes each text filter
    that was supplied: the name, workspace, owner, storage-mode and
    capacity tests all hold on it. *)
Theorem apply_filters_text_sound :
  forall utcoffset items a1 a2 a3 d1 d2 d3 d4 d5 d6 a10 a11 out,
    apply_filters utcoffset items a1 a2 a3 d1 d2 d3 d4 d5 d6 a10 a11 = Ok out ->
    (forall s, given a1 = Some s ->
       Forall (fun x => matches_name (lower s) x = Ok true) out)
    /\ (forall s, given a2 = Some s ->
          Forall (fun x => matches_workspace (lower s) x = Ok true) out)
    /\ (forall s, given a3 = Some s ->
          Forall (fun x => matches_owner (lower s) x = Ok true) out)
    /\ (forall s, given a10 = Some s ->
          Forall (fun x => matches_storage (lower s) x = Ok true) out)
    /\ (forall s, given a11 = Some s ->
          Forall (fun x => matches_sku (upper s) x = Ok true) out).
Proof.
  intros tz items a1 a2 a3 d1 d2 d3 d4 d5 d6 a10 a11 out H.
  destruct (apply_filters_stages _ _ _ _ _ _ _ _ _ _ _ _ _ _ H)
    as (r1 & r2 & r3 & r4 & r5 & r6 & r7 & r8 & r9 & r10
        & H1 & H2 & H3 & H4 & H5 & H6 & H7 & H8 & H9 & H10 & H11).
  pose proof (text_stage_Subseq _ _ _ _ _ H2) as S2.
  pose proof (text_stage_Subseq _ _ _ _ _ H3) as S3.
  pose proof (date_stage_Subseq _ _ _ _ H4) as S4.
  pose proof (date_stage_Subseq _ _ _ _ H5) as S5.
  pose proof (date_stage_Subseq _ _ _ _ H6) as S6.
  pose proof (date_stage_Subseq _ _ _ _ H7) as S7.
  pose proof (date_stage_Subseq _ _ _ _ H8) as S8.
  pose proof (date_stage_Subseq _ _ _ _ H9) as S9.
  pose proof (text_stage_Subseq _ _ _ _ _ H10) as S10.
  pose proof (text_stage_Subseq _ _ _ _ _ H11) as S11.
  assert (T10 : Subseq out r10) by exact S11.
  assert (T9 : Subseq out r9) by (eapply Subseq_trans; eassumption).
  assert (T8 : Subseq out r8) by (eapply Subseq_trans; eassumption).
  assert (T7 : Subseq out r7) by (eapply Subseq_trans; eassumption).
  assert (T6 : Subseq out r6) by (eapply Subseq_trans; eassumption).
  assert (T5 : Subseq out r5) by (eapply Subseq_trans; eassumption).
  assert (T4 : Subseq out r4) by (eapply Subseq_trans; eassumption).
  assert (T3 : Subseq out r3) by (eapply Subseq_trans; eassumption).
  assert (T2 : Subseq out r2) by (eapply Subseq_trans; eassumption).
  assert (T1 : Subseq out r1) by (eapply Subseq_trans; eassumption).
  repeat split; intros s G.
  - eapply Subseq_Forall; [exact T1|]. eapply text_stage_sound; eassumption.
  - eapply Subseq_Forall; [exact T2|]. eapply text_stage_sound; eassumption.
  - eapply Subseq_Forall; [exact T3|]. eapply text_stage_sound; eassumption.
  - eapply Subseq_Forall; [exact T10|]. eapply text_stage_sound; eassumption.
  - eapply text_stage_sound; eassumption.
Qed.

Lemma matches_instant_true get before since_date item :
  matches_instant get before since_date item = Ok true ->
  exists d, get item = Ok (Some d)
            /\ (if before then d < since_date else since_date <= d).
Proof.
  unfold matches_instant. intros H. bind_inv H.
  destruct a as [d|]; [|discriminate H]. bind_inv H.
  destruct a as [d'|]; [|discriminate H].
  rewrite Ha in Ha0. inversion Ha0; subst d'.
  exists d. split; [exact Ha|]. inversion H as [E].
  destruct before; [apply Z.ltb_lt | apply Z.leb_le]; exact E.
Qed.

(** X8. Whenever [apply_filters] returns, a refresh or update filter
    with a well-formed boundary has been applied: every returned record
    has the instant in question, on or after the boundary for the since
    filters and strictly before it for the not-since filters. *)
Theorem apply_filters_instant_sound :
  forall utcoffset items a1 a2 a3 d1 d2 d3 d4 d5 d6 a10 a11 out,
    apply_filters utcoffset items a1 a2 a3 d1 d2 d3 d4 d5 d6 a10 a11 = Ok out ->
    (forall b since_date, given d3 = Some b -> strptime_ymd b = Ok since_date ->
       Forall (fun x => exists d, get_refresh_datetime utcoffset x = Ok (Some d)
                                  /\ since_date <= d) out)
    /\ (forall b since_date, given d4 = Some b -> strptime_ymd b = Ok since_date ->
          Forall (fun x => exists d, get_refresh_datetime utcoffset x = Ok (Some d)
                                     /\ d < since_date) out)
    /\ (forall b since_date, given d5 = Some b -> strptime_ymd b = Ok since_date ->
          Forall (fun x => exists d, get_modified_datetime utcoffset x = Ok (Some d)
                                     /\ since_date <= d) out)
    /\ (forall b since_date, given d6 = Some b -> strptime_ymd b = Ok since_date ->
          Forall (fun x => exists d, get_modified_datetime utcoffset x = Ok (Some d)
                                     /\ d < since_date) out).
Proof.
  intros tz items a1 a2 a3 d1 d2 d3 d4 d5 d6 a10 a11 out H.
  destruct (apply_filters_stages _ _ _ _ _ _ _ _ _ _ _ _ _ _ H)
    as (r1 & r2 & r3 & r4 & r5 & r6 & r7 & r8 & r9 & r10
        & H1 & H2 & H3 & H4 & H5 & H6 & H7 & H8 & H9 & H10 & H11).
  pose proof (date_stage_Subseq _ _ _ _ H7) as S7.
  pose proof (date_stage_Subseq _ _ _ _ H8) as S8.
  pose proof (date_stage_Subseq _ _ _ _ H9) as S9.
  pose proof (text_stage_Subseq _ _ _ _ _ H10) as S10.
  pose proof (text_stage_Subseq _ _ _ _ _ H11) as S11.
  assert (T9 : Subseq out r9) by (eapply Subseq_trans; eassumption).
  assert (T8 : Subseq out r8) by (eapply Subseq_trans; eassumption).
  assert (T7 : Subseq out r7) by (eapply Subseq_trans; eassumption).
  assert (T6 : Subseq out r6) by (eapply Subseq_trans; eassumption).
  assert (Sound : forall get before d l r b since_date,
             date_stage d (matches_instant get before) l = Ok r ->
             (forall x, get x <> Raise ValueError) ->
             given d = Some b -> strptime_ymd b = Ok since_date ->
             Forall (fun x => exists t, get x = Ok (Some t)
                        /\ (if before then t < since_date else since_date <= t)) r).
  { intros get before d l r b since_date Hd Hget G E.
    eapply Forall_impl; [|eapply date_stage_sound; try eassumption].
    - intros x Hx. apply matches_instant_true. exact Hx.
    - intros x. apply matches_instant_not_ValueError. exact Hget. }
  repeat split; intros b since_date G E.
  - eapply Subseq_Forall; [exact T6|].
    exact (Sound _ false _ _ _ _ _ H6
             (get_refresh_datetime_not_ValueError tz) G E).
  - eapply Subseq_Forall; [exact T7|].
    exact (Sound _ true _ _ _ _ _ H7
             (get_refresh_datetime_not_ValueError tz) G E).
  - eapply Subseq_Forall; [exact T8|].
    exact (Sound _ false _ _ _ _ _ H8
             (get_modified_datetime_not_ValueError tz) G E).
  - eapply Subseq_Forall; [exact T9|].
    exact (Sound _ true _ _ _ _ _ H9
             (get_modified_datetime_not_ValueError tz) G E).
Qed.

(** ** Predicate engine: the case of the filter text *)

Lemma lower_upper_char (c : ascii) : lower_char (upper_char c) = lower_char c.
Proof. destruct c as [[] [] [] [] [] [] [] []]; reflexivity. Qed.

Lemma upper_lower_char (c : ascii) : upper_char (lower_char c) = upper_char c.
Proof. destruct c as [[] [] [] [] [] [] [] []]; reflexivity. Qed.

Lemma lower_upper (s : string) : lower (upper s) = lower s.
Proof.
  unfold lower, upper. induction s as [|c t IH]; simpl; [reflexivity|].
  rewrite lower_upper_char. f_equal. exact IH.
Qed.

Lemma upper_lower (s : string) : upper (lower s) = upper s.
Proof.
  unfold lower, upper. induction s as [|c t IH]; simpl; [reflexivity|].
  rewrite upper_lower_char. f_equal. exact IH.
Qed.

Lemma text_stage_upper arg pred l :
  text_stage (option_map upper arg) lower pred l = text_stage arg lower pred l.
Proof.
  unfold text_stage, given, option_map. destruct arg as [s|]; [|reflexivity].
  replace (String.eqb (upper s) "") with (String.eqb s "")
    by (destruct s; reflexivity).
  destruct (String.eqb s ""); [reflexivity|]. rewrite lower_upper. reflexivity.
Qed.

Lemma text_stage_lower arg pred l :
  text_stage (option_map lower arg) upper pred l = text_stage arg upper pred l.
Proof.
  unfold text_stage, given, option_map. destruct arg as [s|]; [|reflexivity].
  replace (String.eqb (lower s) "") with (String.eqb s "")
    by (destruct s; reflexivity).
  destruct (String.eqb s ""); [reflexivity|]. rewrite upper_lower. reflexivity.
Qed.

(** X9. The case of a filter text made of ASCII characters does not
    matter: writing the name, workspace, owner and storage-mode texts in
    upper case, and the capacity text in lower case, gives the same
    outcome on every list.  (Beyond ASCII the case mappings of Python do
    not undo each other, and the property is not claimed.) *)
Theorem apply_filters_case_insensitive :
  forall utcoffset items a1 a2 a3 d1 d2 d3 d4 d5 d6 a10 a11,
    ascii_arg a1 -> ascii_arg a2 -> ascii_arg a3 ->
    ascii_arg a10 -> ascii_arg a11 ->
    apply_filters utcoffset items
      (option_map upper a1) (option_map upper a2) (option_map upper a3)
      d1 d2 d3 d4 d5 d6 (option_map upper a10) (option_map lower a11)
    = apply_filters utcoffset items a1 a2 a3 d1 d2 d3 d4 d5 d6 a10 a11.
Proof.
  intros tz items a1 a2 a3 d1 d2 d3 d4 d5 d6 a10 a11 _ _ _ _ _.
  unfold apply_filters.
  rewrite text_stage_upper. apply bind_ext; intros r1.
  rewrite text_stage_upper. apply bind_ext; intros r2.
  rewrite text_stage_upper. apply bind_ext; intros r3.
  do 6 (apply bind_ext; intros ?).
  rewrite text_stage_upper. apply bind_ext; intros r10.
  rewrite text_stage_lower. reflexivity.
Qed.

(** ** Predicate engine: the two visit filters *)

Lemma matches_visited_from_readable (since_date : datetime) (item : json) :
  visit_readable item ->
  matches_visited false since_date item = Ok (visited_from since_date item).
Proof.
  intros (d & -> & H). unfold matches_visited, visited_from. simpl.
  destruct H as [E|[E|(s & E & H)]]; rewrite E; simpl; try reflexivity.
  destruct H as [->|(day & Hday)]; [reflexivity|].
  rewrite Hday. simpl.
  destruct (String.eqb s ""); reflexivity.
Qed.

Lemma visit_filter_readable (tz : Z -> Z) (before : bool) (items : list json)
  (boundary : string) (since_date : datetime) :
  boundary <> "" ->
  strptime_ymd boundary = Ok since_date ->
  Forall visit_readable items ->
  (if before then not_visited_filter tz items boundary
   else visited_filter tz items boundary)
  = Ok (filter (if before then visited_before since_date
                else visited_from since_date) items).
Proof.
  intros Hne Hb Hall.
  assert (P : forall x, In x items ->
                matches_visited before since_date x
                = Ok ((if before then visited_before since_date
                       else visited_from since_date) x)).
  { intros x Hx. rewrite Forall_forall in Hall. destruct before.
    - apply matches_visited_readable. apply Hall. exact Hx.
    - apply matches_visited_from_readable. apply Hall. exact Hx. }
  assert (F : filterM (matches_visited before since_date) items
              = Ok (filter (if before then visited_before since_date
                            else visited_from since_date) items)).
  { rewrite filterM_total.
    - f_equal. apply filter_ext_in. intros x Hx.
      unfold holds. rewrite (P x Hx).
      destruct ((if before then visited_before since_date
                 else visited_from since_date) x); reflexivity.
    - rewrite Forall_forall. intros x Hx. eexists. apply P. exact Hx. }
  destruct before;
    unfold not_visited_filter, visited_filter, apply_filters,
      text_stage, date_stage; simpl;
    (destruct (String.eqb_spec boundary "") as [E|_]; [contradiction|]);
    rewrite Hb; simpl; rewrite F; reflexivity.
Qed.

(** X10. On a list whose visit dates can all be read, and for a
    well-formed boundary, the visited-since and the not-visited-since
    filters split the records that have a last visit: each such record
    is returned by exactly one of the two, and a record without a last
    visit by neither. *)
Theorem visit_filters_partition :
  forall utcoffset items boundary since_date,
    boundary <> "" ->
    strptime_ymd boundary = Ok since_date ->
    Forall visit_readable items ->
    exists recent stale,
      visited_filter utcoffset items boundary = Ok recent
      /\ not_visited_filter utcoffset items boundary = Ok stale
      /\ forall x, In x items ->
           (has_visit x = true <-> In x recent \/ In x stale)
           /\ ~ (In x recent /\ In x stale).
Proof.
  intros tz items boundary since_date Hne Hb Hall.
  exists (filter (visited_from since_date) items),
         (filter (visited_before since_date) items).
  split; [exact (visit_filter_readable tz false items boundary since_date
                   Hne Hb Hall)|].
  split; [exact (visit_filter_readable tz true items boundary since_date
                   Hne Hb Hall)|].
  intros x Hx. rewrite !filter_In.
  rewrite Forall_forall in Hall. destruct (Hall x Hx) as (d & -> & H).
  unfold has_visit, visited_from, visited_before.
  destruct H as [E|[E|(s & E & H)]]; rewrite E; simpl.
  - split; [split; [discriminate | intros [[_ F]|[_ F]]; discriminate F]|].
    intros [[_ F] _]; discriminate F.
  - split; [split; [discriminate | intros [[_ F]|[_ F]]; discriminate F]|].
    intros [[_ F] _]; discriminate F.
  - destruct H as [->|(day & Hday)].
    + simpl. split; [split; [discriminate|]|].
      * intros [[_ F]|[_ F]]; destruct (strptime_ymd ""); discriminate F.
      * intros [[_ F] _]; destruct (strptime_ymd ""); discriminate F.
    + rewrite Hday. destruct (String.eqb s ""); simpl.
      * split; [split; [discriminate | intros [[_ F]|[_ F]]; discriminate F]|].
        intros [[_ F] _]; discriminate F.
      * destruct (Z.leb_spec since_date day) as [L|L];
          destruct (Z.ltb_spec day since_date) as [L'|L']; try lia.
        -- split; [split; [intros _; left; auto | reflexivity]|].
           intros [_ [_ F]]; discriminate F.
        -- split; [split; [intros _; right; auto | reflexivity]|].
           intros [[_ F] _]; discriminate F.
Qed.

(** ** Storage mode: the label and the filter *)

Lemma storage_cases (item : json) :
  (exists e, _get_storage_mode item = Raise e
             /\ forall mode, matches_storage mode item = Raise e)
  \/ (exists sm dl,
        _get_storage_mode item
        = Ok (if truthy dl then "DirectLake"
              else if py_eq_int sm 1 then "Import"
              else if py_eq_int sm 2 then "DirectQuery"
              else "Unknown")
        /\ forall mode,
             matches_storage mode item
             = Ok ((String.eqb mode "import" && py_eq_int sm 1)
                   || (String.eqb mode "directquery" && py_eq_int sm 2)
                   || (String.eqb mode "directlake" && truthy dl))).
Proof.
  unfold _get_storage_mode, matches_storage.
  destruct item as [| | | | |d]; simpl;
    try (left; eexists; split; [reflexivity | intros; reflexivity]).
  destruct (match lookup "artifact" d with Some v => v | None => JDict [] end)
    as [| | | | |a]; simpl;
    try (left; eexists; split; [reflexivity | intros; reflexivity]).
  right.
  exists (match lookup "storageMode" a with Some v => v | None => JNull end),
         (match lookup "directLakeMode" a with Some v => v | None => JNull end).
  destruct (lookup "directLakeMode" a) as [dl|]; simpl.
  - split.
    + destruct (truthy dl); simpl; [reflexivity|].
      destruct (py_eq_int _ 1); [reflexivity|].
      destruct (py_eq_int _ 2); reflexivity.
    + intros mode.
      destruct (String.eqb mode "import"); destruct (String.eqb mode "directquery");
        destruct (String.eqb mode "directlake"); destruct (py_eq_int _ 1);
        destruct (py_eq_int _ 2); destruct (truthy dl); reflexivity.
  - split.
    + destruct (py_eq_int _ 1); [reflexivity|].
      destruct (py_eq_int _ 2); reflexivity.
    + intros mode.
      destruct (String.eqb mode "import"); destruct (String.eqb mode "directquery");
        destruct (String.eqb mode "directlake"); destruct (py_eq_int _ 1);
        destruct (py_eq_int _ 2); reflexivity.
Qed.

(** X11. The storage label and the storage filter read a record alike.
    The label is one of four texts; it is [DirectLake] exactly when the
    [directlake] filter matches; a record labelled [Import] or
    [DirectQuery] matches the filter of that name; a record labelled
    [Unknown] matches no mode; and the label fails on exactly the records
    the filter fails on.  The converse for [import] does not hold: a
    record with the direct-lake flag and storage code 1 is labelled
    [DirectLake] and still matches the [import] filter. *)
Theorem storage_label_and_filter :
  forall item,
    (forall label, _get_storage_mode item = Ok label ->
       (label = "DirectLake" \/ label = "Import"
        \/ label = "DirectQuery" \/ label = "Unknown")
       /\ (label = "DirectLake" <-> matches_storage "directlake" item = Ok true)
       /\ (label = "Import" -> matches_storage "import" item = Ok true)
       /\ (label = "DirectQuery" -> matches_storage "directquery" item = Ok true)
       /\ (label = "Unknown" -> forall mode, matches_storage mode item = Ok false))
    /\ (forall e mode, _get_storage_mode item = Raise e <->
                       matches_storage mode item = Raise e)
    /\ _get_storage_mode
         (JDict [("artifact", JDict [("directLakeMode", JBool true);
                                     ("storageMode", JInt 1)])]) = Ok "DirectLake"
    /\ matches_storage "import"
         (JDict [("artifact", JDict [("directLakeMode", JBool true);
                                     ("storageMode", JInt 1)])]) = Ok true.
Proof.
  intros item. split; [|split; [|split; reflexivity]].
  - intros label H.
    destruct (storage_cases item) as [(e & E & _)|(sm & dl & E & M)];
      [congruence|].
    rewrite E in H. rewrite !M. simpl.
    destruct (truthy dl); destruct (py_eq_int sm 1); destruct (py_eq_int sm 2);
      inversion H; subst; simpl;
      (split; [auto 6|]);
      (split; [split; intros F; first [reflexivity | discriminate F]|]);
      repeat split; intros F; try discriminate F; try reflexivity;
      intros mode; rewrite M;
      destruct (String.eqb mode "import"); destruct (String.eqb mode "directquery");
      destruct (String.eqb mode "directlake"); reflexivity.
  - intros e mode.
    destruct (storage_cases item) as [(e' & E & M)|(sm & dl & E & M)];
      rewrite E, M; split; intros H; congruence.
Qed.

(** ** The refresh instant *)

(** X12. The refresh instant is derived in the same way wherever it is
    used: the filter's local function agrees with
    [_get_item_refresh_datetime] on every record, the formatter's
    [_get_refresh_time] is its ISO rendering, and the sort key is the
    text it is parsed from. *)
Theorem refresh_derivation_consistent :
  forall utcoffset item,
    get_refresh_datetime utcoffset item
    = _get_item_refresh_datetime utcoffset item
    /\ _get_refresh_time utcoffset item
       = (dt <- _get_item_refresh_datetime utcoffset item ;; Ok (iso_or_null dt))
    /\ (forall key, key_last_refreshed item = Ok key ->
          exists source,
            _get_item_refresh_time item = Ok source
            /\ key = (if truthy source then source else JStr "")
            /\ _get_item_refresh_datetime utcoffset item
               = _parse_odata_date utcoffset source).
Proof.
  intros tz item.
  split; [|split];
    [ unfold get_refresh_datetime, _get_item_refresh_datetime,
        _get_item_refresh_time
    | unfold _get_refresh_time, _get_item_refresh_datetime,
        _get_item_refresh_time
    | ].
  - destruct (py_get item "lastRefreshTime" JNull) as [v|e]; simpl; [|reflexivity].
    destruct (truthy v) eqn:T; simpl; [reflexivity|].
    destruct (py_get item "artifact" (JDict [])) as [a|e]; simpl; [|reflexivity].
    destruct (py_get a "LastRefreshTime" JNull) as [u|e]; simpl; [|reflexivity].
    destruct (truthy u) eqn:Tu; simpl.
    + rewrite Tu. reflexivity.
    + destruct (py_get a "lastRefreshTime" JNull) as [w|e]; simpl; [|reflexivity].
      destruct (truthy w) eqn:Tw; simpl; [reflexivity|].
      destruct (py_get a "lastUpdatedDate" JNull) as [x|e]; simpl; [|reflexivity].
      destruct (truthy x); reflexivity.
  - destruct (py_get item "lastRefreshTime" JNull) as [v|e]; simpl; [|reflexivity].
    destruct (truthy v) eqn:T; simpl; [reflexivity|].
    destruct (py_get item "artifact" (JDict [])) as [a|e]; simpl; [|reflexivity].
    destruct (py_get a "LastRefreshTime" JNull) as [u|e]; simpl; [|reflexivity].
    destruct (truthy u) eqn:Tu; simpl.
    + rewrite Tu. reflexivity.
    + destruct (py_get a "lastRefreshTime" JNull) as [w|e]; simpl; [|reflexivity].
      destruct (truthy w) eqn:Tw; simpl; [reflexivity|].
      destruct (py_get a "lastUpdatedDate" JNull) as [x|e]; simpl; [|reflexivity].
      destruct (truthy x); reflexivity.
  - intros key H. unfold key_last_refreshed in H. bind_inv H.
    inversion H; subst.
    exists a. split; [exact Ha|]. split; [reflexivity|].
    unfold _get_item_refresh_datetime. rewrite Ha. reflexivity.
Qed.

(** ** Temporal codec: what it raises *)

(** X13. [_parse_odata_date] raises in two cases only: [OverflowError]
    on a bracketed text whose value is an integer, and [AttributeError]
    on a truthy value that is not a text; in particular nothing is
    raised on a text that is not bracketed, nor on a falsy value. *)
Theorem _parse_odata_date_raises :
  forall utcoffset v e,
    _parse_odata_date utcoffset v = Raise e ->
    (e = OverflowError
     /\ exists s ms, v = JStr s
          /\ startswith s "/Date(" = true /\ endswith s ")/" = true
          /\ py_int (slice_mid 6 2 s) = Ok ms
          /\ fromtimestamp_ms utcoffset ms = Raise OverflowError)
    \/ (e = AttributeError /\ truthy v = true /\ forall s, v <> JStr s).
Proof.
  intros tz v e H.
  destruct v as [|b|n|s|l|d].
  - unfold _parse_odata_date in H. simpl in H. discriminate H.
  - right. unfold _parse_odata_date in H. simpl in H.
    destruct b; simpl in H; inversion H; subst.
    repeat split. intros s' F; discriminate F.
  - right. unfold _parse_odata_date in H. simpl in H.
    destruct (n =? 0) eqn:N; simpl in H; inversion H; subst.
    repeat split; [simpl; rewrite N; reflexivity | intros s' F; discriminate F].
  - left. pose proof (_parse_odata_date_str_raises _ _ _ H) as ->.
    split; [reflexivity|]. unfold _parse_odata_date in H.
    destruct (negb (truthy (JStr s))); [discriminate H|].
    destruct (startswith s "/Date(") eqn:S1; simpl in H.
    + destruct (endswith s ")/") eqn:S2; simpl in H.
      * destruct (py_int (slice_mid 6 2 s)) as [ms|e1] eqn:E1; simpl in H.
        -- destruct (fromtimestamp_ms tz ms) as [dt|e2] eqn:E2; simpl in H;
             [discriminate H|].
           destruct e2; simpl in H; try discriminate H.
           exists s, ms. repeat split; assumption.
        -- rewrite (py_int_raises _ _ E1) in H. discriminate H.
      * destruct (strptime_ymd (slice_to 10 s)) as [dt|e1] eqn:E1; simpl in H;
          [discriminate H|].
        rewrite (strptime_ymd_raises _ _ E1) in H. discriminate H.
    + destruct (strptime_ymd (slice_to 10 s)) as [dt|e1] eqn:E1; simpl in H;
        [discriminate H|].
      rewrite (strptime_ymd_raises _ _ E1) in H. discriminate H.
  - right. unfold _parse_odata_date in H. simpl in H.
    destruct l; simpl in H; inversion H; subst.
    repeat split. intros s' F; discriminate F.
  - right. unfold _parse_odata_date in H. simpl in H.
    destruct d; simpl in H; inversion H; subst.
    repeat split. intros s' F; discriminate F.
Qed.

(** ** Sorter: sorting twice, and keys that cannot be ordered *)

Lemma sort_keyed_of_sorted (l : list (json * json)) :
  StronglySorted le_key l -> sort_keyed l = Ok l.
Proof.
  induction 1 as [|x t Hs IH Hall]; simpl; [reflexivity|].
  rewrite IH. simpl. destruct t as [|y t']; [reflexivity|].
  simpl. inversion Hall as [|y' t'' Hy _]; subst.
  unfold le_key in Hy. rewrite Hy. reflexivity.
Qed.

Lemma mapM_keyed (key : json -> res json) (r : list (json * json)) :
  Forall (keyed_by key) r -> mapM key (map snd r) = Ok (map fst r).
Proof.
  induction 1 as [|p t Hp Ht IH]; simpl; [reflexivity|].
  unfold keyed_by in Hp. rewrite Hp, IH. reflexivity.
Qed.

Lemma combine_fst_snd {A B : Type} (r : list (A * B)) :
  combine (map fst r) (map snd r) = r.
Proof.
  induction r as [|[a b] t IH]; simpl; [reflexivity|]. rewrite IH. reflexivity.
Qed.

Lemma sorted_of_keyed (key : json -> res json) (reverse : bool)
  (r : list (json * json)) :
  Forall (keyed_by key) r ->
  StronglySorted le_key (if reverse then rev r else r) ->
  sorted (map snd r) key reverse = Ok (map snd r).
Proof.
  intros F S. unfold sorted. rewrite (mapM_keyed key r F). simpl.
  rewrite combine_fst_snd. destruct reverse.
  - rewrite (sort_keyed_of_sorted _ S). simpl. rewrite rev_involutive. reflexivity.
  - rewrite (sort_keyed_of_sorted _ S). reflexivity.
Qed.

(** X14. Sorting a list that [sort_items] has returned, by the same
    field and in the same direction, returns it unchanged. *)
Theorem sort_items_idempotent :
  forall items sort_by sort_order out,
    sort_items items sort_by sort_order = Ok out ->
    sort_items out sort_by sort_order = Ok out.
Proof.
  intros items sort_by sort_order out. unfold sort_items.
  destruct (sort_key sort_by) as [key|]; [|intros H; reflexivity].
  set (reverse := negb (String.eqb (lower sort_order) "asc")).
  unfold sorted at 1. intros H. bind_inv H. bind_inv H.
  inversion H; subst; clear H.
  destruct (mapM_combine _ _ _ Ha) as [_ F].
  destruct reverse.
  - bind_inv Ha0. inversion Ha0; subst; clear Ha0.
    pose proof (sort_keyed_Permutation _ _ Ha1) as P.
    assert (Fr : Forall (keyed_by key) (rev a1)).
    { eapply Permutation_Forall; [apply Permutation_rev|].
      eapply Permutation_Forall; [exact P|].
      eapply Permutation_Forall; [apply Permutation_rev|]. exact F. }
    apply sorted_of_keyed; [exact Fr|].
    rewrite rev_involutive. eapply sort_keyed_sorted; eassumption.
  - pose proof (sort_keyed_Permutation _ _ Ha0) as P.
    apply sorted_of_keyed.
    + eapply Permutation_Forall; [exact P | exact F].
    + eapply sort_keyed_sorted; eassumption.
Qed.

Lemma StronglySorted_related {A : Type} (R : A -> A -> Prop) (l : list A) (x : A) :
  StronglySorted R l -> In x l -> (2 <= List.length l)%nat ->
  exists y, R x y \/ R y x.
Proof.
  induction 1 as [|a t Hs IH Hall]; simpl; intros Hin Hlen; [destruct Hin|].
  rewrite Forall_forall in Hall. destruct Hin as [->|Hin].
  - destruct t as [|y t']; [simpl in Hlen; lia|].
    exists y. left. apply Hall. left; reflexivity.
  - exists a. right. apply Hall. exact Hin.
Qed.

Lemma py_lt_JNull (a : json) (r : bool) :
  py_lt a JNull <> Ok r /\ py_lt JNull a <> Ok r.
Proof.
  split; intros H; destruct (py_lt_Ok_inv _ _ _ H) as
    [(s & t & E1 & E2 & _)|(m & n & E1 & E2 & _)]; discriminate.
Qed.

(** X15. Sorting by last visit or by last modification fails on every
    list of two or more records in which one record carries a null in
    that field: no list is returned. *)
Theorem sort_items_null_key :
  forall items sort_by field sort_order d,
    In (sort_by, field)
       [("last-visited", "lastVisitedTimeUTC"); ("last-modified", "modifiedDate")] ->
    (2 <= List.length items)%nat ->
    In (JDict d) items ->
    lookup field d = Some JNull ->
    exists e, sort_items items sort_by sort_order = Raise e.
Proof.
  intros items sort_by field sort_order d Hf Hlen Hin Hnull.
  destruct (sort_items items sort_by sort_order) as [out|e] eqn:H;
    [exfalso | exists e; reflexivity].
  assert (K : exists key, sort_key sort_by = Some key
                          /\ key (JDict d) = Ok JNull).
  { destruct Hf as [E|[E|[]]]; inversion E; subst; eexists;
      (split; [reflexivity|]);
      unfold key_last_visited, key_last_modified; simpl; rewrite Hnull;
      reflexivity. }
  destruct K as (key & Hk & Hd).
  unfold sort_items in H. rewrite Hk in H.
  apply sorted_spec in H. destruct H as (P & _ & N).
  set (l := if negb (String.eqb (lower sort_order) "asc") then rev out else out) in *.
  assert (Pl : Permutation items l).
  { subst l. destruct (negb _); [|exact P].
    eapply perm_trans; [exact P | apply Permutation_rev]. }
  assert (Il : In (JDict d) l) by (eapply Permutation_in; eassumption).
  assert (Ll : (2 <= List.length l)%nat)
    by (rewrite <- (Permutation_length Pl); exact Hlen).
  destruct (StronglySorted_related _ _ _ N Il Ll) as [y [R|R]];
    destruct R as (ka & kb & Ea & Eb & Hlt).
  - rewrite Hd in Ea. inversion Ea; subst ka.
    exact (proj1 (py_lt_JNull kb false) Hlt).
  - rewrite Hd in Eb. inversion Eb; subst kb.
    exact (proj2 (py_lt_JNull ka false) Hlt).
Qed.

(** ** Formatter: the width of the table *)

Lemma length_append (a b : string) :
  String.length (a ++ b) = (String.length a + String.length b)%nat.
Proof. induction a as [|c t IH]; simpl; [reflexivity | rewrite IH; reflexivity]. Qed.

Lemma length_repeat_char (c : ascii) (n : nat) :
  String.length (repeat_string (String c EmptyString) n) = n.
Proof. induction n as [|k IH]; simpl; [reflexivity | rewrite IH; reflexivity]. Qed.

Lemma length_slice_to (n : nat) (s : string) :
  (String.length (slice_to n s) <= n)%nat.
Proof.
  unfold slice_to. revert s. induction n as [|k IH]; intros [|c t]; simpl;
    try lia. specialize (IH t). lia.
Qed.

Lemma length_ljust (n : nat) (s : string) :
  (String.length s <= n)%nat -> String.length (ljust n s) = n.
Proof.
  intros H. unfold ljust. rewrite length_append.
  change " " with (String " "%char EmptyString).
  rewrite length_repeat_char. lia.
Qed.

Lemma py_format_left_sliced (width n : nat) (v w : json) (s : string) :
  py_slice_to n v = Ok w -> py_format_left width w = Ok s ->
  (n <= width)%nat -> String.length s = width.
Proof.
  intros Hs Hf Hle. destruct v; simpl in Hs; try discriminate Hs;
    inversion Hs; subst; simpl in Hf; try discriminate Hf.
  inversion Hf; subst. apply length_ljust.
  pose proof (length_slice_to n s0). lia.
Qed.

(** X16. Every row of the table is 92 characters wide, the width of the
    header and of the rule under it, whatever the lengths of the name,
    workspace, date and owner of the record. *)
Theorem table_row_width :
  (forall item row, table_row item = Ok row -> String.length row = 92%nat)
  /\ forall utcoffset items text,
         items <> [] ->
         format_output utcoffset items "table" = Ok text ->
         exists rows,
           mapM table_row items = Ok rows
           /\ Forall (fun r => String.length r = 92%nat) rows
           /\ text = String.concat nl
                       ((ljust 35 "Name" ++ " " ++ ljust 22 "Workspace" ++ " "
                         ++ ljust 12 "Last Visited" ++ " " ++ ljust 20 "Owner")
                        :: repeat_string "-" 92 :: rows)
           /\ String.length (ljust 35 "Name" ++ " " ++ ljust 22 "Workspace" ++ " "
                             ++ ljust 12 "Last Visited" ++ " " ++ ljust 20 "Owner")
              = 92%nat
           /\ String.length (repeat_string "-" 92) = 92%nat.
Proof.
  assert (W : forall item row, table_row item = Ok row ->
                               String.length row = 92%nat).
  { intros item row H. unfold table_row in H.
    bind_inv H. bind_inv H. bind_inv H. bind_inv H. bind_inv H.
    bind_inv H. bind_inv H. bind_inv H. bind_inv H. bind_inv H. bind_inv H.
    bind_inv H. inversion H; subst; clear H.
    assert (L1 : String.length a8 = 35%nat)
      by (eapply py_format_left_sliced; [| eassumption |]; [eassumption | lia]).
    assert (L2 : String.length a9 = 22%nat)
      by (eapply py_format_left_sliced; [| eassumption |]; [eassumption | lia]).
    assert (L3 : String.length a10 = 12%nat).
    { destruct (truthy a3).
      - bind_inv Ha4.
        eapply py_format_left_sliced; [| eassumption |]; [eassumption | lia].
      - inversion Ha4; subst. simpl in Ha10. inversion Ha10; subst. reflexivity. }
    repeat first [rewrite length_append | progress cbn [String.length]].
    rewrite L1, L2, L3. rewrite length_ljust.
    - reflexivity.
    - eapply Nat.le_trans; [apply length_slice_to | lia]. }
  split; [exact W|].
  intros tz items text Hne Hf. unfold format_output in Hf. simpl in Hf.
  destruct items as [|x t]; [contradiction|].
  bind_inv Hf. inversion Hf; subst; clear Hf.
  exists a. split; [exact Ha|]. split.
  - clear - Ha W. revert a Ha. generalize (x :: t) as l.
    induction l as [|y l IH]; simpl; intros a Ha.
    + inversion Ha; subst. constructor.
    + bind_inv Ha. bind_inv Ha. inversion Ha; subst.
      constructor; [eapply W; eassumption | apply IH; assumption].
  - split; [reflexivity|]. split; reflexivity.
Qed.

(** ** Authentication and main *)

(** X17. [get_fabric_token] returns a usable token only when the Azure
    CLI ended with return code 0 and printed a JSON object, and the token
    is the value that object holds under [accessToken]; a non-zero return
    code, a timeout, a missing executable, any other failure and an
    output that is not a JSON object all give [None]. *)
Theorem get_fabric_token_source :
  forall az,
    (truthy (get_fabric_token az) = true ->
     exists data,
       az = Completed 0 (Some (JDict data))
       /\ lookup "accessToken" data = Some (get_fabric_token az))
    /\ (forall returncode decoded,
          az = Completed returncode decoded ->
          returncode <> 0 \/ decoded = None
          \/ (exists v, decoded = Some v /\ forall data, v <> JDict data) ->
          get_fabric_token az = JNull)
    /\ (az = TimeoutExpired \/ az = FileNotFoundError \/ az = OtherError ->
        get_fabric_token az = JNull).
Proof.
  intros az. split; [|split].
  - destruct az as [returncode decoded| | |]; simpl; try discriminate.
    destruct (Z.eqb_spec returncode 0) as [->|_]; [|discriminate].
    destruct decoded as [[| | | | |data]|]; simpl; try discriminate.
    destruct (lookup "accessToken" data) as [v|] eqn:E; [|discriminate].
    intros _. exists data. split; [reflexivity | exact E].
  - intros returncode decoded -> H. simpl.
    destruct (Z.eqb_spec returncode 0) as [->|_]; [|reflexivity].
    destruct H as [H|[->|(v & -> & H)]]; [contradiction | reflexivity |].
    destruct v; try reflexivity. exfalso. eapply H. reflexivity.
  - intros [->|[->| ->]]; reflexivity.
Qed.

(** X18. Once [parser.parse_args()] has returned a namespace, the two
    listing modes and a missing item type end before any token is
    acquired and any request is sent: a listing ends with status 0
    whatever the other fields of the namespace hold, the type listing
    taking precedence, and a search without an item type ends with
    status 2 and prints nothing.  (A command line that [parse_args]
    refuses never reaches this code.) *)
Theorem main_without_search :
  forall az post utcoffset args,
    (Args.list_types args = true ->
     main az post utcoffset args = ([], list_types_output, Exit 0))
    /\ (Args.list_types args = false -> Args.list_regions args = true ->
        main az post utcoffset args = ([], list_regions_output, Exit 0))
    /\ (Args.list_types args = false -> Args.list_regions args = false ->
        given (Args.item_type args) = None ->
        main az post utcoffset args = ([], [], Exit 2)).
Proof.
  intros az post tz args. unfold main. repeat split.
  - intros ->. reflexivity.
  - intros -> ->. reflexivity.
  - intros -> -> ->. reflexivity.
Qed.

Lemma main_search az post utcoffset args item_type :
  Args.list_types args = false -> Args.list_regions args = false ->
  given (Args.item_type args) = Some item_type ->
  truthy (get_fabric_token az) = true ->
  exists result,
    snd (search_datahub post (py_str (get_fabric_token az)) [item_type]
           (Args.region args) (Args.workspace_id args) (Args.page_size args) 1)
    = Ok (JDict result)
    /\ ((lookup "success" result = Some (JBool false)
         /\ main az post utcoffset args
            = (AcquireToken
                 :: map Post
                      (fst (search_datahub post (py_str (get_fabric_token az))
                              [item_type] (Args.region args)
                              (Args.workspace_id args) (Args.page_size args) 1)),
               [], Exit 1))
        \/ (exists items,
              lookup "success" result = Some (JBool true)
              /\ lookup "items" result = Some (JList items)
              /\ main az post utcoffset args
                 = (AcquireToken
                      :: map Post
                           (fst (search_datahub post
                                   (py_str (get_fabric_token az))
                                   [item_type] (Args.region args)
                                   (Args.workspace_id args)
                                   (Args.page_size args) 1)),
                    match render utcoffset args items with
                    | Ok text => [text]
                    | Raise _ => []
                    end,
                    match render utcoffset args items with
                    | Ok _ => Exit 0
                    | Raise e => Uncaught e
                    end))).
Proof.
  intros H1 H2 H3 H4. unfold main. rewrite H1, H2, H3, H4. cbn [negb].
  destruct (search_datahub_outcome post (py_str (get_fabric_token az))
              [item_type] (Args.region args) (Args.workspace_id args)
              (Args.page_size args) 1) as (result & E & S).
  exists result. split; [exact E|].
  destruct (search_datahub post (py_str (get_fabric_token az)) [item_type]
              (Args.region args) (Args.workspace_id args)
              (Args.page_size args) 1) as [requests outcome].
  cbn [fst snd] in *. subst outcome.
  destruct S as [[S (items & I)]|S].
  - right. exists items. rewrite S, I. cbn [truthy negb].
    split; [reflexivity|]. split; [reflexivity|].
    destruct (render utcoffset args items); reflexivity.
  - left. rewrite S. split; reflexivity.
Qed.

(** X19. A search that cannot be completed ends with status 1 and
    prints nothing.  Without a token nothing is sent; with a token and an
    unknown region the token has been acquired and still nothing is sent;
    with a known region exactly one request is sent, and a status other
    than 200, a timeout, another exception or a body that cannot be
    decoded ends with status 1. *)
Theorem main_search_failure :
  forall az post utcoffset args item_type,
    Args.list_types args = false -> Args.list_regions args = false ->
    given (Args.item_type args) = Some item_type ->
    (truthy (get_fabric_token az) = false ->
     main az post utcoffset args = ([AcquireToken], [], Exit 1))
    /\ (truthy (get_fabric_token az) = true ->
        assoc (Args.region args) REGIONS = None ->
        main az post utcoffset args = ([AcquireToken], [], Exit 1))
    /\ (truthy (get_fabric_token az) = true ->
        forall host, assoc (Args.region args) REGIONS = Some host ->
        exists req,
          fst (fst (main az post utcoffset args)) = [AcquireToken; Post req]
          /\ url req = "https://" ++ host ++ "/metadata/datahub/V2/artifacts"
          /\ ((forall text body, post req <> Responded 200 text (inr body)) ->
              main az post utcoffset args
              = ([AcquireToken; Post req], [], Exit 1))).
Proof.
  intros az post tz args item_type H1 H2 H3. split; [|split].
  - intros H4. unfold main. rewrite H1, H2, H3, H4. reflexivity.
  - intros H4 Hr. unfold main. rewrite H1, H2, H3, H4. cbn [negb].
    unfold search_datahub. rewrite Hr. reflexivity.
  - intros H4 host Hr.
    destruct (search_datahub_known_region post (py_str (get_fabric_token az))
                [item_type] (Args.region args) host (Args.workspace_id args)
                (Args.page_size args) 1 Hr) as (req & E & U & _).
    exists req.
    destruct (main_search az post tz args item_type H1 H2 H3 H4)
      as (result & R & [[S M]|(items & S & I & M)]).
    + rewrite M, E. cbn [fst snd map]. split; [reflexivity|].
      split; [exact U|]. intros _. reflexivity.
    + rewrite M, E. cbn [fst snd map]. split; [reflexivity|].
      split; [exact U|]. intros Hpost. exfalso.
      destruct (search_datahub_shape_success post
                  (py_str (get_fabric_token az)) [item_type]
                  (Args.region args) (Args.workspace_id args)
                  (Args.page_size args) 1 req result E R S)
        as (text & body & P).
      exact (Hpost text body P).
Qed.

Lemma apply_limit_nil (limit : option Z) : apply_limit limit [] = [].
Proof.
  destruct limit as [n|]; [|reflexivity]. unfold apply_limit, list_slice_to.
  destruct (n =? 0); [reflexivity|].
  destruct (0 <=? n); apply firstn_nil.
Qed.

Lemma sort_items_nil (sort_by sort_order : string) :
  sort_items [] sort_by sort_order = Ok [].
Proof.
  unfold sort_items. destruct (sort_key sort_by); [|reflexivity].
  unfold sorted. simpl. destruct (negb _); reflexivity.
Qed.

Lemma render_nil (utcoffset : Z -> Z) (args : Args.t) :
  render utcoffset args []
  = Ok (if String.eqb (Args.output args) "json" then "[]"
        else "No items found.").
Proof.
  unfold render. rewrite apply_filters_nil. cbn [bind].
  destruct (given (Args.sort args)) as [field|].
  - rewrite sort_items_nil. cbn [bind]. rewrite apply_limit_nil.
    unfold format_output. destruct (String.eqb (Args.output args) "json");
      reflexivity.
  - cbn [bind]. rewrite apply_limit_nil.
    unfold format_output. destruct (String.eqb (Args.output args) "json");
      reflexivity.
Qed.

(** X20. A search that completes with no items ends with status 0: when
    the service answers 200 with an empty list, or with a body that is not
    a list, the script prints [No items found.] (or [[]] in the json
    mode) whatever filters, sort field and limit were asked for. *)
Theorem main_zero_results :
  forall az post utcoffset args item_type host req text body,
    Args.list_types args = false -> Args.list_regions args = false ->
    given (Args.item_type args) = Some item_type ->
    truthy (get_fabric_token az) = true ->
    assoc (Args.region args) REGIONS = Some host ->
    fst (fst (main az post utcoffset args)) = [AcquireToken; Post req] ->
    post req = Responded 200 text (inr body) ->
    body = JList [] \/ (forall l, body <> JList l) ->
    main az post utcoffset args
    = ([AcquireToken; Post req],
       [if String.eqb (Args.output args) "json" then "[]"
        else "No items found."],
       Exit 0).
Proof.
  intros az post tz args item_type host req text body H1 H2 H3 H4 Hr Hev P Hb.
  destruct (search_datahub_known_region post (py_str (get_fabric_token az))
              [item_type] (Args.region args) host (Args.workspace_id args)
              (Args.page_size args) 1 Hr) as (req' & E & _).
  destruct (main_search az post tz args item_type H1 H2 H3 H4)
    as (result & R & M).
  assert (Ereq : req' = req).
  { destruct M as [[_ M]|(items & _ & _ & M)];
      rewrite M, E in Hev; cbn [fst snd map] in Hev; congruence. }
  subst req'.
  assert (F : fst (search_datahub post (py_str (get_fabric_token az))
                     [item_type] (Args.region args) (Args.workspace_id args)
                     (Args.page_size args) 1) = [req])
    by (rewrite E; reflexivity).
  pose proof (search_datahub_success post _ _ _ host _ _ _ req text body
                Hr F P) as S.
  rewrite S in R. inversion R; subst result; clear R.
  destruct M as [[M _]|(items & _ & I & M)]; [discriminate M|].
  assert (items = []).
  { simpl in I. destruct Hb as [->|Hb]; [congruence|].
    destruct body; try congruence; exfalso; eapply Hb; reflexivity. }
  subst items. rewrite M, F, render_nil. reflexivity.
Qed.

(** X21. The limit keeps a prefix of the list.  No limit and a limit of 0
    keep every record; a positive limit keeps the first records up to
    that number; a negative limit drops that many records from the end. *)
Theorem apply_limit_prefix :
  forall limit items,
    (exists rest, items = (apply_limit limit items ++ rest)%list)
    /\ (limit = None \/ limit = Some 0 -> apply_limit limit items = items)
    /\ (forall n, limit = Some n -> 0 < n ->
          apply_limit limit items = firstn (Z.to_nat n) items
          /\ Z.of_nat (List.length (apply_limit limit items))
             = Z.min n (Z.of_nat (List.length items)))
    /\ (forall n, limit = Some n -> n < 0 ->
          Z.of_nat (List.length (apply_limit limit items))
          = Z.max 0 (Z.of_nat (List.length items) + n)).
Proof.
  intros limit items. split; [|split; [|split]].
  - destruct limit as [n|]; simpl.
    + unfold list_slice_to. destruct (n =? 0).
      * exists []. symmetry. apply app_nil_r.
      * destruct (0 <=? n); eexists; symmetry; apply firstn_skipn.
    + exists []. symmetry. apply app_nil_r.
  - intros [->| ->]; reflexivity.
  - intros n -> Hn. simpl. unfold list_slice_to.
    destruct (Z.eqb_spec n 0) as [->|_]; [lia|].
    destruct (Z.leb_spec 0 n) as [_|L]; [|lia].
    split; [reflexivity|]. rewrite length_firstn. lia.
  - intros n -> Hn. simpl. unfold list_slice_to.
    destruct (Z.eqb_spec n 0) as [->|_]; [lia|].
    destruct (Z.leb_spec 0 n) as [L|_]; [lia|].
    rewrite length_firstn. lia.
Qed.

(** ** Formatter: ISO dates in the JSON output *)

Lemma year_of_day_correct (y doy : Z) :
  1 <= y -> 0 <= doy < (if is_leap y then 366 else 365) ->
  year_of_day (days_before_year y + doy) = y.
Proof.
  intros Hy Hd. unfold year_of_day, days_before_year, is_leap in *.
  destruct (y mod 4 =? 0) eqn:E4; destruct (y mod 100 =? 0) eqn:E100;
    destruct (y mod 400 =? 0) eqn:E400; simpl in Hd;
    rewrite ?Z.eqb_eq, ?Z.eqb_neq in *;
    Z.to_euclidean_division_equations; lia.
Qed.

Lemma month_cases (m : Z) :
  1 <= m <= 12 ->
  m = 1 \/ m = 2 \/ m = 3 \/ m = 4 \/ m = 5 \/ m = 6
  \/ m = 7 \/ m = 8 \/ m = 9 \/ m = 10 \/ m = 11 \/ m = 12.
Proof. lia. Qed.

Ltac each_month H :=
  destruct (month_cases _ H) as
    [->|[->|[->|[->|[->|[->|[->|[->|[->|[->|[->| ->]]]]]]]]]]].

Ltac month_table :=
  unfold days_before_month in *;
  repeat match goal with
         | |- context [Z.to_nat ?e] =>
             let v := eval vm_compute in (Z.to_nat e) in
             change (Z.to_nat e) with v
         end;
  cbn [days_before_month_aux] in *;
  unfold days_in_month in *;
  cbn [Z.of_nat Pos.of_succ_nat Pos.succ Z.eqb Pos.eqb orb] in *.

Lemma day_of_year_bound (y m d : Z) :
  1 <= m <= 12 -> 1 <= d <= days_in_month y m ->
  0 <= days_before_month y m + (d - 1) < (if is_leap y then 366 else 365).
Proof.
  intros Hm Hd. each_month Hm; month_table; destruct (is_leap y); lia.
Qed.

Lemma month_of_correct (y m d : Z) :
  1 <= m <= 12 -> 1 <= d <= days_in_month y m ->
  month_of y (days_before_month y m + (d - 1)) 1 11 = (m, d - 1).
Proof.
  intros Hm Hd. each_month Hm; unfold month_of; month_table;
    destruct (is_leap y);
    repeat match goal with
           | |- context [?a <? ?b] => destruct (Z.ltb_spec a b); try lia
           end;
    f_equal; lia.
Qed.

Lemma datetime_ymd_Ok (y m d : Z) (dt : datetime) :
  datetime_ymd y m d = Ok dt ->
  1 <= y <= 9999 /\ 1 <= m <= 12 /\ 1 <= d <= days_in_month y m
  /\ dt = (days_before_year y + days_before_month y m + (d - 1)) * US_PER_DAY.
Proof.
  unfold datetime_ymd.
  destruct (1 <=? y) eqn:A; destruct (y <=? 9999) eqn:B;
    destruct (1 <=? m) eqn:C; destruct (m <=? 12) eqn:D;
    destruct (1 <=? d) eqn:E; destruct (d <=? days_in_month y m) eqn:F;
    simpl; intros H; inversion H.
  rewrite ?Z.leb_le in *. repeat split; lia.
Qed.

Lemma strptime_ymd_Ok (s : string) (dt : datetime) :
  strptime_ymd s = Ok dt -> exists y m d, datetime_ymd y m d = Ok dt.
Proof.
  unfold strptime_ymd.
  repeat match goal with
         | |- context [match ?x with _ => _ end] =>
             lazymatch x with
             | datetime_ymd _ _ _ => fail
             | _ => destruct x
             end
         end; intros H; try discriminate H;
    eexists; eexists; eexists; exact H.
Qed.

Lemma isoformat_midnight (y m d : Z) (dt : datetime) :
  datetime_ymd y m d = Ok dt ->
  isoformat dt = pad 4 y ++ "-" ++ pad 2 m ++ "-" ++ pad 2 d ++ "T00:00:00".
Proof.
  intros H. apply datetime_ymd_Ok in H. destruct H as (Hy & Hm & Hd & ->).
  unfold isoformat.
  assert (U : 0 < US_PER_DAY) by (vm_compute; reflexivity).
  rewrite Z.div_mul by lia. rewrite Z.mod_mul by lia.
  rewrite <- Z.add_assoc.
  rewrite (year_of_day_correct y _ (proj1 Hy) (day_of_year_bound y m d Hm Hd)).
  replace (days_before_year y + (days_before_month y m + (d - 1))
           - days_before_year y)
    with (days_before_month y m + (d - 1)) by lia.
  rewrite (month_of_correct y m d Hm Hd).
  replace (d - 1 + 1) with d by lia.
  reflexivity.
Qed.

(** X24. A modification time given in the ISO encoding is reported in the
    JSON output as its calendar date at midnight: the year, month and day
    that the first ten characters denote, zero-padded, followed by
    [T00:00:00]; the time of day in the record is not kept.  The same
    holds for a top-level refresh time. *)
Theorem iso_times_reported_at_midnight :
  forall utcoffset fields s dt,
    (startswith s "/Date(" && endswith s ")/") = false ->
    strptime_ymd (slice_to 10 s) = Ok dt ->
    exists y m d,
      datetime_ymd y m d = Ok dt
      /\ (lookup "modifiedDate" fields = Some (JStr s) ->
          _get_modified_time utcoffset (JDict fields)
          = Ok (JStr (pad 4 y ++ "-" ++ pad 2 m ++ "-" ++ pad 2 d
                      ++ "T00:00:00")))
      /\ (lookup "lastRefreshTime" fields = Some (JStr s) ->
          _get_refresh_time utcoffset (JDict fields)
          = Ok (JStr (pad 4 y ++ "-" ++ pad 2 m ++ "-" ++ pad 2 d
                      ++ "T00:00:00"))).
Proof.
  intros tz fields s dt Hb Hp.
  destruct (strptime_ymd_Ok _ _ Hp) as (y & m & d & Hd).
  exists y, m, d. split; [exact Hd|].
  assert (T : truthy (JStr s) = true).
  { destruct s; [discriminate Hp | reflexivity]. }
  assert (P : _parse_odata_date tz (JStr s) = Ok (Some dt)).
  { unfold _parse_odata_date. rewrite T, Hb, Hp. reflexivity. }
  split; intros L.
  - unfold _get_modified_time. simpl. rewrite L, T, P. simpl.
    rewrite (isoformat_midnight _ _ _ _ Hd). reflexivity.
  - unfold _get_refresh_time. simpl. rewrite L, T, P. simpl.
    rewrite (isoformat_midnight _ _ _ _ Hd). reflexivity.
Qed.

Lemma iso_times_reported_at_midnight_witness :
  exists y m d,
    datetime_ymd y m d = Ok 63852796800000000
    /\ (lookup "modifiedDate" [("modifiedDate", JStr "2024-06-01T17:45:00")]
        = Some (JStr "2024-06-01T17:45:00") ->
        _get_modified_time utc
          (JDict [("modifiedDate", JStr "2024-06-01T17:45:00")])
        = Ok (JStr (pad 4 y ++ "-" ++ pad 2 m ++ "-" ++ pad 2 d
                    ++ "T00:00:00")))
    /\ (lookup "lastRefreshTime" [("modifiedDate", JStr "2024-06-01T17:45:00")]
        = Some (JStr "2024-06-01T17:45:00") ->
        _get_refresh_time utc
          (JDict [("modifiedDate", JStr "2024-06-01T17:45:00")])
        = Ok (JStr (pad 4 y ++ "-" ++ pad 2 m ++ "-" ++ pad 2 d
                    ++ "T00:00:00"))).
Proof.
  apply (iso_times_reported_at_midnight utc
           [("modifiedDate", JStr "2024-06-01T17:45:00")]
           "2024-06-01T17:45:00" 63852796800000000).
  - reflexivity.
  - reflexivity.
Defined.

(** ** Sorter and formatter: records they accept *)

Lemma insert_key_texts (x : json * json) (l : list (json * json)) :
  is_text (fst x) -> Forall (fun p => is_text (fst p)) l ->
  exists r, insert_key x l = Ok r /\ Forall (fun p => is_text (fst p)) r.
Proof.
  intros [s Hs] Hl. induction Hl as [|y t [u Hu] Ht IH]; simpl.
  - eexists. split; [reflexivity|]. repeat constructor. exists s. exact Hs.
  - rewrite Hu, Hs. simpl. destruct (String.ltb u s).
    + destruct IH as (r & -> & Hr). eexists. split; [reflexivity|].
      constructor; [exists u; exact Hu | exact Hr].
    + eexists. split; [reflexivity|].
      constructor; [exists s; exact Hs|].
      constructor; [exists u; exact Hu | exact Ht].
Qed.

Lemma sort_keyed_texts (l : list (json * json)) :
  Forall (fun p => is_text (fst p)) l ->
  exists r, sort_keyed l = Ok r /\ Forall (fun p => is_text (fst p)) r.
Proof.
  induction 1 as [|x t Hx Ht IH]; simpl.
  - eexists. split; [reflexivity | constructor].
  - destruct IH as (r & -> & Hr). simpl. apply insert_key_texts; assumption.
Qed.

Lemma combine_texts (keys items : list json) :
  Forall is_text keys ->
  Forall (fun p : json * json => is_text (fst p)) (combine keys items).
Proof.
  intros H. revert items. induction H as [|k t Hk Ht IH]; intros [|x items];
    simpl; constructor; auto.
Qed.

Lemma sorted_texts (items : list json) (key : json -> res json) (reverse : bool) :
  Forall (fun x => exists s, key x = Ok (JStr s)) items ->
  exists out, sorted items key reverse = Ok out.
Proof.
  intros H. unfold sorted.
  assert (K : exists keys, mapM key items = Ok keys /\ Forall is_text keys).
  { induction H as [|x t [s Hs] Ht IH]; simpl.
    - eexists. split; [reflexivity | constructor].
    - destruct IH as (keys & -> & Hk). rewrite Hs. simpl.
      eexists. split; [reflexivity|]. constructor; [exists s; reflexivity | exact Hk]. }
  destruct K as (keys & -> & Hk). simpl.
  pose proof (combine_texts keys items Hk) as C.
  destruct reverse.
  - destruct (sort_keyed_texts (rev (combine keys items))) as (r & -> & _).
    + apply Forall_rev. exact C.
    + simpl. eexists. reflexivity.
  - destruct (sort_keyed_texts (combine keys items) C) as (r & -> & _).
    simpl. eexists. reflexivity.
Qed.

(** X25. Sorting by name, workspace or owner returns a list, in either
    direction, whenever every record is a dict whose display name,
    workspace name and owner e-mail are each absent or a text. *)
Theorem sort_items_text_fields :
  forall items sort_by sort_order,
    Forall text_keys items ->
    In sort_by ["name"; "workspace"; "owner"] ->
    exists out, sort_items items sort_by sort_order = Ok out.
Proof.
  intros items sort_by sort_order H Hin. unfold sort_items.
  destruct Hin as [<-|[<-|[<-|[]]]]; simpl; apply sorted_texts;
    (eapply Forall_impl; [|exact H]);
    intros x (fields & -> & Hn & Hw & Ho).
  - unfold key_name. simpl.
    destruct Hn as [->|[s ->]]; simpl; eexists; reflexivity.
  - unfold key_workspace. simpl.
    destruct Hw as [->|[s ->]]; simpl; eexists; reflexivity.
  - unfold key_owner. simpl.
    destruct Ho as [->|(owner & -> & He)]; simpl.
    + eexists; reflexivity.
    + destruct He as [->|[s ->]]; simpl; eexists; reflexivity.
Qed.

Lemma sort_items_text_fields_witness :
  exists out,
    sort_items [never_visited "b"; JDict []; visited_on "A" "2024-01-01"]
      "name" "desc" = Ok out.
Proof.
  apply (sort_items_text_fields
           [never_visited "b"; JDict []; visited_on "A" "2024-01-01"]
           "name" "desc").
  - repeat constructor; eexists;
      (split; [reflexivity|]);
      (split; [first [left; reflexivity | right; eexists; reflexivity]|]);
      (split; [left; reflexivity | left; reflexivity]).
  - left. reflexivity.
Defined.

(** X26. The brief mode renders every list of JSON objects, one line
    per record in the order of the list, whatever the objects hold; a
    record that is not an object makes it fail with [AttributeError]. *)
Theorem format_output_brief :
  forall utcoffset items,
    (Forall is_dict items -> items <> [] ->
     exists lines,
       format_output utcoffset items "brief" = Ok (String.concat nl lines)
       /\ List.length lines = List.length items
       /\ mapM brief_line items = Ok lines)
    /\ (forall before x after,
          items = (before ++ x :: after)%list ->
          Forall is_dict before -> ~ is_dict x ->
          format_output utcoffset items "brief" = Raise AttributeError).
Proof.
  intros tz items.
  assert (D : forall l, Forall is_dict l ->
                exists lines, mapM brief_line l = Ok lines
                              /\ List.length lines = List.length l).
  { induction 1 as [|x t [fields ->] Ht IH]; simpl.
    - eexists. split; reflexivity.
    - destruct IH as (lines & -> & L). unfold brief_line. simpl.
      eexists. split; [reflexivity|]. simpl. rewrite L. reflexivity. }
  split.
  - intros H Hne. destruct (D items H) as (lines & M & L).
    exists lines. unfold format_output. simpl.
    destruct items as [|x t]; [contradiction|]. rewrite M. simpl.
    repeat split; assumption.
  - intros before x after -> Hb Hx. unfold format_output. simpl.
    assert (M : mapM brief_line (before ++ x :: after) = Raise AttributeError).
    { induction Hb as [|y t [fields ->] Ht IH]; simpl.
      - destruct x; try reflexivity. exfalso. apply Hx. eexists. reflexivity.
      - rewrite IH. reflexivity. }
    destruct (before ++ x :: after)%list as [|y t] eqn:E.
    + destruct before; discriminate E.
    + rewrite M. reflexivity.
Qed.

(** ** Main: what reaches the outside *)

(** X27. Whatever the arguments, the Azure CLI and the service do, the
    script sends at most one request and none before it has acquired a
    token; it never fails on a missing key of the search result; and it
    prints on the standard output exactly when it ends with status 0. *)
Theorem main_effects :
  forall az post utcoffset args,
    let '(events, printed, ending) := main az post utcoffset args in
    (events = [] \/ events = [AcquireToken]
     \/ exists req, events = [AcquireToken; Post req])
    /\ ending <> UncaughtKeyError
    /\ (ending = Exit 0 <-> printed <> []).
Proof.
  intros az post tz args.
  destruct (Args.list_types args) eqn:H1.
  { unfold main. rewrite H1. repeat split; try discriminate; auto. }
  destruct (Args.list_regions args) eqn:H2.
  { unfold main. rewrite H1, H2. repeat split; try discriminate; auto. }
  destruct (given (Args.item_type args)) as [item_type|] eqn:H3.
  2:{ unfold main. rewrite H1, H2, H3.
      repeat split; try discriminate; auto. intros F; contradiction. }
  destruct (truthy (get_fabric_token az)) eqn:H4.
  2:{ unfold main. rewrite H1, H2, H3, H4. simpl.
      repeat split; try discriminate; auto. intros F; contradiction. }
  assert (R : fst (search_datahub post (py_str (get_fabric_token az))
                     [item_type] (Args.region args) (Args.workspace_id args)
                     (Args.page_size args) 1) = []
              \/ exists req,
                  fst (search_datahub post (py_str (get_fabric_token az))
                         [item_type] (Args.region args)
                         (Args.workspace_id args) (Args.page_size args) 1)
                  = [req]).
  { destruct (assoc (Args.region args) REGIONS) as [host|] eqn:Hr.
    - destruct (search_datahub_known_region post
                  (py_str (get_fabric_token az)) [item_type]
                  (Args.region args) host (Args.workspace_id args)
                  (Args.page_size args) 1 Hr) as (req & E & _).
      right. exists req. rewrite E. reflexivity.
    - left. unfold search_datahub. rewrite Hr. reflexivity. }
  assert (Ev : forall l : list request,
             l = [] \/ (exists req, l = [req]) ->
             AcquireToken :: map Post l = []
             \/ AcquireToken :: map Post l = [AcquireToken]
             \/ exists req, AcquireToken :: map Post l = [AcquireToken; Post req]).
  { intros l [->|[req ->]]; [right; left; reflexivity|].
    right; right. exists req. reflexivity. }
  destruct (main_search az post tz args item_type H1 H2 H3 H4)
    as (result & _ & [[_ M]|(items & _ & _ & M)]); rewrite M.
  - split; [apply Ev; exact R|]. split; [discriminate|].
    split; [discriminate | intros F; contradiction].
  - split; [apply Ev; exact R|].
    destruct (render tz args items) as [text|e].
    + split; [discriminate|]. split; [discriminate | reflexivity].
    + split; [discriminate|]. split; [discriminate | intros F; contradiction].
Qed.

(** ** Instances of the further properties *)

Lemma search_datahub_page_size_capped_witness :
  exists req,
    In req (fst (search_datahub answers_empty "token" ["Model"] "uk-south"
                   None 5000 3))
    /\ exists fields sent,
         payload req = JDict fields
         /\ lookup "pageSize" fields = Some (JInt sent)
         /\ sent <= 1000
         /\ (5000 <= 1000 -> sent = 5000)
         /\ (1000 < 5000 -> sent = 1000)
         /\ lookup "pageNumber" fields = Some (JInt 3).
Proof.
  eexists. split.
  - vm_compute. left. reflexivity.
  - apply (search_datahub_page_size_capped answers_empty "token" ["Model"]
             "uk-south" None 5000 3).
    vm_compute. left. reflexivity.
Defined.

Lemma search_datahub_workspace_clause_witness :
  exists req,
    In req (fst (search_datahub answers_empty "token" ["Model"] "uk-south"
                   (Some "ws-1") 200 1))
    /\ exists fields clauses,
         payload req = JDict fields
         /\ lookup "filters" fields = Some (JList clauses)
         /\ ((Some "ws-1" = None \/ Some "ws-1" = Some "") -> clauses = [])
         /\ (forall w, Some "ws-1" = Some w -> w <> "" ->
               clauses = [JDict [("datahubFilterType", JStr "workspace");
                                 ("values", JList [JStr w])]]).
Proof.
  eexists. split.
  - vm_compute. left. reflexivity.
  - apply (search_datahub_workspace_clause answers_empty "token" ["Model"]
             "uk-south" (Some "ws-1") 200 1).
    vm_compute. left. reflexivity.
Defined.

Lemma apply_filters_no_filter_witness :
  apply_filters utc [JInt 3; never_visited "a"]
    (Some "") None None (Some "") None None None None None None (Some "")
  = Ok [JInt 3; never_visited "a"].
Proof.
  apply (apply_filters_no_filter utc [JInt 3; never_visited "a"]
           (Some "") None None (Some "") None None None None None None
           (Some "")); reflexivity.
Defined.

Lemma apply_filters_malformed_boundary_witness :
  apply_filters utc
    [visited_on "old" "2023-01-01T08:00:00"; never_visited "none"]
    (Some "o") None None (Some "01/06/2024") None None None None None None None
  = apply_filters utc
      [visited_on "old" "2023-01-01T08:00:00"; never_visited "none"]
      (Some "o") None None None None None None None None None None.
Proof.
  apply (proj1 (apply_filters_malformed_boundary utc
                  [visited_on "old" "2023-01-01T08:00:00"; never_visited "none"]
                  (Some "o") None None None None None None None None None None
                  "01/06/2024" ValueError eq_refl)).
Defined.

Lemma apply_filters_text_sound_witness :
  Forall (fun x => matches_name (lower "Sales") x = Ok true)
    [visited_with_mode "Sales" "2024-12-01T08:00:00" 1;
     never_visited "Sales old"].
Proof.
  apply (proj1 (apply_filters_text_sound utc
                  [visited_with_mode "Sales" "2024-12-01T08:00:00" 1;
                   visited_with_mode "Stock" "2023-01-01T08:00:00" 2;
                   never_visited "Sales old"]
                  (Some "Sales") None None None None None None None None
                  None None
                  [visited_with_mode "Sales" "2024-12-01T08:00:00" 1;
                   never_visited "Sales old"] eq_refl) "Sales").
  reflexivity.
Defined.

Lemma apply_filters_instant_sound_witness :
  Forall (fun x => exists d, get_refresh_datetime utc x = Ok (Some d)
                             /\ 63839664000000000 <= d)
    [refreshed_on "fresh" "/Date(1714550400000)/"].
Proof.
  apply (proj1 (apply_filters_instant_sound utc
                  [refreshed_on "fresh" "/Date(1714550400000)/";
                   refreshed_on "stale" "2023-05-01T00:00:00";
                   never_visited "none"]
                  None None None None None (Some "2024-01-01") None None None
                  None None
                  [refreshed_on "fresh" "/Date(1714550400000)/"] eq_refl)
           "2024-01-01" 63839664000000000).
  - reflexivity.
  - reflexivity.
Defined.

Lemma visit_filters_partition_witness :
  exists recent stale,
    visited_filter utc
      [visited_on "old" "2023-01-01T08:00:00";
       visited_on "new" "2024-12-01T08:00:00";
       never_visited "none"] "2024-06-01" = Ok recent
    /\ not_visited_filter utc
         [visited_on "old" "2023-01-01T08:00:00";
          visited_on "new" "2024-12-01T08:00:00";
          never_visited "none"] "2024-06-01" = Ok stale
    /\ forall x,
         In x [visited_on "old" "2023-01-01T08:00:00";
               visited_on "new" "2024-12-01T08:00:00";
               never_visited "none"] ->
         (has_visit x = true <-> In x recent \/ In x stale)
         /\ ~ (In x recent /\ In x stale).
Proof.
  apply (visit_filters_partition utc
           [visited_on "old" "2023-01-01T08:00:00";
            visited_on "new" "2024-12-01T08:00:00";
            never_visited "none"] "2024-06-01" 63852796800000000).
  - discriminate.
  - reflexivity.
  - repeat constructor.
    + eexists. split; [reflexivity|]. right. right.
      eexists. split; [reflexivity|]. right. eexists. reflexivity.
    + eexists. split; [reflexivity|]. right. right.
      eexists. split; [reflexivity|]. right. eexists. reflexivity.
    + eexists. split; [reflexivity|]. left. reflexivity.
Defined.

Lemma _parse_odata_date_raises_witness :
  (OverflowError = OverflowError
   /\ exists s ms,
        JStr "/Date(10000000000000000000000000000)/" = JStr s
        /\ startswith s "/Date(" = true /\ endswith s ")/" = true
        /\ py_int (slice_mid 6 2 s) = Ok ms
        /\ fromtimestamp_ms utc ms = Raise OverflowError)
  \/ (OverflowError = AttributeError
      /\ truthy (JStr "/Date(10000000000000000000000000000)/") = true
      /\ forall s, JStr "/Date(10000000000000000000000000000)/" <> JStr s).
Proof.
  apply (_parse_odata_date_raises utc
           (JStr "/Date(10000000000000000000000000000)/") OverflowError).
  vm_compute. reflexivity.
Defined.

Lemma sort_items_idempotent_witness :
  sort_items [never_visited "a"; never_visited "B"; never_visited "c"]
    "name" "asc"
  = Ok [never_visited "a"; never_visited "B"; never_visited "c"].
Proof.
  apply (sort_items_idempotent
           [never_visited "c"; never_visited "a"; never_visited "B"]
           "name" "asc").
  reflexivity.
Defined.

Lemma sort_items_null_key_witness :
  exists e,
    sort_items [visited_on "a" "2024-01-01T00:00:00";
                JDict [("lastVisitedTimeUTC", JNull)]]
      "last-visited" "desc" = Raise e.
Proof.
  apply (sort_items_null_key
           [visited_on "a" "2024-01-01T00:00:00";
            JDict [("lastVisitedTimeUTC", JNull)]]
           "last-visited" "lastVisitedTimeUTC" "desc"
           [("lastVisitedTimeUTC", JNull)]).
  - left. reflexivity.
  - simpl. lia.
  - right. left. reflexivity.
  - reflexivity.
Defined.

Lemma main_search_failure_witness :
  main logged_in answers_empty utc (search_for_models "moon" "table" None)
  = ([AcquireToken], [], Exit 1).
Proof.
  apply (proj1 (proj2 (main_search_failure logged_in answers_empty utc
                         (search_for_models "moon" "table" None) "Model"
                         eq_refl eq_refl eq_refl))).
  - reflexivity.
  - reflexivity.
Defined.

Lemma main_zero_results_witness :
  exists req,
    main logged_in answers_empty utc (search_for_models "uk-south" "brief" (Some 5))
    = ([AcquireToken; Post req], ["No items found."], Exit 0).
Proof.
  eexists.
  apply (main_zero_results logged_in answers_empty utc
           (search_for_models "uk-south" "brief" (Some 5)) "Model"
           "wabi-uk-south-e-primary-redirect.analysis.windows.net"
           _ "[]" (JList [])).
  - reflexivity.
  - reflexivity.
  - reflexivity.
  - reflexivity.
  - reflexivity.
  - vm_compute. reflexivity.
  - reflexivity.
  - left. reflexivity.
Defined.

Lemma apply_filters_idempotent_readable_witness :
  visited_and_mode_filter utc
    [visited_with_mode "new" "2024-12-01T08:00:00" 1]
    "2024-01-01" "import"
  = Ok [visited_with_mode "new" "2024-12-01T08:00:00" 1].
Proof.
  apply (apply_filters_idempotent_readable utc
           [visited_with_mode "old" "2020-01-01T08:00:00" 1;
            visited_with_mode "new" "2024-12-01T08:00:00" 1;
            visited_with_mode "far" "2024-12-01T08:00:00" 2]
           None None None (Some "2024-01-01") None None None None None
           (Some "import") None).
  - repeat constructor;
      (eexists; split; [reflexivity|]; right; right;
       eexists; split; [reflexivity|]; right; eexists; reflexivity).
  - reflexivity.
Defined.

Lemma not_visited_filter_readable_witness :
  not_visited_filter utc
    [visited_on "old" "2023-01-01T08:00:00";
     visited_on "new" "2024-12-01T08:00:00";
     never_visited "none"] "2024-06-01"
  = Ok (filter (visited_before 63852796800000000)
          [visited_on "old" "2023-01-01T08:00:00";
           visited_on "new" "2024-12-01T08:00:00";
           never_visited "none"]).
Proof.
  apply (not_visited_filter_readable utc
           [visited_on "old" "2023-01-01T08:00:00";
            visited_on "new" "2024-12-01T08:00:00";
            never_visited "none"] "2024-06-01" 63852796800000000).
  - discriminate.
  - reflexivity.
  - repeat constructor.
    + eexists. split; [reflexivity|]. right. right.
      eexists. split; [reflexivity|]. right. eexists. reflexivity.
    + eexists. split; [reflexivity|]. right. right.
      eexists. split; [reflexivity|]. right. eexists. reflexivity.
    + eexists. split; [reflexivity|]. left. reflexivity.
Defined.

Lemma apply_filters_case_insensitive_witness :
  ascii_arg (Some "sales") /\ ascii_arg (Some "import")
  /\ apply_filters utc
       [visited_with_mode "Sales Report" "2024-05-01T10:00:00" 1;
        never_visited "Inventory"]
       (Some "SALES") None None None None None None None None
       (Some "IMPORT") None
     = apply_filters utc
         [visited_with_mode "Sales Report" "2024-05-01T10:00:00" 1;
          never_visited "Inventory"]
         (Some "sales") None None None None None None None None
         (Some "import") None.
Proof.
  split; [reflexivity|]. split; [reflexivity|].
  apply (apply_filters_case_insensitive utc
           [visited_with_mode "Sales Report" "2024-05-01T10:00:00" 1;
            never_visited "Inventory"]
           (Some "sales") None None None None None None None None
           (Some "import") None);
    first [reflexivity | exact I].
Defined.
